(** * Routing examples of approutes.py: request handlers of the Flask,
    FastAPI, Starlette and Tornado demo applications

    The handlers are embedded as functions from a request to a response.
    Python values keep their shape: integers are [Z], strings are [string]
    (ASCII), dictionaries built by hand and sent through the JSON serializer
    are [JDict] association lists in source order, lookup tables are [gmap].
    An entry whose value the source takes from the clock, from uuid4 or
    computes in floating point is kept with its key; its value is [JOpaque]
    holding the source expression. *)

From Stdlib Require Import ZArith String Ascii List Bool Lia DecimalString.
From stdpp Require Import base option gmap strings list.

Set Warnings "-register-all,-clear-no-such-hyp".
Open Scope string_scope.
Open Scope Z_scope.

(* ===================================================================== *)
(** ** The Python fragment the handlers use *)
(* ===================================================================== *)

Module Py.

(** *** Exceptions *)

Inductive exn : Type :=
  | ValueError
  | KeyError
  | AttributeError
  | RuntimeError (msg : string)
  | WebSocketClosedError
  | HTTPException (status_code : Z) (detail : string)
  | RequestValidationError
  | ResponseValidationError.

Inductive outcome (A : Type) : Type :=
  | Return (a : A)
  | Raise (e : exn).

Arguments Return {A} a.
Arguments Raise {A} e.

#[global] Instance outcome_ret : MRet outcome := fun A a => Return a.
#[global] Instance outcome_bind : MBind outcome := fun A B k m =>
  match m with
  | Return a => k a
  | Raise e => Raise e
  end.

(** *** str *)

(** [s.startswith(p)] *)
Definition startswith (s p : string) : bool := String.prefix p s.

(** [s[n:]] *)
Definition str_from (n : nat) (s : string) : string :=
  substring n (String.length s - n) s.

Definition is_upper (c : ascii) : bool :=
  let n := nat_of_ascii c in (Nat.leb 65 n) && (Nat.leb n 90).

Definition lower_ascii (c : ascii) : ascii :=
  if is_upper c then ascii_of_nat (nat_of_ascii c + 32) else c.

(** [s.lower()] *)
Fixpoint lower (s : string) : string :=
  match s with
  | EmptyString => EmptyString
  | String c s' => String (lower_ascii c) (lower s')
  end.

(** [needle in hay] *)
Fixpoint contains (needle hay : string) : bool :=
  String.prefix needle hay ||
  match hay with
  | EmptyString => false
  | String _ hay' => contains needle hay'
  end.

(** truth value of a str: [if s:] *)
Definition nonempty (s : string) : bool :=
  match s with
  | EmptyString => false
  | String _ _ => true
  end.

Definition is_space (c : ascii) : bool :=
  let n := nat_of_ascii c in
  ((Nat.leb 9 n) && (Nat.leb n 13)) || ((Nat.leb 28 n) && (Nat.leb n 32)).

Fixpoint lstrip (s : string) : string :=
  match s with
  | EmptyString => EmptyString
  | String c s' => if is_space c then lstrip s' else s
  end.

Fixpoint rstrip (s : string) : string :=
  match s with
  | EmptyString => EmptyString
  | String c s' =>
      match rstrip s' with
      | EmptyString => if is_space c then EmptyString else String c EmptyString
      | r => String c r
      end
  end.

(** [s.strip()] *)
Definition strip (s : string) : string := rstrip (lstrip s).

(** *** int *)

Definition digit_val (c : ascii) : option Z :=
  let n := nat_of_ascii c in
  if (Nat.leb 48 n) && (Nat.leb n 57) then Some (Z.of_nat (n - 48)) else None.

(** Digits with single underscores between them, as [int] reads them;
    [seen] tells whether the previous character was a digit. *)
Fixpoint int_digits (acc : Z) (seen : bool) (s : string) : option Z :=
  match s with
  | EmptyString => if seen then Some acc else None
  | String c s' =>
      match digit_val c with
      | Some d => int_digits (10 * acc + d) true s'
      | None =>
          if Ascii.eqb c "_"%char && seen then int_digits acc false s' else None
      end
  end.

(** [int(s)] for a str: [None] stands for ValueError. *)
Definition int (s : string) : option Z :=
  match strip s with
  | String "+"%char r => int_digits 0 false r
  | String "-"%char r => Z.opp <$> int_digits 0 false r
  | r => int_digits 0 false r
  end.

(** [str(i)], [f"{i}"] *)
Definition str (i : Z) : string := NilZero.string_of_int (Z.to_int i).

Fixpoint zeros (n : nat) : string :=
  match n with
  | O => EmptyString
  | S n' => String "0"%char (zeros n')
  end.

Definition zfill (width : nat) (s : string) : string :=
  zeros (width - String.length s) ++ s.

(** [f"{i:03d}"]: the sign counts in the width. *)
Definition format_03d (i : Z) : string :=
  if i <? 0 then "-" ++ zfill 2 (str (- i)) else zfill 3 (str i).

(** *** list *)

Definition len {A : Type} (l : list A) : Z := Z.of_nat (length l).

(** [range(a, b)] *)
Definition range (a b : Z) : list Z :=
  (fun k : nat => a + Z.of_nat k) <$> seq 0 (Z.to_nat (b - a)).

(** A slice bound brought into [0 .. n]: a negative bound counts from the
    end. *)
Definition slice_index (n i : Z) : Z :=
  if i <? 0 then Z.max 0 (i + n) else Z.min i n.

(** [l[start:stop]] *)
Definition slice {A : Type} (l : list A) (start stop : Z) : list A :=
  let n := len l in
  let a := slice_index n start in
  let b := slice_index n stop in
  take (Z.to_nat (b - a)) (drop (Z.to_nat a) l).

(** *** Values sent through the JSON serializer *)

Inductive json : Type :=
  | JNull
  | JBool (b : bool)
  | JInt (i : Z)
  | JStr (s : string)
  | JList (l : list json)
  | JDict (d : list (string * json))
  | JOpaque (src : string).

(** [d.get(k)] on the entries of a dict *)
Fixpoint entries_get (k : string) (d : list (string * json)) : option json :=
  match d with
  | [] => None
  | (k', v) :: d' => if String.eqb k k' then Some v else entries_get k d'
  end.

(** [d.get(k, default)]; AttributeError when [d] is no dict. *)
Definition get (d : json) (k : string) (dflt : json) : outcome json :=
  match d with
  | JDict es => Return (from_option id dflt (entries_get k es))
  | _ => Raise AttributeError
  end.

(** [d[k]] *)
Definition subscript (d : json) (k : string) : outcome json :=
  match d with
  | JDict es =>
      match entries_get k es with
      | Some v => Return v
      | None => Raise KeyError
      end
  | _ => Raise AttributeError
  end.

(** truth value of a value the handler holds: [if v:], [not v].  A
    [JOpaque] here is one the source made from the clock or from uuid4,
    which counts as true. *)
Definition truthy (v : json) : bool :=
  match v with
  | JNull => false
  | JBool b => b
  | JInt i => negb (i =? 0)
  | JStr s => nonempty s
  | JList l => match l with [] => false | _ => true end
  | JDict d => match d with [] => false | _ => true end
  | JOpaque _ => true
  end.

(** truth value of a value decoded from a request body.  A decoded
    [JOpaque] is a float, false when it is zero: its value is not kept, so
    its truth value is not known and the result is [None]. *)
Definition truth (v : json) : option bool :=
  match v with
  | JOpaque _ => None
  | _ => Some (truthy v)
  end.

Definition json_eqb_str (v : json) (s : string) : bool :=
  match v with
  | JStr s' => String.eqb s' s
  | _ => false
  end.

(** [str(v)], [f"{v}"] for a value without items; a list or dict is
    rendered by its repr, which is not modelled. *)
Definition str_value (v : json) : option string :=
  match v with
  | JNull => Some "None"
  | JBool b => Some (if b then "True" else "False")
  | JInt i => Some (str i)
  | JStr s => Some s
  | _ => None
  end.

(** [f"{prefix}{v}"] as a value to send *)
Definition fstring (prefix : string) (v : json) (src : string) : json :=
  match str_value v with
  | Some s => JStr (prefix ++ s)
  | None => JOpaque src
  end.

(** [d[k] = v] on the entries of a dict: a new key goes last. *)
Fixpoint entries_set (k : string) (v : json) (d : list (string * json))
  : list (string * json) :=
  match d with
  | [] => [(k, v)]
  | (k', v') :: d' =>
      if String.eqb k k' then (k, v) :: d' else (k', v') :: entries_set k v d'
  end.

Definition setitem (d : json) (k : string) (v : json) : outcome json :=
  match d with
  | JDict es => Return (JDict (entries_set k v es))
  | _ => Raise AttributeError
  end.

(** [v in l] for a list of str *)
Definition str_in (s : string) (l : json) : bool :=
  match l with
  | JList vs => existsb (fun v => match v with JStr s' => String.eqb s s' | _ => false end) vs
  | _ => false
  end.

Definition is_dict (v : json) : bool :=
  match v with
  | JDict _ => true
  | _ => false
  end.

End Py.

Import Py.

(* ===================================================================== *)
(** ** Requests and responses *)
(* ===================================================================== *)

Module Http.

Record response : Type := Response {
  status_code : Z;
  content : json
}.

(** The status the client sees: the handler's own, the one carried by an
    HTTPException, 422 for a parameter the framework's validation refuses,
    500 for any other exception that leaves the handler. *)
Definition status (o : outcome response) : Z :=
  match o with
  | Return r => status_code r
  | Raise (HTTPException s _) => s
  | Raise RequestValidationError => 422
  | Raise _ => 500
  end.

(** The query arguments and the headers of a request, one value a name. *)
Abbreviation params := (gmap string string).

(** A path segment that the pattern [[0-9]+] matches: the Starlette
    convertor [int] and the group of the Tornado route
    [/users/([0-9]+)/?]. *)
Definition is_digit (c : ascii) : bool :=
  let n := nat_of_ascii c in Nat.leb 48 n && Nat.leb n 57.

Fixpoint digits_only (s : string) : bool :=
  match s with
  | EmptyString => true
  | String c s' => is_digit c && digits_only s'
  end.

Definition all_digits (segment : string) : bool :=
  nonempty segment && digits_only segment.

(** The bearer tokens the demo applications know. *)
Definition valid_token : string := "valid-token".
Definition admin_token : string := "admin-token".
Definition user_token : string := "user-token".

End Http.

Import Http.

(* ===================================================================== *)
(** ** Decoded bodies of any shape *)
(* ===================================================================== *)

(** A handler that decodes a request body gets whatever JSON the client
    sent; [in], subscription and [len] raise TypeError on an operand of
    the wrong type.  A decoded [JOpaque] is a float. *)

Module Dyn.

Inductive raised : Type :=
  | Exn (e : exn)
  | TypeError.

Inductive result (A : Type) : Type :=
  | Ok (a : A)
  | Fail (r : raised).

Arguments Ok {A} a.
Arguments Fail {A} r.

#[global] Instance result_ret : MRet result := fun A a => Ok a.






(** The status the client sees: 500 for an exception that leaves the
    handler. *)
Definition status (r : result response) : Z :=
  match r with
  | Ok resp => status_code resp
  | Fail _ => 500
  end.

End Dyn.

(* ===================================================================== *)
(** ** create_flask_app *)
(* ===================================================================== *)

Module Flask.

(** What [request.get_json()] does for a request: it returns the decoded
    body, or Flask itself answers 415 (the content type is not JSON) or 400
    (the body does not decode). *)
Inductive json_body : Type :=
  | Json (v : json)
  | UnsupportedMediaType
  | BadRequest.

Record request : Type := Request {
  args : params;
  headers : params;
  is_json : bool;
  get_json : json_body;
  current_user : option json
}.

(** [request.get_json()] *)
Definition the_json (req : request) : outcome json :=
  match get_json req with
  | Json v => Return v
  | UnsupportedMediaType => Raise (HTTPException 415 "Unsupported Media Type")
  | BadRequest => Raise (HTTPException 400 "Bad Request")
  end.

Definition set_current_user (req : request) (u : json) : request :=
  {| args := args req; headers := headers req; is_json := is_json req;
     get_json := get_json req; current_user := Some u |}.

(** [jsonify(body), code] *)
Definition jsonify (body : list (string * json)) (code : Z) : response :=
  Response code (JDict body).

(** [request.args.get(k, default)] *)
Definition args_get (a : params) (k dflt : string) : string :=
  from_option id dflt (a !! k).

(** [request.args.get(k, default, type=int)]: a value that [int] refuses
    gives the default. *)
Definition args_get_int (a : params) (k : string) (dflt : Z) : Z :=
  match a !! k with
  | Some v => from_option id dflt (int v)
  | None => dflt
  end.

Definition all_users : list json :=
  (fun i => JStr ("User_" ++ str i)) <$> range 1 101.

(** [GET /users] *)
Definition get_users (req : request) : outcome response :=
  let page := args_get_int (args req) "page" 1 in
  let limit := args_get_int (args req) "limit" 10 in
  let start := (page - 1) * limit in
  let end_ := start + limit in
  let users := slice all_users start end_ in
  Return (jsonify [
    ("users", JList users);
    ("page", JInt page);
    ("limit", JInt limit);
    ("total", JInt (len all_users));
    ("has_next", JBool (end_ <? len all_users))
  ] 200).

Definition search_result (query category : string) (i : Z) : json :=
  JDict [
    ("id", JInt i);
    ("title", JStr ("Result " ++ str i ++ " for '" ++ query ++ "'"));
    ("category", JStr category);
    ("relevance", JOpaque "0.95 - (i * 0.05)");
    ("url", JStr ("/result/" ++ str i))
  ].

(** [GET /search] *)
Definition search (req : request) : outcome response :=
  let query := args_get (args req) "q" "" in
  let category := args_get (args req) "category" "all" in
  let page := args_get_int (args req) "page" 1 in
  let limit := args_get_int (args req) "limit" 10 in
  if negb (nonempty query) then
    Return (jsonify [("error", JStr "Search query 'q' is required")] 400)
  else
    let limit := if limit >? 100 then 100 else limit in
    let results :=
      search_result query category <$>
        range ((page - 1) * limit + 1) (Z.min (page * limit + 1) 26) in
    Return (jsonify [
      ("query", JStr query);
      ("category", JStr category);
      ("page", JInt page);
      ("limit", JInt limit);
      ("results", JList results);
      ("total", JInt 25);
      ("has_next", JBool (page * limit <? 25))
    ] 200).

Definition valid_tokens : list string := [valid_token; admin_token; user_token].

(** The decorator [require_auth]: [f] runs with [request.current_user]
    set. *)
Definition require_auth (f : request -> outcome response) (req : request)
  : outcome response :=
  let auth_header := args_get (headers req) "Authorization" "" in
  if negb (startswith auth_header "Bearer ") then
    Return (jsonify [("error", JStr "Authentication required")] 401)
  else
    let token := str_from 7 auth_header in
    if negb (bool_decide (token ∈ valid_tokens)) then
      Return (jsonify [("error", JStr "Invalid token")] 401)
    else
      f (set_current_user req (JDict [
        ("token", JStr token);
        ("username", JStr (if String.eqb token admin_token then "admin" else "user"));
        ("is_admin", JBool (String.eqb token admin_token))
      ])).

(** The decorator [rate_limit(max_requests)] calls through. *)
Definition rate_limit (max_requests : Z) (f : request -> outcome response)
  : request -> outcome response := f.

Definition the_current_user (req : request) : outcome json :=
  match current_user req with
  | Some u => Return u
  | None => Raise AttributeError
  end.

(** [GET /api/v1/protected] *)
Definition protected_resource : request -> outcome response :=
  require_auth (rate_limit 50 (fun req =>
    user ← the_current_user req;
    username ← subscript user "username";
    is_admin ← subscript user "is_admin";
    Return (jsonify [
      ("message", JStr "This is a protected resource");
      ("user", username);
      ("is_admin", is_admin);
      ("timestamp", JOpaque "time.time()")
    ] 200))).


(** The decorator [require_admin] *)
Definition require_admin (f : request -> outcome response) (req : request)
  : outcome response :=
  let auth_header := args_get (headers req) "Authorization" "" in
  if negb (startswith auth_header "Bearer ") then
    Return (jsonify [("error", JStr "Authentication required")] 401)
  else
    let token := str_from 7 auth_header in
    if negb (String.eqb token admin_token) then
      Return (jsonify [("error", JStr "Admin access required")] 403)
    else
      f req.

(** [GET /admin/stats] *)
Definition admin_stats : request -> outcome response :=
  require_admin (fun _ =>
    Return (jsonify [
      ("total_users", JInt 150);
      ("active_users", JInt 89);
      ("total_posts", JInt 456);
      ("active_sessions", JInt 25);
      ("system_status", JStr "healthy");
      ("uptime", JStr "5 days, 3 hours");
      ("memory_usage", JStr "45%");
      ("cpu_usage", JStr "12%")
    ] 200)).

(** *** [/api/users] *)

(** The methods the route [/api/users] is registered for. *)
Inductive method : Type := GET | POST | PUT | DELETE.

(** [v or {}] for a decoded [v] *)
Definition or_empty (v : json) : option json :=
  match truth v with
  | Some t => Some (if t then v else JDict [])
  | None => None
  end.

(** The branch for POST of [api_users], from the decoded body on *)
Definition api_users_post (v : json) : option (outcome response) :=
  match or_empty v with
  | None => None
  | Some data =>
      match get data "username" JNull with
      | Raise e => Some (Raise e)
      | Return username =>
          match truth username with
          | None => None
          | Some t =>
              Some (Return (
                if negb t then jsonify [("error", JStr "Username is required")] 400
                else jsonify [
                  ("action", JStr "create_user"); ("data", data);
                  ("status", JStr "created")
                ] 201))
          end
      end
  end.

(** The branch for PUT of [api_users], from the decoded body on *)
Definition api_users_put (v : json) : option (outcome response) :=
  match or_empty v with
  | None => None
  | Some data =>
      Some (Return (jsonify [
        ("action", JStr "update_user"); ("data", data); ("status", JStr "updated")
      ] 200))
  end.

(** [GET, POST, PUT, DELETE /api/users].  The result is [None] where the
    answer turns on the truth value of a decoded float. *)
Definition api_users (m : method) (req : request) : option (outcome response) :=
  match m with
  | GET =>
      Some (Return (jsonify [
        ("action", JStr "get_users");
        ("users", JList [JStr "Alice"; JStr "Bob"; JStr "Charlie"])
      ] 200))
  | POST =>
      match the_json req with
      | Return v => api_users_post v
      | Raise e => Some (Raise e)
      end
  | PUT =>
      match the_json req with
      | Return v => api_users_put v
      | Raise e => Some (Raise e)
      end
  | DELETE =>
      Some (Return (jsonify [
        ("action", JStr "delete_user"); ("status", JStr "deleted")
      ] 204))
  end.

End Flask.

(* ===================================================================== *)
(** ** create_fastapi_app *)
(* ===================================================================== *)

Module FastAPI.

(** The pydantic model [User]; [created_at] defaults to the clock. *)
Record User : Type := mkUser {
  id : Z;
  username : string;
  email : string;
  is_active : bool;
  is_admin : bool
}.

Definition jsonable_user (u : User) : json :=
  JDict [
    ("id", JInt (id u));
    ("username", JStr (username u));
    ("email", JStr (email u));
    ("is_active", JBool (is_active u));
    ("is_admin", JBool (is_admin u));
    ("created_at", JOpaque "time.time()")
  ].

(** *** Declared parameters: [Query(...)], [Path(...)]

    A parameter that is missing without a default, does not read as its
    declared type, or breaks a declared bound never reaches the handler:
    the framework answers with its validation error. *)

Definition in_bounds (ge le : option Z) (v : Z) : bool :=
  from_option (fun b => b <=? v) true ge && from_option (fun b => v <=? b) true le.

Definition Query_int (a : params) (k : string) (dflt : Z) (ge le : option Z)
  : outcome Z :=
  match a !! k with
  | None => Return dflt
  | Some raw =>
      match int raw with
      | Some v => if in_bounds ge le v then Return v else Raise RequestValidationError
      | None => Raise RequestValidationError
      end
  end.

Definition Query_str (a : params) (k : string) (dflt : option string)
    (min_length max_length : option Z) : outcome string :=
  match a !! k with
  | None =>
      match dflt with
      | Some d => Return d
      | None => Raise RequestValidationError
      end
  | Some v =>
      if in_bounds min_length max_length (Z.of_nat (String.length v))
      then Return v else Raise RequestValidationError
  end.

(** [Path(..., gt=0)] *)
Definition Path_gt (bound : Z) (v : Z) : outcome Z :=
  if bound <? v then Return v else Raise RequestValidationError.

(** *** Request bodies

    What the framework makes of the body of a request before the handler
    is called.  The body is read first, before any dependency runs: one
    that does not decode is [Unreadable] and is answered at once.  What
    was read is held against the declared model or parameter after the
    dependencies, with the other declared parameters: it is [Invalid]
    when the model or parameter refuses it, else [Valid] with the
    instance it gives. *)

Inductive body (A : Type) : Type :=
  | Unreadable
  | Invalid
  | Valid (a : A).

Arguments Unreadable {A}.
Arguments Invalid {A}.
Arguments Valid {A} a.

(** A JSON body that does not decode: the validation error. *)
Definition read_json {A : Type} (b : body A) : outcome unit :=
  match b with
  | Unreadable => Raise RequestValidationError
  | _ => Return tt
  end.

(** A form that does not parse: 400, with the message of the parser. *)
Definition read_form {A : Type} (b : body A) : outcome unit :=
  match b with
  | Unreadable => Raise (HTTPException 400 "exc.message")
  | _ => Return tt
  end.

Definition validated {A : Type} (b : body A) : outcome A :=
  match b with
  | Valid a => Return a
  | _ => Raise RequestValidationError
  end.

(** *** Dependencies

    The dependencies of a route run before its declared parameters are
    validated: an exception of a dependency is the answer even when a
    parameter is out of bounds. *)

Definition user_map : gmap string User :=
  <[valid_token := mkUser 1 "johndoe" "john@example.com" true false]>
  (<[admin_token := mkUser 2 "admin" "admin@example.com" true true]>
  (<[user_token := mkUser 3 "alice" "alice@example.com" true false]> ∅)).

(** [get_current_user]: [token] is [credentials.credentials], the bearer
    token the security scheme read from the request. *)
Definition get_current_user (token : string) : outcome User :=
  match user_map !! token with
  | Some u => Return u
  | None => Raise (HTTPException 401 "Invalid authentication credentials")
  end.


(** *** Routes *)

Definition user_data : gmap Z User :=
  <[1 := mkUser 1 "alice" "alice@example.com" true false]>
  (<[2 := mkUser 2 "bob" "bob@example.com" false false]>
  (<[3 := mkUser 3 "charlie" "charlie@example.com" true false]> ∅)).

(** [GET /users/{user_id}] *)
Definition get_user (user_id : Z) : outcome response :=
  user_id ← Path_gt 0 user_id;
  match user_data !! user_id with
  | None =>
      Raise (HTTPException 404 ("User with ID " ++ str user_id ++ " not found"))
  | Some u => Return (Response 200 (jsonable_user u))
  end.

(** *** Models and the bounds declared with [Field]

    An instance of a model exists only for values that pass the bounds of
    its fields: the record holds the evidence.  The values are str of
    ASCII characters, where [len] counts the characters and [\w] is a
    letter, a digit or the underscore. *)

Fixpoint is_ascii (s : string) : bool :=
  match s with
  | EmptyString => true
  | String c s' => Nat.ltb (nat_of_ascii c) 128 && is_ascii s'
  end.

Definition is_alnum (c : ascii) : bool :=
  let n := nat_of_ascii c in
  (Nat.leb 48 n && Nat.leb n 57) || (Nat.leb 65 n && Nat.leb n 90)
  || (Nat.leb 97 n && Nat.leb n 122).

(** [\w] *)
Definition is_word (c : ascii) : bool := is_alnum c || Ascii.eqb c "_"%char.

(** [[\w\.-]] *)
Definition is_name_char (c : ascii) : bool :=
  is_word c || Ascii.eqb c "."%char || Ascii.eqb c "-"%char.

Fixpoint all_chars (p : ascii -> bool) (s : string) : bool :=
  match s with
  | EmptyString => true
  | String c s' => p c && all_chars p s'
  end.

(** [s] cut at its first [@] *)
Fixpoint split_at_sign (s : string) : option (string * string) :=
  match s with
  | EmptyString => None
  | String c s' =>
      if Ascii.eqb c "@"%char then Some (EmptyString, s')
      else
        match split_at_sign s' with
        | Some (l, r) => Some (String c l, r)
        | None => None
        end
  end.

(** [s] cut at its last dot *)
Fixpoint split_last_dot (s : string) : option (string * string) :=
  match s with
  | EmptyString => None
  | String c s' =>
      match split_last_dot s' with
      | Some (x, w) => Some (String c x, w)
      | None => if Ascii.eqb c "."%char then Some (EmptyString, s') else None
      end
  end.

(** [$] also matches before a newline that ends the str: [s] without
    it. *)
Fixpoint before_final_newline (s : string) : string :=
  match s with
  | EmptyString => EmptyString
  | String c s' =>
      match s' with
      | EmptyString => if Ascii.eqb c "010"%char then EmptyString else s
      | _ => String c (before_final_newline s')
      end
  end.

(** [re.match(r'^[\w\.-]+@[\w\.-]+\.\w+$', v)]: neither class holds
    the [@], and [\w] holds no dot, so the cuts are at the first [@] and
    at the last dot. *)
Definition matches_email (v : string) : bool :=
  match split_at_sign (before_final_newline v) with
  | Some (name, domain) =>
      nonempty name && all_chars is_name_char name &&
      match split_last_dot domain with
      | Some (x, w) =>
          nonempty x && all_chars is_name_char x
          && nonempty w && all_chars is_word w
      | None => false
      end
  | None => false
  end.

(** [Field(..., min_length=a, max_length=b)] *)
Definition length_within (min_length max_length : option Z) (v : string) : bool :=
  is_ascii v && in_bounds min_length max_length (Z.of_nat (String.length v)).

(** [Field(..., regex=r'^[\w\.-]+@[\w\.-]+\.\w+$')] *)
Definition email_ok (v : string) : bool := is_ascii v && matches_email v.

(** A field of a model whose fields are all Optional: the client left it
    out, sent null, or sent a value. *)
Inductive field (A : Type) : Type :=
  | Unset
  | Null
  | Given (a : A).

Arguments Unset {A}.
Arguments Null {A}.
Arguments Given {A} a.

(** The bound of an Optional field is held against a value only. *)
Definition accepts {A : Type} (bound : A -> bool) (f : field A) : bool :=
  match f with
  | Given a => bound a
  | _ => true
  end.

(** An instance of the pydantic model [UserUpdate] *)
Record UserUpdate : Type := mkUserUpdate {
  upd_username : field string;
  upd_email : field string;
  upd_is_active : field bool;
  upd_accepted :
    Is_true (accepts (length_within (Some 3) (Some 20)) upd_username
             && accepts email_ok upd_email)
}.

(** [setattr(updated_user, field, value)] over
    [dict(exclude_unset=True)]: a field left out keeps the current value,
    [None] stands for the Python None a null puts there. *)
Definition updated {A : Type} (current : A) (f : field A) : option A :=
  match f with
  | Unset => Some current
  | Null => None
  | Given a => Some a
  end.

(** [return updated_user] under [response_model=User]: no field of [User]
    takes None. *)
Definition as_user (id : Z) (username email : option string)
    (is_active : option bool) (is_admin : bool) : outcome response :=
  match username, email, is_active with
  | Some username, Some email, Some is_active =>
      Return (Response 200 (jsonable_user (mkUser id username email is_active is_admin)))
  | _, _, _ => Raise ResponseValidationError
  end.

(** [PUT /users/{user_id}]; [Valid None] is a request without a body. *)
Definition update_user (user_id : Z) (user_update : body (option UserUpdate))
    (token : string) : outcome response :=
  _ ← read_json user_update;
  current_user ← get_current_user token;
  user_id ← Path_gt 0 user_id;
  user_update ← validated user_update;
  if negb (user_id =? id current_user) && negb (is_admin current_user) then
    Raise (HTTPException 403 "You can only update your own profile")
  else
    match user_update with
    | Some upd =>
        as_user (id current_user)
          (updated (username current_user) (upd_username upd))
          (updated (email current_user) (upd_email upd))
          (updated (is_active current_user) (upd_is_active upd))
          (is_admin current_user)
    | None => Return (Response 200 (jsonable_user current_user))
    end.


Definition categories : list string := ["all"; "users"; "posts"; "products"].

Definition nth_str (l : list string) (i : Z) : string :=
  nth (Z.to_nat i) l "".

Definition search_result (q category : string) (i : Z) : json :=
  JDict [
    ("id", JInt i);
    ("title", JStr ("Search result " ++ str i ++ " for '" ++ q ++ "'"));
    ("category", JStr (if negb (String.eqb category "all") then category
                       else nth_str ["users"; "posts"; "products"] (i mod 3)));
    ("relevance_score", JOpaque "round(0.95 - (i * 0.02), 2)");
    ("created_at", JOpaque "time.time() - (i * 86400)");
    ("url", JStr ("/result/" ++ str i));
    ("snippet", JStr ("This is a snippet of result " ++ str i
                      ++ " containing the query '" ++ q ++ "'..."))
  ].

(** [GET /search] *)
Definition search (a : params) : outcome response :=
  q ← Query_str a "q" None (Some 1) (Some 100);
  category ← Query_str a "category" (Some "all") None None;
  page ← Query_int a "page" 1 (Some 1) None;
  limit ← Query_int a "limit" 10 (Some 1) (Some 100);
  sort_by ← Query_str a "sort_by" (Some "relevance") None None;
  if negb (bool_decide (category ∈ categories)) then
    Raise (HTTPException 400
      "Invalid category. Must be one of: ['all', 'users', 'posts', 'products']")
  else
    let total_results := 47 in
    let results :=
      search_result q category <$>
        range ((page - 1) * limit + 1) (Z.min (page * limit + 1) (total_results + 1)) in
    Return (Response 200 (JDict [
      ("query", JStr q);
      ("results", JList results);
      ("total", JInt total_results);
      ("page", JInt page);
      ("limit", JInt limit);
      ("has_next", JBool (page * limit <? total_results))
    ])).

Record UploadFile : Type := mkUploadFile {
  filename : string;
  content_type : string;
  read : list Byte.byte
}.

Definition max_size : Z := 10 * 1024 * 1024.

(** [POST /files/upload] *)
Definition upload_file (file : body UploadFile) (token : string)
  : outcome response :=
  _ ← read_form file;
  current_user ← get_current_user token;
  file ← validated file;
  let file_content := read file in
  if len file_content >? max_size then
    Raise (HTTPException 413 "File too large")
  else
    Return (Response 200 (JDict [
      ("filename", JStr (filename file));
      ("content_type", JStr (content_type file));
      ("size", JInt (len file_content));
      ("uploaded_by", JStr (username current_user));
      ("upload_time", JOpaque "time.time()")
    ])).





(** *** [WS /ws] *)

Section WebSocket.

(** [json.loads]: [None] stands for JSONDecodeError. *)
Variable json_loads : string -> option json.

(** One turn of the receive loop of [websocket_endpoint]: the frame
    [data] comes in, the result is the text sent back, before
    [json.dumps]. *)
Definition websocket_endpoint (data : string) : outcome json :=
  let message :=
    match json_loads data with
    | Some m => m
    | None => JDict [("type", JStr "text"); ("content", JStr data)]
    end in
  is_ping ←
    (if is_dict message then
       ty ← get message "type" JNull; Return (json_eqb_str ty "ping")
     else Return false);
  let response :=
    if is_ping : bool then
      JDict [("type", JStr "pong"); ("timestamp", JOpaque "time.time()")]
    else
      JDict [("type", JStr "echo"); ("data", message);
             ("timestamp", JOpaque "time.time()")] in
  Return response.

End WebSocket.

(** *** [GET /users], [GET /posts] and the validator of [UserCreate]

    These take their parameters as the framework hands them over, typed;
    the bounds declared with [Query] are checked first. *)

Definition check_int (ge le : option Z) (v : Z) : outcome Z :=
  if in_bounds ge le v then Return v else Raise RequestValidationError.

Definition check_str (min_length max_length : option Z) (v : string)
  : outcome string :=
  if in_bounds min_length max_length (Z.of_nat (String.length v))
  then Return v else Raise RequestValidationError.

Definition all_users : list User := [
  mkUser 1 "alice" "alice@example.com" true false;
  mkUser 2 "bob" "bob@example.com" false false;
  mkUser 3 "charlie" "charlie@example.com" true false;
  mkUser 4 "diana" "diana@example.com" true false
].

(** [filtered_users] of [get_users] before the page is cut. *)
Definition filtered_users (active_only : bool) (search : option string)
  : list User :=
  let filtered_users := all_users in
  let filtered_users :=
    if active_only then List.filter is_active filtered_users else filtered_users in
  match search with
  | Some search =>
      if nonempty search then
        List.filter (fun u => contains (lower search) (lower (username u)))
          filtered_users
      else filtered_users
  | None => filtered_users
  end.

(** [GET /users] *)
Definition get_users (skip limit : Z) (active_only : bool) (search : option string)
  : outcome response :=
  skip ← check_int (Some 0) None skip;
  limit ← check_int (Some 1) (Some 100) limit;
  search ← match search with
           | Some v => v' ← check_str (Some 1) (Some 50) v; Return (Some v')
           | None => Return None
           end;
  Return (Response 200 (JList (
    jsonable_user <$> slice (filtered_users active_only search) skip (skip + limit)))).

(** The pydantic model [Post] *)
Record Post : Type := mkPost {
  p_id : Z;
  p_title : string;
  p_content : string;
  p_author_id : Z;
  p_published : bool
}.

Definition jsonable_post (p : Post) : json :=
  JDict [
    ("id", JInt (p_id p));
    ("title", JStr (p_title p));
    ("content", JStr (p_content p));
    ("author_id", JInt (p_author_id p));
    ("published", JBool (p_published p));
    ("created_at", JOpaque "time.time()")
  ].

Definition all_posts : list Post := [
  mkPost 1 "FastAPI Tutorial" "Deep dive into FastAPI..." 1 true;
  mkPost 2 "Async Python" "Learn async programming..." 2 true;
  mkPost 3 "Draft Post" "Work in progress..." 1 false
].

(** [filtered_posts] of [get_posts] before the list is cut; [if author_id:]
    takes neither None nor 0. *)
Definition filtered_posts (published_only : bool) (author_id : option Z)
  : list Post :=
  let filtered_posts := all_posts in
  let filtered_posts :=
    if published_only then List.filter p_published filtered_posts
    else filtered_posts in
  match author_id with
  | Some a =>
      if negb (a =? 0) then List.filter (fun p => p_author_id p =? a) filtered_posts
      else filtered_posts
  | None => filtered_posts
  end.

(** [GET /posts] *)
Definition get_posts (published_only : bool) (author_id : option Z) (limit : Z)
  : outcome response :=
  limit ← check_int (Some 1) (Some 50) limit;
  Return (Response 200 (JList (
    jsonable_post <$> slice (filtered_posts published_only author_id) 0 limit))).

Fixpoint all_alnum (s : string) : bool :=
  match s with
  | EmptyString => true
  | String c s' => is_alnum c && all_alnum s'
  end.

(** [s.isalnum()] for a str of ASCII characters: false on the empty str.
    Outside ASCII the answer goes by the Unicode tables, which are not
    kept: [None]. *)
Definition isalnum (s : string) : option bool :=
  if is_ascii s then Some (nonempty s && all_alnum s) else None.

(** [v.replace('_', '')] *)
Fixpoint remove_underscores (v : string) : string :=
  match v with
  | EmptyString => EmptyString
  | String c v' =>
      if Ascii.eqb c "_"%char then remove_underscores v'
      else String c (remove_underscores v')
  end.

(** The validator of [UserCreate.username]; [None] where [isalnum] gives
    none. *)
Definition username_must_be_alphanumeric (v : string) : option (outcome string) :=
  match isalnum (remove_underscores v) with
  | Some alnum => Some (if negb alnum then Raise ValueError else Return (lower v))
  | None => None
  end.

End FastAPI.

(* ===================================================================== *)
(** ** create_starlette_app *)
(* ===================================================================== *)

Module Starlette.

(** An upload: [content_type] is [None] when the object has no such
    attribute, [read] is the content [await file_data.read()] gives. *)
Record UploadFile : Type := mkUploadFile {
  filename : string;
  content_type : option string;
  read : list Byte.byte
}.

(** A form value: a plain field, or an upload (it has [filename] and
    [file]). *)
Inductive form_value : Type :=
  | FormText (s : string)
  | FormFile (f : UploadFile).

(** [form] holds the fields of the form as they were sent, in order; a
    field name may come more than once. *)
Record request : Type := Request {
  query_params : params;
  headers : params;
  path_params : gmap string Z;
  form : list (string * form_value)
}.

(** The dict a multi-dict keeps next to its list of fields,
    [{k: v for k, v in fields}]: a name stays where it first came and
    holds the value that came last. *)
Fixpoint dict_set (k : string) (v : form_value) (d : list (string * form_value))
  : list (string * form_value) :=
  match d with
  | [] => [(k, v)]
  | (k', v') :: d' =>
      if String.eqb k' k then (k', v) :: d' else (k', v') :: dict_set k v d'
  end.

(** [form.items()]: one item a field name. *)
Definition items (fields : list (string * form_value))
  : list (string * form_value) :=
  foldl (fun d kv => dict_set kv.1 kv.2 d) [] fields.

Definition JSONResponse (body : list (string * json)) (code : Z) : response :=
  Response code (JDict body).

(** *** TokenAuthBackend *)

Record token_user : Type := mkTokenUser {
  tu_username : string;
  tu_scopes : list string
}.

Definition token_users : gmap string token_user :=
  <[admin_token := mkTokenUser "admin" ["authenticated"; "admin"]]>
  (<[user_token := mkTokenUser "user" ["authenticated"]]>
  (<[valid_token := mkTokenUser "guest" ["authenticated"]]> ∅)).

(** [authenticate]: the scopes of AuthCredentials and the name of
    SimpleUser, or [None]. *)
Definition authenticate (conn_headers : params) : option (list string * string) :=
  match conn_headers !! "Authorization" with
  | None => None
  | Some auth =>
      if negb (startswith auth "Bearer ") then None
      else
        let token := str_from 7 auth in
        match token_users !! token with
        | Some user_data => Some (tu_scopes user_data, tu_username user_data)
        | None => None
        end
  end.


Definition is_authenticated (req : request) : bool :=
  bool_decide (is_Some (authenticate (headers req))).

Definition display_name (req : request) : string :=
  match authenticate (headers req) with
  | Some (_, name) => name
  | None => ""
  end.

(** *** Route handlers *)

(** [int(request.query_params.get(k, default))] *)
Definition query_int (a : params) (k : string) (dflt : Z) : outcome Z :=
  match a !! k with
  | None => Return dflt
  | Some v =>
      match int v with
      | Some i => Return i
      | None => Raise ValueError
      end
  end.

Definition query_get (a : params) (k dflt : string) : string :=
  from_option id dflt (a !! k).

Definition user_record (i : Z) : json :=
  JDict [
    ("id", JInt i);
    ("username", JStr ("user_" ++ str i));
    ("email", JStr ("user_" ++ str i ++ "@example.com"));
    ("active", JBool (negb (i mod 3 =? 0)));
    ("created_at", JOpaque "time.time() - (i * 86400)")
  ].

Definition all_users : list json := user_record <$> range 1 51.

(** [u[k]] where the value is a str *)
Definition str_field (u : json) (k : string) : string :=
  match subscript u k with
  | Return (JStr s) => s
  | _ => ""
  end.

(** The list the page is cut from: [all_users] after the [search]
    filter. *)
Definition searched_users (search : string) : list json :=
  if nonempty search then
    List.filter (fun u => contains (lower search) (lower (str_field u "username")))
      all_users
  else all_users.

(** [GET /api/v1/users] *)
Definition users_list (req : request) : outcome response :=
  page ← query_int (query_params req) "page" 1;
  limit ← query_int (query_params req) "limit" 10;
  let search := query_get (query_params req) "search" "" in
  if page <? 1 then
    Return (JSONResponse [("error", JStr "Page must be >= 1")] 400)
  else if (limit <? 1) || (limit >? 100) then
    Return (JSONResponse [("error", JStr "Limit must be between 1-100")] 400)
  else
    let all_users := searched_users search in
    let start := (page - 1) * limit in
    let end_ := start + limit in
    let users := slice all_users start end_ in
    Return (JSONResponse [
      ("users", JList users);
      ("pagination", JDict [
        ("page", JInt page);
        ("limit", JInt limit);
        ("total", JInt (len all_users));
        ("has_next", JBool (end_ <? len all_users));
        ("has_previous", JBool (page >? 1))
      ]);
      ("filters", JDict [("search", JStr search)])
    ] 200).

(** [GET /api/v1/users/{user_id:int}] *)
Definition user_detail (req : request) : outcome response :=
  user_id ← match path_params req !! "user_id" with
            | Some v => Return v
            | None => Raise KeyError
            end;
  if user_id <=? 0 then
    Return (JSONResponse [("error", JStr "Invalid user ID")] 400)
  else if user_id >? 50 then
    Return (JSONResponse [("error", JStr "User not found")] 404)
  else
    Return (JSONResponse [
      ("id", JInt user_id);
      ("username", JStr ("user_" ++ str user_id));
      ("email", JStr ("user_" ++ str user_id ++ "@example.com"));
      ("profile", JDict [
        ("full_name", JStr ("User Number " ++ str user_id));
        ("bio", JStr ("I am user number " ++ str user_id));
        ("location", JStr "Internet")
      ]);
      ("stats", JDict [
        ("posts", JInt (user_id * 2));
        ("followers", JInt (user_id * 5));
        ("following", JInt (user_id * 3))
      ]);
      ("active", JBool (negb (user_id mod 3 =? 0)));
      ("created_at", JOpaque "time.time() - (user_id * 86400)")
    ] 200).

(** The handler of the application for 404, which also answers a path
    that no route matches. *)
Definition not_found (path : string) : response :=
  JSONResponse [
    ("error", JStr "Endpoint not found");
    ("path", JStr path);
    ("available_endpoints", JList (JStr <$> [
      "/"; "/search"; "/protected"; "/admin";
      "/api/v1/status"; "/api/v1/users"; "/files/upload"; "/ws"
    ]))
  ] 404.

(** [GET /api/v1/users/<segment>] through the route
    [/users/{user_id:int}]: the convertor takes digits only and hands
    [int(segment)] over in [path_params]; no other route under [/api/v1]
    takes such a path. *)
Definition user_detail_route (segment : string) (req : request)
  : outcome response :=
  if all_digits segment then
    match int segment with
    | Some v =>
        user_detail (Request (query_params req) (headers req)
                       (<["user_id" := v]> (path_params req)) (form req))
    | None => Raise ValueError
    end
  else Return (not_found ("/api/v1/users/" ++ segment)).

Definition valid_categories : list string := ["all"; "users"; "posts"; "files"].

Definition nth_str (l : list string) (i : Z) : string :=
  nth (Z.to_nat i) l "".

Definition search_result (query category : string) (i : Z) : json :=
  JDict [
    ("id", JInt i);
    ("title", JStr ("Search result " ++ str i ++ " for '" ++ query ++ "'"));
    ("category", JStr (if negb (String.eqb category "all") then category
                       else nth_str ["users"; "posts"; "files"] (i mod 3)));
    ("relevance", JOpaque "round(0.95 - (i * 0.01), 2)");
    ("created_at", JOpaque "time.time() - (i * 3600)");
    ("url", JStr ("/" ++ category ++ "/" ++ str i));
    ("snippet", JStr ("This is result " ++ str i ++ " containing '" ++ query
                      ++ "' with relevant content..."))
  ].

(** [GET /search] *)
Definition search_handler (req : request) : outcome response :=
  let query := query_get (query_params req) "q" "" in
  let category := query_get (query_params req) "category" "all" in
  page ← query_int (query_params req) "page" 1;
  limit ← query_int (query_params req) "limit" 10;
  if negb (nonempty query) then
    Return (JSONResponse [("error", JStr "Search query 'q' is required")] 400)
  else if negb (bool_decide (category ∈ valid_categories)) then
    Return (JSONResponse [
      ("error", JStr "Invalid category. Must be one of: ['all', 'users', 'posts', 'files']")
    ] 400)
  else
    let total_results := 42 in
    let results :=
      search_result query category <$>
        range ((page - 1) * limit + 1) (Z.min (page * limit + 1) (total_results + 1)) in
    Return (JSONResponse [
      ("query", JStr query);
      ("category", JStr category);
      ("results", JList results);
      ("pagination", JDict [
        ("page", JInt page);
        ("limit", JInt limit);
        ("total", JInt total_results);
        ("has_next", JBool (page * limit <? total_results))
      ]);
      ("search_time", JStr "0.045s")
    ] 200).



Definition max_size : Z := 10 * 1024 * 1024.

(** The loop of [upload_handler] over the items [form.items()] gives: it
    leaves with the 413 response at the first upload over [max_size], or
    runs to the end with [uploaded_files] and [total_size]. *)
Fixpoint upload_loop (items : list (string * form_value))
    (uploaded_files : list json) (total_size : Z)
  : response + (list json * Z) :=
  match items with
  | [] => inr (uploaded_files, total_size)
  | (field_name, FormText _) :: items' =>
      upload_loop items' uploaded_files total_size
  | (field_name, FormFile file_data) :: items' =>
      let content := read file_data in
      let file_size := len content in
      let total_size := total_size + file_size in
      if file_size >? max_size then
        inl (JSONResponse [
          ("error", JStr ("File " ++ filename file_data ++ " too large"))
        ] 413)
      else
        upload_loop items'
          (uploaded_files ++ [JDict [
            ("field_name", JStr field_name);
            ("filename", JStr (filename file_data));
            ("content_type",
             JStr (from_option id "application/octet-stream" (content_type file_data)));
            ("size", JInt file_size);
            ("file_id", JOpaque "file_{int(time.time())}_{len(uploaded_files)}")
          ]])
          total_size
  end.

(** [POST /files/upload] *)
Definition upload_handler (req : request) : outcome response :=
  if negb (is_authenticated req) then
    Return (JSONResponse [
      ("error", JStr "Authentication required for file uploads")
    ] 401)
  else
    match upload_loop (items (form req)) [] 0 with
    | inl too_large => Return too_large
    | inr (uploaded_files, total_size) =>
        if negb (truthy (JList uploaded_files)) then
          Return (JSONResponse [("error", JStr "No files were uploaded")] 400)
        else
          Return (JSONResponse [
            ("message", JStr ("Processed " ++ str (len uploaded_files) ++ " files"));
            ("uploaded_by", JStr (display_name req));
            ("upload_time", JOpaque "time.time()");
            ("files", JList uploaded_files);
            ("total_size", JInt total_size)
          ] 201)
    end.

(** *** [WS /ws] *)

Definition available_commands : json :=
  JList [JStr "echo"; JStr "time"; JStr "stats"; JStr "ping"].

Definition process_websocket_message (message : json) : outcome json :=
  if is_dict message then
    msg_type ← get message "type" (JStr "text");
    if json_eqb_str msg_type "echo" then
      Return (JDict [
        ("type", JStr "echo_response");
        ("original", message);
        ("timestamp", JOpaque "time.time()")
      ])
    else if json_eqb_str msg_type "time" then
      Return (JDict [
        ("type", JStr "time_response");
        ("server_time", JOpaque "time.ctime()");
        ("unix_timestamp", JOpaque "time.time()")
      ])
    else if json_eqb_str msg_type "stats" then
      Return (JDict [
        ("type", JStr "stats_response");
        ("server_stats", JDict [
          ("uptime", JStr "2 days, 14 hours");
          ("active_connections", JInt 12);
          ("memory_usage", JStr "45%")
        ]);
        ("timestamp", JOpaque "time.time()")
      ])
    else if json_eqb_str msg_type "ping" then
      Return (JDict [("type", JStr "pong"); ("timestamp", JOpaque "time.time()")])
    else
      Return (JDict [
        ("type", JStr "unknown_command");
        ("message", fstring "Unknown command: " msg_type "Unknown command: {msg_type}");
        ("available_commands", available_commands);
        ("timestamp", JOpaque "time.time()")
      ])
  else
    Return (JDict [
      ("type", JStr "text_echo");
      ("message", fstring "" message "str(message)");
      ("timestamp", JOpaque "time.time()")
    ]).

Section WebSocket.

(** [json.loads]: [None] stands for JSONDecodeError. *)
Variable json_loads : string -> option json.

(** One turn of the receive loop of [websocket_endpoint]: the frame
    [data] comes in, the result is the text sent back, before
    [json.dumps]. *)
Definition websocket_endpoint (data : string) : outcome json :=
  let message :=
    match json_loads data with
    | Some m => m
    | None => JDict [("type", JStr "text"); ("content", JStr data)]
    end in
  response ← process_websocket_message message;
  Return response.

End WebSocket.

(** *** [POST /api/v1/users] *)


End Starlette.

(* ===================================================================== *)
(** ** create_tornado_app *)
(* ===================================================================== *)

Module Tornado.

Record request : Type := Request {
  arguments : params;
  headers : params;
  body : string
}.

(** A handler writes its answer with one call of [write_json] or
    [write_error_json] and returns; the handler is embedded as the function
    that gives this answer. *)

(** [get_argument] cleans the value it finds: the control characters
    x00-x08 and x0e-x1f become spaces, then the value is stripped. *)
Definition is_control (c : ascii) : bool :=
  let n := nat_of_ascii c in
  Nat.leb n 8 || (Nat.leb 14 n && Nat.leb n 31).

Fixpoint remove_control_chars (s : string) : string :=
  match s with
  | EmptyString => EmptyString
  | String c s' =>
      String (if is_control c then " "%char else c) (remove_control_chars s')
  end.

(** [self.get_argument(name, default)] *)
Definition get_argument (req : request) (name dflt : string) : string :=
  match arguments req !! name with
  | Some v => strip (remove_control_chars v)
  | None => dflt
  end.

(** [int(self.get_argument(name, default))] with an int default *)
Definition int_argument (req : request) (name : string) (dflt : Z) : outcome Z :=
  match arguments req !! name with
  | Some v =>
      match int (strip (remove_control_chars v)) with
      | Some i => Return i
      | None => Raise ValueError
      end
  | None => Return dflt
  end.

(** *** BaseHandler *)

Definition token_users : gmap string json :=
  <[valid_token := JDict [
      ("id", JInt 1); ("username", JStr "user"); ("email", JStr "user@example.com");
      ("is_admin", JBool false);
      ("permissions", JList [JStr "read"; JStr "write"])
    ]]>
  (<[admin_token := JDict [
      ("id", JInt 2); ("username", JStr "admin"); ("email", JStr "admin@example.com");
      ("is_admin", JBool true);
      ("permissions", JList [JStr "read"; JStr "write"; JStr "admin"; JStr "delete"])
    ]]> ∅).

(** [get_current_user]: the user dict, or [JNull] for None. *)
Definition get_current_user (req : request) : json :=
  let auth_header := from_option id "" (headers req !! "Authorization") in
  if startswith auth_header "Bearer " then
    let token := str_from 7 auth_header in
    from_option id JNull (token_users !! token)
  else JNull.

Definition write_json (data : json) (status_code : Z) : response :=
  Response status_code (JDict [
    ("data", data);
    ("timestamp", JOpaque "time.time()");
    ("request_id", JOpaque "str(uuid.uuid4())");
    ("status", JStr (if status_code <? 400 then "success" else "error"))
  ]).

Definition write_error_json (message : string) (status_code : Z) (details : json)
  : response :=
  let error_response := [
    ("error", JStr message);
    ("status_code", JInt status_code);
    ("timestamp", JOpaque "time.time()");
    ("request_id", JOpaque "str(uuid.uuid4())")
  ] in
  Response status_code (JDict (
    if truthy details then entries_set "details" details error_response
    else error_response)).

(** *** Decorators *)

Definition handler := request -> outcome response.

Definition authenticated_async (method : handler) : handler := fun self =>
  if negb (truthy (get_current_user self)) then
    Return (write_error_json "Authentication required" 401 JNull)
  else method self.

Definition require_permission (permission : string) (method : handler) : handler :=
  fun self =>
  let user := get_current_user self in
  if negb (truthy user) then
    Return (write_error_json "Authentication required" 401 JNull)
  else
    permissions ← get user "permissions" (JList []);
    if negb (str_in permission permissions) then
      Return (write_error_json ("Permission '" ++ permission ++ "' required") 403
                (JDict [("user_permissions", permissions)]))
    else method self.

Definition require_admin (method : handler) : handler := fun self =>
  let user := get_current_user self in
  is_admin ← (if truthy user then get user "is_admin" (JBool false)
              else Return JNull);
  if negb (truthy user) || negb (truthy is_admin) then
    Return (write_error_json "Admin access required" 403 JNull)
  else method self.

(** *** UsersHandler *)

Definition locations : list string := ["New York"; "London"; "Tokyo"; "Sydney"].

Definition nth_str (l : list string) (i : Z) : string :=
  nth (Z.to_nat i) l "".

Definition user_record (i : Z) : json :=
  JDict [
    ("id", JInt i);
    ("username", JStr ("user_" ++ format_03d i));
    ("email", JStr ("user_" ++ format_03d i ++ "@example.com"));
    ("active", JBool (negb (i mod 4 =? 0)));
    ("created_at", JOpaque "time.time() - (i * 86400)");
    ("posts_count", JInt (Z.max 0 (50 - i)));
    ("profile", JDict [
      ("full_name", JStr ("User Number " ++ format_03d i));
      ("location", JStr (nth_str locations (i mod 4)))
    ])
  ].

Definition all_users : list json := user_record <$> range 1 101.

Definition str_field (u : json) (k : string) : string :=
  match subscript u k with
  | Return (JStr s) => s
  | _ => ""
  end.

Definition bool_field (u : json) (k : string) : bool :=
  match subscript u k with
  | Return v => truthy v
  | _ => false
  end.

(** The list the page is cut from: [all_users] after the [active_only] and
    [search] filters. *)
Definition filtered_users (search : string) (active_only : bool) : list json :=
  let filtered_users := all_users in
  let filtered_users :=
    if active_only then List.filter (fun u => bool_field u "active") filtered_users
    else filtered_users in
  if nonempty search then
    List.filter (fun u =>
        contains (lower search) (lower (str_field u "username"))
        || contains (lower search) (lower (str_field u "email")))
      filtered_users
  else filtered_users.

Definition get_users_from_database (page limit : Z) (search : string)
    (active_only : bool) : json :=
  let filtered_users := filtered_users search active_only in
  let start := (page - 1) * limit in
  let end_ := start + limit in
  let paginated_users := slice filtered_users start end_ in
  JDict [
    ("users", JList paginated_users);
    ("pagination", JDict [
      ("page", JInt page);
      ("limit", JInt limit);
      ("total", JInt (len filtered_users));
      ("has_next", JBool (end_ <? len filtered_users));
      ("has_previous", JBool (page >? 1))
    ]);
    ("query_time", JOpaque "{query_time:.3f}s")
  ].

(** [GET /users]; the ValueError of either [int] is caught. *)
Definition UsersHandler_get : handler := fun self =>
  match int_argument self "page" 1, int_argument self "limit" 10 with
  | Return page, Return limit =>
      let search := get_argument self "search" "" in
      let active_only := String.eqb (lower (get_argument self "active_only" "false")) "true" in
      if page <? 1 then
        Return (write_error_json "Page must be >= 1" 400 JNull)
      else if (limit <? 1) || (limit >? 100) then
        Return (write_error_json "Limit must be between 1-100" 400 JNull)
      else
        let users_data := get_users_from_database page limit search active_only in
        users ← subscript users_data "users";
        pagination ← subscript users_data "pagination";
        query_time ← subscript users_data "query_time";
        Return (write_json (JDict [
          ("users", users);
          ("pagination", pagination);
          ("filters", JDict [
            ("search", JStr search);
            ("active_only", JBool active_only)
          ]);
          ("query_time", query_time)
        ]) 200)
  | _, _ =>
      Return (write_error_json "Invalid parameter format" 400
                (JDict [("error", JOpaque "str(e)")]))
  end.

(** *** UserDetailHandler *)

(** [get_user_details]: [JNull] for None. *)
Definition get_user_details (user_id : Z) : json :=
  if user_id >? 100 then JNull
  else
    JDict [
      ("id", JInt user_id);
      ("username", JStr ("user_" ++ format_03d user_id));
      ("email", JStr ("user_" ++ format_03d user_id ++ "@example.com"));
      ("active", JBool (negb (user_id mod 4 =? 0)));
      ("created_at", JOpaque "time.time() - (user_id * 86400)");
      ("profile", JDict [
        ("full_name", JStr ("User Number " ++ format_03d user_id));
        ("bio", JStr ("I am user #" ++ str user_id ++ " with interests in technology"));
        ("location", JStr (nth_str locations (user_id mod 4)))
      ]);
      ("stats", JDict [
        ("posts_count", JInt (Z.max 0 (50 - user_id)));
        ("followers_count", JInt (Z.max 0 (user_id * 3)));
        ("following_count", JInt (Z.max 0 (user_id * 2)))
      ])
    ].

Definition get_admin_user_info (user_id : Z) : json :=
  JDict [
    ("ip_history", JList [JStr ("192.168.1." ++ str (user_id mod 50 + 100))]);
    ("login_attempts", JInt (user_id mod 10));
    ("subscription_type", JStr (nth_str ["free"; "premium"; "enterprise"] (user_id mod 3)));
    ("admin_notes", JStr ("Standard user account #" ++ str user_id))
  ].

(** [GET /users/<user_id>]: [user_id] is the text the route matched. *)
Definition UserDetailHandler_get (user_id : string) : handler := fun self =>
  match int user_id with
  | None => Return (write_error_json "Invalid user ID format" 400 JNull)
  | Some user_id =>
      if user_id <=? 0 then
        Return (write_error_json "Invalid user ID format" 400 JNull)
      else
        let user_data := get_user_details user_id in
        if negb (truthy user_data) then
          Return (write_error_json "User not found" 404 JNull)
        else
          let current_user := get_current_user self in
          is_admin ← (if truthy current_user then get current_user "is_admin" JNull
                      else Return JNull);
          user_data ← (if truthy current_user && truthy is_admin
                       then setitem user_data "admin_info" (get_admin_user_info user_id)
                       else Return user_data);
          Return (write_json user_data 200)
  end.

(** A request for [/users/<segment>] through the route
    [/users/([0-9]+)/?]: the handler gets the digits the group matched;
    a path that no route matches is answered 404. *)
Definition user_detail_route (method : string -> handler) (segment : string)
  : handler := fun self =>
  if all_digits segment then method segment self
  else Raise (HTTPException 404 "Not Found").



(** *** SearchHandler *)

Definition search_result (query search_type : string) (i : Z) : json :=
  JDict [
    ("id", JInt i);
    ("title", JStr ("Search result " ++ str i ++ " for '" ++ query ++ "'"));
    ("type", JStr (if negb (String.eqb search_type "all") then search_type
                   else nth_str ["users"; "posts"; "files"] (i mod 3)));
    ("relevance_score", JOpaque "round(0.95 - (i * 0.01), 2)");
    ("snippet", JStr ("This is result " ++ str i ++ " containing '" ++ query ++ "'..."));
    ("url", JStr ("/item/" ++ str i));
    ("created_at", JOpaque "time.time() - (i * 3600)")
  ].

Definition perform_search (query search_type : string) (page limit : Z) : json :=
  let results :=
    search_result query search_type <$> range ((page - 1) * limit + 1) (page * limit + 1) in
  JDict [
    ("query", JStr query);
    ("search_type", JStr search_type);
    ("results", JList results);
    ("pagination", JDict [
      ("page", JInt page);
      ("limit", JInt limit);
      ("total_results", JInt 150)
    ]);
    ("search_time", JStr "0.089s")
  ].

(** [GET /search] *)
Definition SearchHandler_get : handler := fun self =>
  let query := get_argument self "q" "" in
  if negb (nonempty query) then
    Return (write_error_json "Search query 'q' is required" 400 JNull)
  else
    let search_type := get_argument self "type" "all" in
    page ← int_argument self "page" 1;
    limit ← int_argument self "limit" 20;
    let search_results := perform_search query search_type page limit in
    Return (write_json search_results 200).

(** *** ProtectedHandler, AdminHandler *)

(** [GET /protected] *)
Definition ProtectedHandler_get : handler :=
  authenticated_async (fun self =>
    let user := get_current_user self in
    username ← subscript user "username";
    permissions ← get user "permissions" (JList []);
    Return (write_json (JDict [
      ("message", JStr "This is protected content");
      ("user", username);
      ("permissions", permissions);
      ("timestamp", JOpaque "time.time()")
    ]) 200)).


(** *** UserDetailHandler.put *)



Section Put.

(** [json.loads]: [None] stands for JSONDecodeError. *)
Variable json_loads : string -> option json.


End Put.

(** *** AdvancedWebSocket

    A connection is known by its identity, [id(self)].  The class
    attribute [connections] is one set shared by all handlers: it is
    embedded as the slots of its hash table in table order, a slot being
    empty once its key is discarded.  Iterating the set walks the slots;
    the iterator remembers the number of keys it started with and refuses
    to go on once the set holds another number. *)

Definition Conn := nat.

Definition pyset := list (option Conn).

(** [len(s)] *)
Definition used (s : pyset) : nat :=
  length (List.filter (fun slot => bool_decide (is_Some slot)) s).

Definition slot_holds (c : Conn) (slot : option Conn) : bool :=
  match slot with
  | Some c' => Nat.eqb c c'
  | None => false
  end.

(** [s.discard(c)] *)
Definition discard (c : Conn) (s : pyset) : pyset :=
  (fun slot => if slot_holds c slot then None else slot) <$> s.

Record setiter : Type := mkSetiter {
  si_used : nat;
  si_pos : nat
}.

(** [iter(s)] *)
Definition iter (s : pyset) : setiter := mkSetiter (used s) 0.

Inductive next_result : Type :=
  | Yield (c : Conn) (it : setiter)
  | StopIteration
  | ChangedSize.

(** The first key in [slots], which start at position [pos] of the
    table, and the position after it. *)
Fixpoint first_key (slots : pyset) (pos : nat) : option (Conn * nat) :=
  match slots with
  | [] => None
  | Some c :: _ => Some (c, S pos)
  | None :: slots' => first_key slots' (S pos)
  end.

(** [next(it)] on the set [s] *)
Definition next (s : pyset) (it : setiter) : next_result :=
  if negb (Nat.eqb (si_used it) (used s)) then ChangedSize
  else
    match first_key (drop (si_pos it) s) (si_pos it) with
    | Some (c, pos') => Yield c (mkSetiter (si_used it) pos')
    | None => StopIteration
    end.

(** The shared set and the messages written so far, each with the
    connection it went to. *)
Record ws_state : Type := mkWs {
  connections : pyset;
  written : list (Conn * json)
}.

Section WebSocket.

(** [json.loads]: [None] stands for JSONDecodeError. *)
Variable json_loads : string -> option json.

(** The connections whose stream is closed: [write_message] to one of
    them raises WebSocketClosedError. *)
Variable closed : Conn -> bool.

Definition write_message (conn : Conn) (message : json) (st : ws_state)
  : outcome unit * ws_state :=
  if closed conn then (Raise WebSocketClosedError, st)
  else (Return tt, mkWs (connections st) (written st ++ [(conn, message)])).

(** [for conn in self.connections: ...] of the broadcast branch, from
    the iterator [it] on; [None] when [fuel] runs out. *)
Fixpoint broadcast_loop (fuel : nat) (self : Conn) (broadcast_msg : json)
    (it : setiter) (st : ws_state) : option (outcome unit * ws_state) :=
  match fuel with
  | O => None
  | S fuel' =>
      match next (connections st) it with
      | ChangedSize =>
          Some (Raise (RuntimeError "Set changed size during iteration"), st)
      | StopIteration => Some (Return tt, st)
      | Yield conn it' =>
          if negb (Nat.eqb conn self) then
            match write_message conn broadcast_msg st with
            | (Return _, st') => broadcast_loop fuel' self broadcast_msg it' st'
            | (Raise _, st') =>
                broadcast_loop fuel' self broadcast_msg it'
                  (mkWs (discard conn (connections st')) (written st'))
            end
          else broadcast_loop fuel' self broadcast_msg it' st
      end
  end.

(** Every turn of the loop moves the iterator at least one slot on, so
    one more turn than the table has slots is enough. *)
Definition broadcast (self : Conn) (broadcast_msg : json) (st : ws_state)
  : option (outcome unit * ws_state) :=
  broadcast_loop (S (length (connections st))) self broadcast_msg
    (iter (connections st)) st.

Definition process_message (self : Conn) (data : json) (st : ws_state)
  : option (outcome unit * ws_state) :=
  match get data "type" (JStr "echo") with
  | Raise e => Some (Raise e, st)
  | Return msg_type =>
      if json_eqb_str msg_type "echo" then
        Some (write_message self (JDict [
          ("type", JStr "echo_response");
          ("original", data);
          ("timestamp", JOpaque "time.time()")
        ]) st)
      else if json_eqb_str msg_type "broadcast" then
        match get data "content" (JStr ""), get data "sender" (JStr "anonymous") with
        | Return content, Return sender =>
            broadcast self (JDict [
              ("type", JStr "broadcast");
              ("content", content);
              ("sender", sender);
              ("timestamp", JOpaque "time.time()")
            ]) st
        | Raise e, _ | _, Raise e => Some (Raise e, st)
        end
      else if json_eqb_str msg_type "stats" then
        Some (write_message self (JDict [
          ("type", JStr "stats_response");
          ("active_connections", JInt (Z.of_nat (used (connections st))));
          ("server_uptime", JStr "2 days, 8 hours");
          ("timestamp", JOpaque "time.time()")
        ]) st)
      else if json_eqb_str msg_type "time" then
        Some (write_message self (JDict [
          ("type", JStr "time_response");
          ("server_time", JOpaque "time.ctime()");
          ("unix_timestamp", JOpaque "time.time()")
        ]) st)
      else Some (Return tt, st)
  end.

Definition on_message (self : Conn) (message : string) (st : ws_state)
  : option (outcome unit * ws_state) :=
  let data :=
    match json_loads message with
    | Some d => d
    | None => JDict [("type", JStr "text"); ("content", JStr message)]
    end in
  process_message self data st.

Definition on_close (self : Conn) (st : ws_state) : ws_state :=
  mkWs (discard self (connections st)) (written st).

End WebSocket.

(** *** UsersHandler.post *)


Section Post.

(** [json.loads]: [None] stands for JSONDecodeError. *)
Variable json_loads : string -> option json.


End Post.

End Tornado.

(* ===================================================================== *)
(** ** A decoder for frames, to run the websocket handlers *)
(* ===================================================================== *)

(** The websocket handlers take [json.loads] as a parameter.  To run them
    this decoder reads the JSON texts made of null, true, false, integers,
    strings without escapes, arrays and objects, and gives [None] on every
    other text. *)

Module Json.

Definition is_ws (c : ascii) : bool :=
  let n := nat_of_ascii c in
  Nat.eqb n 32 || Nat.eqb n 9 || Nat.eqb n 10 || Nat.eqb n 13.

Fixpoint skip_ws (s : string) : string :=
  match s with
  | String c s' => if is_ws c then skip_ws s' else s
  | EmptyString => EmptyString
  end.

(** The characters of a string up to the closing quote, and the rest. *)
Fixpoint scan_string (s : string) : option (string * string) :=
  match s with
  | EmptyString => None
  | String c s' =>
      let n := nat_of_ascii c in
      if Nat.eqb n 34 then Some (EmptyString, s')
      else if Nat.eqb n 92 || Nat.ltb n 32 then None
      else '(body, rest) ← scan_string s'; Some (String c body, rest)
  end.

Fixpoint scan_digits (acc : Z) (s : string) : Z * string :=
  match s with
  | String c s' =>
      match digit_val c with
      | Some d => scan_digits (10 * acc + d) s'
      | None => (acc, s)
      end
  | EmptyString => (acc, s)
  end.

Definition starts_number_tail (s : string) : bool :=
  match s with
  | String c _ =>
      Ascii.eqb c "."%char || Ascii.eqb c "e"%char || Ascii.eqb c "E"%char
      || bool_decide (is_Some (digit_val c))
  | EmptyString => false
  end.

(** An integer without sign: no leading zero, no fraction, no exponent. *)
Definition scan_nat (s : string) : option (Z * string) :=
  match s with
  | String c s' =>
      match digit_val c with
      | Some 0 => if starts_number_tail s' then None else Some (0, s')
      | Some d =>
          let '(v, rest) := scan_digits d s' in
          if starts_number_tail rest then None else Some (v, rest)
      | None => None
      end
  | EmptyString => None
  end.

Definition expect (word : string) (v : json) (s : string) : option (json * string) :=
  if String.prefix word s
  then Some (v, substring (String.length word) (String.length s - String.length word) s)
  else None.

Fixpoint value (fuel : nat) (s : string) : option (json * string) :=
  match fuel with
  | O => None
  | S fuel' =>
      match skip_ws s with
      | EmptyString => None
      | String c r as t =>
          let n := nat_of_ascii c in
          if Nat.eqb n 34 then '(body, rest) ← scan_string r; Some (JStr body, rest)
          else if Ascii.eqb c "["%char then
            match skip_ws r with
            | String "]"%char rest => Some (JList [], rest)
            | r' => '(l, rest) ← elements fuel' r'; Some (JList l, rest)
            end
          else if Ascii.eqb c "{"%char then
            match skip_ws r with
            | String "}"%char rest => Some (JDict [], rest)
            | r' =>
                '(d, rest) ← members fuel' r';
                Some (JDict (foldl (fun acc '(k, v) => entries_set k v acc) [] d), rest)
            end
          else if Ascii.eqb c "-"%char then
            '(v, rest) ← scan_nat r; Some (JInt (- v), rest)
          else if Ascii.eqb c "n"%char then expect "null" JNull t
          else if Ascii.eqb c "t"%char then expect "true" (JBool true) t
          else if Ascii.eqb c "f"%char then expect "false" (JBool false) t
          else '(v, rest) ← scan_nat t; Some (JInt v, rest)
      end
  end
with elements (fuel : nat) (s : string) : option (list json * string) :=
  match fuel with
  | O => None
  | S fuel' =>
      '(v, rest) ← value fuel' s;
      match skip_ws rest with
      | String "]"%char rest' => Some ([v], rest')
      | String ","%char rest' => '(l, rest'') ← elements fuel' rest'; Some (v :: l, rest'')
      | _ => None
      end
  end
with members (fuel : nat) (s : string) : option (list (string * json) * string) :=
  match fuel with
  | O => None
  | S fuel' =>
      match skip_ws s with
      | String c r =>
          if Nat.eqb (nat_of_ascii c) 34 then
            '(k, rest) ← scan_string r;
            match skip_ws rest with
            | String ":"%char rest' =>
                '(v, rest'') ← value fuel' rest';
                match skip_ws rest'' with
                | String "}"%char rest3 => Some ([(k, v)], rest3)
                | String ","%char rest3 =>
                    '(d, rest4) ← members fuel' rest3; Some ((k, v) :: d, rest4)
                | _ => None
                end
            | _ => None
            end
          else None
      | EmptyString => None
      end
  end.

Definition loads (s : string) : option json :=
  '(v, rest) ← value (2 * String.length s + 2) s;
  match skip_ws rest with
  | EmptyString => Some v
  | _ => None
  end.

End Json.

(* ===================================================================== *)
(** ** Requests used in examples *)
(* ===================================================================== *)

Definition flask_request (a h : list (string * string)) : Flask.request :=
  Flask.Request (list_to_map a) (list_to_map h) false Flask.UnsupportedMediaType None.

Definition starlette_request (a h : list (string * string))
    (p : list (string * Z)) (f : list (string * Starlette.form_value))
  : Starlette.request :=
  Starlette.Request (list_to_map a) (list_to_map h) (list_to_map p) f.

Definition tornado_request (a h : list (string * string)) : Tornado.request :=
  Tornado.Request (list_to_map a) (list_to_map h) "".

(** A request that presents [token] as its bearer token. *)
Definition bearer (token : string) : string := "Bearer " ++ token.

(* ===================================================================== *)
(** ** Notions the statements use *)
(* ===================================================================== *)

(** The request the route [/users/{user_id:int}] hands to [user_detail]. *)
Definition detail_request (user_id : Z) : Starlette.request :=
  starlette_request [] [] [("user_id", user_id)] [].

(** The query argument [q] is absent or empty. *)
Definition without_q (a : params) : Prop :=
  a !! "q" = None ∨ a !! "q" = Some "".

(** The fixed valid set. *)
Definition known_token (token : string) : Prop :=
  token = valid_token ∨ token = admin_token ∨ token = user_token.




(** What a field of the record is after an update: the value the body
    gives, or else the current one. *)
Definition given {A : Type} (f : FastAPI.field A) (current : A) : A :=
  match f with
  | FastAPI.Given a => a
  | _ => current
  end.

Definition is_null {A : Type} (f : FastAPI.field A) : bool :=
  match f with
  | FastAPI.Null => true
  | _ => false
  end.

(** The body sets some field to null. *)
Definition sets_null (upd : FastAPI.UserUpdate) : bool :=
  is_null (FastAPI.upd_username upd) || is_null (FastAPI.upd_email upd)
  || is_null (FastAPI.upd_is_active upd).

(** The uploads among the items of a form. *)
Definition is_upload (file : Starlette.UploadFile)
    (items : list (string * Starlette.form_value)) : Prop :=
  ∃ field_name, (field_name, Starlette.FormFile file) ∈ items.

(** A file of [n] zero bytes. *)
Definition zero_file (n : Z) : Starlette.UploadFile :=
  Starlette.mkUploadFile "zeros.bin" None (repeat Byte.x00 (Z.to_nat n)).

(** Sizes in bytes. *)
Definition six_mib : Z := 6 * 1024 * 1024.

Definition two_uploads : Starlette.request :=
  starlette_request [] [("Authorization", bearer valid_token)] []
    [("first", Starlette.FormFile (zero_file six_mib));
     ("second", Starlette.FormFile (zero_file six_mib))].

Definition eleven_mib : Z := 11 * 1024 * 1024.

Definition one_large_upload : Starlette.request :=
  starlette_request [] [("Authorization", bearer user_token)] []
    [("note", Starlette.FormText "holiday");
     ("photo", Starlette.FormFile (zero_file eleven_mib))].

(** What the handlers make of a frame that does not decode. *)
Definition wrapped (data : string) : json :=
  JDict [("type", JStr "text"); ("content", JStr data)].

(** A broadcast message, decoded. *)
Definition broadcast_frame : json :=
  JDict [("type", JStr "broadcast"); ("content", JStr "hi"); ("sender", JStr "ann")].

(** The write to connection 2 fails. *)
Definition peer_2_closed (c : Tornado.Conn) : bool := Nat.eqb c 2.


(* ===================================================================== *)
(** ** Pagination *)
(* ===================================================================== *)

(** What a listing says about the page [page] of [limit] users cut from
    [users]: [listing] holds the users, [pagination] the counters. *)
Definition page_of (users : list json) (page limit : Z)
    (listing pagination : list (string * json)) : Prop :=
  let start := (page - 1) * limit in
  let end_ := start + limit in
  entries_get "users" listing = Some (JList (slice users start end_)) ∧
  entries_get "total" pagination = Some (JInt (len users)) ∧
  ∃ has_next : bool,
    entries_get "has_next" pagination = Some (JBool has_next) ∧
    (has_next = true ↔ end_ < len users).

Lemma slice_from_start {A : Type} (l : list A) (start limit : Z) :
  0 <= start → 0 <= limit →
  slice l start (start + limit) = take (Z.to_nat limit) (drop (Z.to_nat start) l).
Proof.
  intros Hs Hl. unfold slice, slice_index, len.
  destruct (start <? 0) eqn:E1; [apply Z.ltb_lt in E1; lia |].
  destruct (start + limit <? 0) eqn:E2; [apply Z.ltb_lt in E2; lia |].
  destruct (Z.le_gt_cases (Z.of_nat (length l)) start) as [Hge | Hlt].
  - rewrite (drop_ge l (Z.to_nat (Z.min _ _))) by lia.
    rewrite (drop_ge l (Z.to_nat start)) by lia.
    by rewrite !take_nil.
  - rewrite (Z.min_l start) by lia.
    destruct (Z.le_gt_cases (start + limit) (Z.of_nat (length l))) as [Hin | Hout].
    + rewrite Z.min_l by lia. f_equal. lia.
    + rewrite Z.min_r by lia.
      rewrite !take_ge; [done | rewrite length_drop; lia | rewrite length_drop; lia].
Qed.

Lemma slice_page_length {A : Type} (l : list A) (page limit : Z) :
  1 <= page → 1 <= limit →
  len (slice l ((page - 1) * limit) ((page - 1) * limit + limit))
  = Z.min limit (Z.max 0 (len l - (page - 1) * limit)).
Proof.
  intros Hp Hl. rewrite slice_from_start by nia.
  unfold len. rewrite length_take, length_drop. nia.
Qed.

Lemma flask_get_users_page (req : Flask.request) :
  let page := Flask.args_get_int (Flask.args req) "page" 1 in
  let limit := Flask.args_get_int (Flask.args req) "limit" 10 in
  ∃ body, Flask.get_users req = Return (Response 200 (JDict body)) ∧
          page_of Flask.all_users page limit body body.
Proof.
  intros page limit. eexists. split; [reflexivity |].
  repeat split; try reflexivity.
  eexists. split; [reflexivity |]. apply Z.ltb_lt.
Qed.

Lemma starlette_users_list_page (req : Starlette.request) (page limit : Z) :
  Starlette.query_int (Starlette.query_params req) "page" 1 = Return page →
  Starlette.query_int (Starlette.query_params req) "limit" 10 = Return limit →
  1 <= page → 1 <= limit <= 100 →
  let search := Starlette.query_get (Starlette.query_params req) "search" "" in
  ∃ body pagination,
    Starlette.users_list req = Return (Response 200 (JDict body)) ∧
    entries_get "pagination" body = Some (JDict pagination) ∧
    page_of (Starlette.searched_users search) page limit body pagination.
Proof.
  intros Hpage Hlimit Hp Hl search. unfold Starlette.users_list.
  rewrite Hpage, Hlimit. cbn [mbind outcome_bind].
  destruct (page <? 1) eqn:E1; [apply Z.ltb_lt in E1; lia |].
  destruct (limit <? 1) eqn:E2; [apply Z.ltb_lt in E2; lia |].
  destruct (limit >? 100) eqn:E3; [apply Z.gtb_lt in E3; lia |].
  cbn [orb]. do 2 eexists. split; [reflexivity |]. split; [reflexivity |].
  repeat split; try reflexivity.
  eexists. split; [reflexivity |]. apply Z.ltb_lt.
Qed.

Lemma tornado_database_page (page limit : Z) (search : string) (active_only : bool) :
  ∃ listing pagination,
    Tornado.get_users_from_database page limit search active_only = JDict listing ∧
    entries_get "pagination" listing = Some (JDict pagination) ∧
    page_of (Tornado.filtered_users search active_only) page limit listing pagination.
Proof.
  do 2 eexists. split; [reflexivity |]. split; [reflexivity |].
  repeat split; try reflexivity.
  eexists. split; [reflexivity |]. apply Z.ltb_lt.
Qed.

Lemma tornado_users_get_page (req : Tornado.request) (page limit : Z) :
  Tornado.int_argument req "page" 1 = Return page →
  Tornado.int_argument req "limit" 10 = Return limit →
  1 <= page → 1 <= limit <= 100 →
  let search := Tornado.get_argument req "search" "" in
  let active_only :=
    String.eqb (lower (Tornado.get_argument req "active_only" "false")) "true" in
  ∃ answer data pagination,
    Tornado.UsersHandler_get req = Return (Response 200 (JDict answer)) ∧
    entries_get "data" answer = Some (JDict data) ∧
    entries_get "pagination" data = Some (JDict pagination) ∧
    page_of (Tornado.filtered_users search active_only) page limit data pagination.
Proof.
  intros Hpage Hlimit Hp Hl search active_only. unfold Tornado.UsersHandler_get.
  rewrite Hpage, Hlimit.
  destruct (page <? 1) eqn:E1; [apply Z.ltb_lt in E1; lia |].
  destruct (limit <? 1) eqn:E2; [apply Z.ltb_lt in E2; lia |].
  destruct (limit >? 100) eqn:E3; [apply Z.gtb_lt in E3; lia |].
  cbn [orb]. do 3 eexists. split; [reflexivity |]. split; [reflexivity |].
  split; [reflexivity |].
  repeat split; try reflexivity.
  eexists. split; [reflexivity |]. apply Z.ltb_lt.
Qed.

(** C1. The user listings of Flask, Starlette and Tornado: for every page
    and limit the handler accepts, the users returned are the slice
    [(page-1)*limit : (page-1)*limit+limit] of the framework's synthesized
    list after its filters, the total is the length of that list, and
    has_next holds exactly when [(page-1)*limit+limit] is below the total.
    The Flask handler accepts every page and limit, negative ones too. *)
Theorem pagination_slice_total_has_next :
  (∀ req : Flask.request,
     ∃ body, Flask.get_users req = Return (Response 200 (JDict body)) ∧
       page_of Flask.all_users
         (Flask.args_get_int (Flask.args req) "page" 1)
         (Flask.args_get_int (Flask.args req) "limit" 10) body body) ∧
  (∀ (req : Starlette.request) (page limit : Z),
     Starlette.query_int (Starlette.query_params req) "page" 1 = Return page →
     Starlette.query_int (Starlette.query_params req) "limit" 10 = Return limit →
     1 <= page → 1 <= limit <= 100 →
     ∃ body pagination,
       Starlette.users_list req = Return (Response 200 (JDict body)) ∧
       entries_get "pagination" body = Some (JDict pagination) ∧
       page_of
         (Starlette.searched_users
            (Starlette.query_get (Starlette.query_params req) "search" ""))
         page limit body pagination) ∧
  (∀ (page limit : Z) (search : string) (active_only : bool),
     ∃ listing pagination,
       Tornado.get_users_from_database page limit search active_only = JDict listing ∧
       entries_get "pagination" listing = Some (JDict pagination) ∧
       page_of (Tornado.filtered_users search active_only) page limit
         listing pagination) ∧
  (∀ (req : Tornado.request) (page limit : Z),
     Tornado.int_argument req "page" 1 = Return page →
     Tornado.int_argument req "limit" 10 = Return limit →
     1 <= page → 1 <= limit <= 100 →
     ∃ answer data pagination,
       Tornado.UsersHandler_get req = Return (Response 200 (JDict answer)) ∧
       entries_get "data" answer = Some (JDict data) ∧
       entries_get "pagination" data = Some (JDict pagination) ∧
       page_of
         (Tornado.filtered_users (Tornado.get_argument req "search" "")
            (String.eqb (lower (Tornado.get_argument req "active_only" "false")) "true"))
         page limit data pagination).
Proof.
  split; [exact flask_get_users_page |].
  split; [exact starlette_users_list_page |].
  split; [exact tornado_database_page | exact tornado_users_get_page].
Qed.

Lemma pagination_slice_total_has_next_witness :
  ∃ body pagination,
    Starlette.users_list (starlette_request [("page", "2"); ("limit", "20")] [] [] [])
    = Return (Response 200 (JDict body)) ∧
    entries_get "pagination" body = Some (JDict pagination) ∧
    page_of
      (Starlette.searched_users
         (Starlette.query_get
            (Starlette.query_params
               (starlette_request [("page", "2"); ("limit", "20")] [] [] []))
            "search" ""))
      2 20 body pagination.
Proof.
  apply (proj1 (proj2 pagination_slice_total_has_next)
           (starlette_request [("page", "2"); ("limit", "20")] [] [] []) 2 20);
    [reflexivity | reflexivity | lia | lia].
Defined.

Example flask_get_users_negative_page :
  Flask.get_users (flask_request [("page", "-1"); ("limit", "3")] [])
  = Return (Response 200 (JDict [
      ("users", JList [JStr "User_95"; JStr "User_96"; JStr "User_97"]);
      ("page", JInt (-1)); ("limit", JInt 3); ("total", JInt 100);
      ("has_next", JBool true)])).
Proof. vm_compute. reflexivity. Qed.

(* ===================================================================== *)
(** ** Search results of the Tornado handler *)
(* ===================================================================== *)


Lemma range_lookup (a b k : Z) :
  0 <= k < b - a → range a b !! Z.to_nat k = Some (a + k).
Proof.
  intros Hk. unfold range. rewrite list_lookup_fmap, lookup_seq_lt by lia.
  cbn. f_equal. lia.
Qed.



(* ===================================================================== *)
(** ** Identifiers out of range *)
(* ===================================================================== *)

Lemma fastapi_get_user_above (user_id : Z) :
  user_id > 3 → status (FastAPI.get_user user_id) = 404.
Proof.
  intros H. unfold FastAPI.get_user, FastAPI.Path_gt.
  destruct (0 <? user_id) eqn:E; [| apply Z.ltb_ge in E; lia].
  cbn [mbind outcome_bind]. unfold FastAPI.user_data.
  rewrite !lookup_insert_ne by lia. rewrite lookup_empty. reflexivity.
Qed.

Lemma fastapi_get_user_below (user_id : Z) :
  user_id <= 0 → status (FastAPI.get_user user_id) = 422.
Proof.
  intros H. unfold FastAPI.get_user, FastAPI.Path_gt.
  destruct (0 <? user_id) eqn:E; [apply Z.ltb_lt in E; lia |]. reflexivity.
Qed.

Lemma starlette_user_detail_range (req : Starlette.request) (user_id : Z) :
  Starlette.path_params req !! "user_id" = Some user_id →
  (user_id > 50 → status (Starlette.user_detail req) = 404) ∧
  (user_id <= 0 → status (Starlette.user_detail req) = 400).
Proof.
  intros Hp. unfold Starlette.user_detail. rewrite Hp. cbn [mbind outcome_bind].
  split; intros H.
  - destruct (user_id <=? 0) eqn:E1; [apply Z.leb_le in E1; lia |].
    destruct (user_id >? 50) eqn:E2; [reflexivity |].
    rewrite Z.gtb_ltb in E2. apply Z.ltb_ge in E2. lia.
  - destruct (user_id <=? 0) eqn:E1; [reflexivity | apply Z.leb_gt in E1; lia].
Qed.

Lemma tornado_user_detail_range (s : string) (req : Tornado.request) (user_id : Z) :
  int s = Some user_id →
  (user_id > 100 → status (Tornado.UserDetailHandler_get s req) = 404) ∧
  (user_id <= 0 → status (Tornado.UserDetailHandler_get s req) = 400).
Proof.
  intros Hs. unfold Tornado.UserDetailHandler_get. rewrite Hs.
  split; intros H.
  - destruct (user_id <=? 0) eqn:E1; [apply Z.leb_le in E1; lia |].
    unfold Tornado.get_user_details.
    destruct (user_id >? 100) eqn:E2; [reflexivity |].
    rewrite Z.gtb_ltb in E2. apply Z.ltb_ge in E2. lia.
  - destruct (user_id <=? 0) eqn:E1; [reflexivity | apply Z.leb_gt in E1; lia].
Qed.

(** *** The routes of Starlette and Tornado take digits only *)

Lemma digit_not_space (c : ascii) : is_digit c = true → is_space c = false.
Proof.
  unfold is_digit, is_space. cbv zeta.
  intros [H1 H2]%andb_true_iff. apply Nat.leb_le in H1, H2.
  apply orb_false_iff. split; apply andb_false_iff.
  - right. apply Nat.leb_gt. lia.
  - right. apply Nat.leb_gt. lia.
Qed.

Lemma digits_only_rstrip (s : string) : digits_only s = true → rstrip s = s.
Proof.
  induction s as [| c s IH]; [reflexivity |]. cbn [digits_only rstrip].
  intros [Hc Hs]%andb_true_iff. rewrite (IH Hs).
  destruct s; [by rewrite (digit_not_space c Hc) | reflexivity].
Qed.

Lemma digits_only_strip (s : string) : digits_only s = true → strip s = s.
Proof.
  intros H. unfold strip.
  assert (Hl : lstrip s = s).
  { destruct s as [| c s]; [reflexivity |]. cbn [digits_only lstrip] in *.
    apply andb_true_iff in H as [Hc _]. by rewrite (digit_not_space c Hc). }
  rewrite Hl. by apply digits_only_rstrip.
Qed.

Lemma digit_val_digit (c : ascii) :
  is_digit c = true → ∃ d, digit_val c = Some d ∧ 0 <= d.
Proof.
  unfold is_digit, digit_val. cbv zeta. intros ->. eexists. split; [reflexivity | lia].
Qed.

Lemma int_digits_digits_only (s : string) (acc : Z) (seen : bool) :
  digits_only s = true → 0 <= acc → seen = true ∨ nonempty s = true →
  ∃ v, int_digits acc seen s = Some v ∧ 0 <= v.
Proof.
  revert acc seen. induction s as [| c s IH]; intros acc seen Hd Hacc Hne.
  - destruct Hne as [-> | Hne]; [| discriminate]. by exists acc.
  - cbn [digits_only] in Hd. apply andb_true_iff in Hd as [Hc Hs].
    destruct (digit_val_digit c Hc) as (d & Hv & Hd).
    cbn [int_digits]. rewrite Hv. apply IH; [exact Hs | lia | by left].
Qed.

(** A segment of digits reads as an integer that is not negative. *)
Lemma all_digits_int (segment : string) :
  all_digits segment = true → ∃ v, int segment = Some v ∧ 0 <= v.
Proof.
  unfold all_digits. intros [Hne Hd]%andb_true_iff.
  unfold int. rewrite (digits_only_strip segment Hd).
  destruct (int_digits_digits_only segment 0 false Hd ltac:(lia) ltac:(by right))
    as (v & Hv & Hpos).
  exists v. split; [| exact Hpos].
  destruct segment as [| c r]; [discriminate |].
  cbn [digits_only] in Hd. apply andb_true_iff in Hd as [Hc _].
  destruct c as [[] [] [] [] [] [] [] []]; try discriminate Hc; exact Hv.
Qed.

(** A negative identifier does not match the pattern of the routes. *)
Lemma negative_not_all_digits (segment : string) (user_id : Z) :
  int segment = Some user_id → user_id < 0 → all_digits segment = false.
Proof.
  intros Hs Hneg. destruct (all_digits segment) eqn:E; [| reflexivity].
  destruct (all_digits_int segment E) as (v & Hv & Hpos).
  rewrite Hs in Hv. injection Hv as ->. lia.
Qed.

Lemma starlette_route_unmatched (segment : string) (req : Starlette.request) :
  all_digits segment = false →
  Starlette.user_detail_route segment req
  = Return (Starlette.not_found ("/api/v1/users/" ++ segment)).
Proof. intros H. unfold Starlette.user_detail_route. by rewrite H. Qed.

Lemma tornado_route_unmatched (method : string → Tornado.handler)
    (segment : string) (req : Tornado.request) :
  all_digits segment = false →
  Tornado.user_detail_route method segment req = Raise (HTTPException 404 "Not Found").
Proof. intros H. unfold Tornado.user_detail_route. by rewrite H. Qed.

Lemma tornado_route_matched (method : string → Tornado.handler)
    (segment : string) (req : Tornado.request) :
  all_digits segment = true →
  Tornado.user_detail_route method segment req = method segment req.
Proof. intros H. unfold Tornado.user_detail_route. by rewrite H. Qed.

Lemma starlette_route_range (segment : string) (req : Starlette.request)
    (user_id : Z) :
  int segment = Some user_id →
  (user_id > 50 → status (Starlette.user_detail_route segment req) = 404) ∧
  (user_id = 0 → all_digits segment = true →
   status (Starlette.user_detail_route segment req) = 400) ∧
  (user_id < 0 → status (Starlette.user_detail_route segment req) = 404).
Proof.
  intros Hs.
  assert (Hmatched : all_digits segment = true →
            Starlette.user_detail_route segment req
            = Starlette.user_detail
                (Starlette.Request (Starlette.query_params req) (Starlette.headers req)
                   (<["user_id" := user_id]> (Starlette.path_params req))
                   (Starlette.form req))).
  { intros H. unfold Starlette.user_detail_route. by rewrite H, Hs. }
  split; [| split].
  - intros Hgt. destruct (all_digits segment) eqn:E.
    + rewrite (Hmatched eq_refl).
      apply (starlette_user_detail_range _ user_id); [| exact Hgt].
      cbn [Starlette.path_params]. apply lookup_insert_eq.
    + by rewrite (starlette_route_unmatched segment req E).
  - intros H0 E. rewrite (Hmatched E).
    apply (starlette_user_detail_range _ user_id); [| lia].
    cbn [Starlette.path_params]. apply lookup_insert_eq.
  - intros Hneg.
    by rewrite (starlette_route_unmatched segment req
                  (negative_not_all_digits segment user_id Hs Hneg)).
Qed.

Lemma tornado_route_range (segment : string) (req : Tornado.request) (user_id : Z) :
  int segment = Some user_id →
  (user_id > 100 →
   status (Tornado.user_detail_route Tornado.UserDetailHandler_get segment req) = 404) ∧
  (user_id = 0 → all_digits segment = true →
   status (Tornado.user_detail_route Tornado.UserDetailHandler_get segment req) = 400) ∧
  (user_id < 0 →
   status (Tornado.user_detail_route Tornado.UserDetailHandler_get segment req) = 404).
Proof.
  intros Hs. split; [| split].
  - intros Hgt. destruct (all_digits segment) eqn:E.
    + rewrite (tornado_route_matched _ segment req E).
      by apply (tornado_user_detail_range segment req user_id).
    + by rewrite (tornado_route_unmatched _ segment req E).
  - intros H0 E. rewrite (tornado_route_matched _ segment req E).
    apply (tornado_user_detail_range segment req user_id); [exact Hs | lia].
  - intros Hneg.
    by rewrite (tornado_route_unmatched _ segment req
                  (negative_not_all_digits segment user_id Hs Hneg)).
Qed.

(** C2 as the spec states it fails: the identifier 0, which is
    non-positive, is answered with 400 by the Starlette and the Tornado
    handler, and with 422 by FastAPI, which answers a negative identifier
    the same way. *)
Lemma user_detail_zero_is_400 :
  status (Starlette.user_detail (detail_request 0)) = 400 ∧
  status (Starlette.user_detail_route "0" (starlette_request [] [] [] [])) = 400 ∧
  status (Tornado.user_detail_route Tornado.UserDetailHandler_get "0"
            (tornado_request [] [])) = 400 ∧
  status (FastAPI.get_user 0) = 422 ∧
  status (FastAPI.get_user (-5)) = 422.
Proof. repeat split; reflexivity. Qed.

(** C2, amended. Take a GET request to a user-detail endpoint whose
    identifier reads as the integer [user_id].  An identifier above the
    synthesized range (3 for FastAPI, 50 for Starlette, 100 for Tornado) is
    answered with 404.  FastAPI, whose path parameter is declared [gt=0],
    answers a non-positive identifier with the validation error 422.
    Starlette and Tornado answer the identifier 0, written in digits, with
    400 before the range is looked at; a negative identifier does not
    match their routes, which take digits only, and is answered with
    404. *)
Theorem user_detail_out_of_range (user_id : Z) :
  (user_id > 3 → status (FastAPI.get_user user_id) = 404) ∧
  (user_id <= 0 → status (FastAPI.get_user user_id) = 422) ∧
  (∀ (segment : string) (req : Starlette.request),
     int segment = Some user_id →
     (user_id > 50 → status (Starlette.user_detail_route segment req) = 404) ∧
     (user_id = 0 → all_digits segment = true →
      status (Starlette.user_detail_route segment req) = 400) ∧
     (user_id < 0 → status (Starlette.user_detail_route segment req) = 404)) ∧
  (∀ (segment : string) (req : Tornado.request),
     int segment = Some user_id →
     (user_id > 100 →
      status (Tornado.user_detail_route Tornado.UserDetailHandler_get segment req)
      = 404) ∧
     (user_id = 0 → all_digits segment = true →
      status (Tornado.user_detail_route Tornado.UserDetailHandler_get segment req)
      = 400) ∧
     (user_id < 0 →
      status (Tornado.user_detail_route Tornado.UserDetailHandler_get segment req)
      = 404)).
Proof.
  split; [apply fastapi_get_user_above |].
  split; [apply fastapi_get_user_below |].
  split; [intros segment req; apply starlette_route_range |].
  intros segment req. apply tornado_route_range.
Qed.

Lemma user_detail_out_of_range_witness :
  status (FastAPI.get_user 4) = 404 ∧
  status (Starlette.user_detail_route "51" (starlette_request [] [] [] [])) = 404 ∧
  status (Starlette.user_detail_route "-5" (starlette_request [] [] [] [])) = 404 ∧
  status (Tornado.user_detail_route Tornado.UserDetailHandler_get "101"
            (tornado_request [] [])) = 404 ∧
  status (Tornado.user_detail_route Tornado.UserDetailHandler_get "0"
            (tornado_request [] [])) = 400.
Proof.
  split; [apply (proj1 (user_detail_out_of_range 4)); lia |].
  split; [apply (proj1 (proj1 (proj2 (proj2 (user_detail_out_of_range 51)))
                          "51" (starlette_request [] [] [] []) ltac:(reflexivity)));
          lia |].
  split; [apply (proj2 (proj2 (proj1 (proj2 (proj2 (user_detail_out_of_range (-5))))
                                 "-5" (starlette_request [] [] [] [])
                                 ltac:(reflexivity))));
          lia |].
  split; [apply (proj1 (proj2 (proj2 (proj2 (user_detail_out_of_range 101)))
                          "101" (tornado_request [] []) ltac:(reflexivity)));
          lia |].
  apply (proj1 (proj2 (proj2 (proj2 (proj2 (user_detail_out_of_range 0)))
                         "0" (tornado_request [] []) ltac:(reflexivity))));
    reflexivity.
Defined.

(* ===================================================================== *)
(** ** Search without a query *)
(* ===================================================================== *)

Lemma flask_search_without_q (req : Flask.request) :
  without_q (Flask.args req) → status (Flask.search req) = 400.
Proof.
  intros Hq. unfold Flask.search, Flask.args_get.
  destruct Hq as [-> | ->]; reflexivity.
Qed.

Lemma tornado_search_without_q (req : Tornado.request) :
  without_q (Tornado.arguments req) → status (Tornado.SearchHandler_get req) = 400.
Proof.
  intros Hq. unfold Tornado.SearchHandler_get, Tornado.get_argument.
  destruct Hq as [-> | ->]; reflexivity.
Qed.

Lemma starlette_search_without_q (req : Starlette.request) (page limit : Z) :
  without_q (Starlette.query_params req) →
  Starlette.query_int (Starlette.query_params req) "page" 1 = Return page →
  Starlette.query_int (Starlette.query_params req) "limit" 10 = Return limit →
  status (Starlette.search_handler req) = 400.
Proof.
  intros Hq Hpage Hlimit. unfold Starlette.search_handler, Starlette.query_get.
  rewrite Hpage, Hlimit. destruct Hq as [-> | ->]; reflexivity.
Qed.

Lemma fastapi_search_without_q (a : params) :
  without_q a → status (FastAPI.search a) = 422.
Proof.
  intros Hq. unfold FastAPI.search, FastAPI.Query_str.
  destruct Hq as [-> | ->]; reflexivity.
Qed.

(** C3 as the spec states it fails: FastAPI declares [q] as a required
    query parameter of length 1 to 100, and a request without it is
    answered with the validation error 422, not with 400. *)
Lemma fastapi_search_without_q_is_422 :
  (∅ : params) !! "q" = None ∧
  status (FastAPI.search ∅) = 422 ∧
  status (FastAPI.search ∅) ≠ 400.
Proof. split; [reflexivity |]. split; [reflexivity | discriminate]. Qed.

(** The Starlette handler reads [page] and [limit] with [int] before it
    looks at [q]. *)
Example starlette_search_bad_page :
  status (Starlette.search_handler (starlette_request [("page", "abc")] [] [] [])) = 500.
Proof. reflexivity. Qed.

(** C3, amended. A search request whose [q] is absent or empty is
    answered with 400 by the Flask and Tornado handlers, and by the
    Starlette handler when [page] and [limit] read as integers; FastAPI
    refuses it with the validation error 422. *)
Theorem search_without_query_rejected :
  (∀ req : Flask.request,
     without_q (Flask.args req) → status (Flask.search req) = 400) ∧
  (∀ req : Tornado.request,
     without_q (Tornado.arguments req) → status (Tornado.SearchHandler_get req) = 400) ∧
  (∀ (req : Starlette.request) (page limit : Z),
     without_q (Starlette.query_params req) →
     Starlette.query_int (Starlette.query_params req) "page" 1 = Return page →
     Starlette.query_int (Starlette.query_params req) "limit" 10 = Return limit →
     status (Starlette.search_handler req) = 400) ∧
  (∀ a : params, without_q a → status (FastAPI.search a) = 422).
Proof.
  split; [exact flask_search_without_q |].
  split; [exact tornado_search_without_q |].
  split; [exact starlette_search_without_q | exact fastapi_search_without_q].
Qed.

Lemma search_without_query_rejected_witness :
  status (Flask.search (flask_request [("q", "")] [])) = 400 ∧
  status (Tornado.SearchHandler_get (tornado_request [("page", "2")] [])) = 400 ∧
  status (Starlette.search_handler (starlette_request [("limit", "5")] [] [] [])) = 400 ∧
  status (FastAPI.search (list_to_map [("q", "")])) = 422.
Proof.
  split; [apply (proj1 search_without_query_rejected); right; reflexivity |].
  split; [apply (proj1 (proj2 search_without_query_rejected)); left; reflexivity |].
  split; [apply (proj1 (proj2 (proj2 search_without_query_rejected))
                   (starlette_request [("limit", "5")] [] [] []) 1 5);
          [left; reflexivity | reflexivity | reflexivity] |].
  apply (proj2 (proj2 (proj2 search_without_query_rejected))). right. reflexivity.
Defined.

(* ===================================================================== *)
(** ** Bearer tokens *)
(* ===================================================================== *)

Lemma substring_all (s : string) : substring 0 (String.length s) s = s.
Proof. induction s as [| c s IH]; [reflexivity |]. cbn. by rewrite IH. Qed.

Lemma startswith_bearer (token : string) : startswith (bearer token) "Bearer " = true.
Proof. unfold startswith, bearer. cbn. by destruct token. Qed.

Lemma str_from_bearer (token : string) : str_from 7 (bearer token) = token.
Proof.
  unfold str_from, bearer. cbv [String.append]. cbn.
  rewrite Nat.sub_0_r. apply substring_all.
Qed.

Lemma prefix_split (p s : string) :
  String.prefix p s = true → s = p ++ str_from (String.length p) s.
Proof.
  revert s. induction p as [| a p IH]; intros s H.
  - unfold str_from. cbn. rewrite Nat.sub_0_r. symmetry. apply substring_all.
  - destruct s as [| b s]; [discriminate |]. cbn in H.
    destruct (ascii_dec a b) as [-> | _]; [| discriminate].
    cbv [String.append]. fold String.append. f_equal.
    rewrite (IH s H) at 1. reflexivity.
Qed.

Lemma bearer_inv (h : string) :
  startswith h "Bearer " = true → h = bearer (str_from 7 h).
Proof. intros H. apply (prefix_split "Bearer " h H). Qed.

Lemma flask_valid_tokens (token : string) :
  token ∈ Flask.valid_tokens ↔ known_token token.
Proof. unfold Flask.valid_tokens, known_token. set_solver. Qed.

Lemma fastapi_user_map (token : string) :
  is_Some (FastAPI.user_map !! token) ↔ known_token token.
Proof.
  unfold FastAPI.user_map, known_token.
  rewrite !lookup_insert_is_Some, lookup_empty, <- not_eq_None_Some.
  naive_solver.
Qed.

Lemma starlette_token_users (token : string) :
  is_Some (Starlette.token_users !! token) ↔ known_token token.
Proof.
  unfold Starlette.token_users, known_token.
  rewrite !lookup_insert_is_Some, lookup_empty, <- not_eq_None_Some.
  naive_solver.
Qed.

Lemma tornado_token_users (token : string) :
  is_Some (Tornado.token_users !! token) ↔ token = valid_token ∨ token = admin_token.
Proof.
  unfold Tornado.token_users.
  rewrite !lookup_insert_is_Some, lookup_empty, <- not_eq_None_Some.
  naive_solver.
Qed.

Lemma tornado_current_user (req : Tornado.request) (token : string) :
  Tornado.headers req !! "Authorization" = Some (bearer token) →
  Tornado.get_current_user req = from_option id JNull (Tornado.token_users !! token).
Proof.
  intros Hh. unfold Tornado.get_current_user. rewrite Hh. cbn [from_option id].
  by rewrite startswith_bearer, str_from_bearer.
Qed.

Lemma tornado_current_user_unknown (req : Tornado.request) (token : string) :
  Tornado.headers req !! "Authorization" = Some (bearer token) →
  token ≠ valid_token → token ≠ admin_token →
  Tornado.get_current_user req = JNull.
Proof.
  intros Hh Hv Ha. rewrite (tornado_current_user req token Hh).
  destruct (Tornado.token_users !! token) as [u |] eqn:E; [| reflexivity].
  assert (Hs : is_Some (Tornado.token_users !! token)) by (rewrite E; eauto).
  apply tornado_token_users in Hs. tauto.
Qed.


(** C6. The Tornado table has no entry for 'user-token': a request that
    presents it has no current user and the protected resource answers
    401, while the Flask, FastAPI and Starlette tables accept it. *)
Theorem tornado_rejects_user_token :
  Tornado.token_users !! user_token = None ∧
  Tornado.get_current_user
    (tornado_request [] [("Authorization", bearer user_token)]) = JNull ∧
  status (Tornado.ProtectedHandler_get
            (tornado_request [] [("Authorization", bearer user_token)])) = 401 ∧
  user_token ∈ Flask.valid_tokens ∧
  status (Flask.protected_resource
            (flask_request [] [("Authorization", bearer user_token)])) = 200 ∧
  FastAPI.get_current_user user_token
    = Return (FastAPI.mkUser 3 "alice" "alice@example.com" true false) ∧
  Starlette.authenticate (list_to_map [("Authorization", bearer user_token)])
    = Some (["authenticated"], "user").
Proof.
  split; [reflexivity |]. split; [reflexivity |]. split; [reflexivity |].
  split; [apply flask_valid_tokens; right; right; reflexivity |].
  split; [reflexivity |]. split; reflexivity.
Qed.

(** The tables of Flask, FastAPI and Starlette hold the three tokens and
    no other; the Tornado table holds two of them. *)
Lemma token_tables (token : string) :
  (token ∈ Flask.valid_tokens ↔ known_token token) ∧
  (is_Some (FastAPI.user_map !! token) ↔ known_token token) ∧
  (is_Some (Starlette.token_users !! token) ↔ known_token token) ∧
  (is_Some (Tornado.token_users !! token)
   ↔ token = valid_token ∨ token = admin_token).
Proof.
  split; [apply flask_valid_tokens |]. split; [apply fastapi_user_map |].
  split; [apply starlette_token_users | apply tornado_token_users].
Qed.


Lemma admin_token_known : known_token admin_token.
Proof. right. left. reflexivity. Qed.

(** *** Flask *)

Ltac flask_bearer Hh :=
  unfold Flask.args_get; rewrite Hh; cbn [from_option id];
  rewrite startswith_bearer, str_from_bearer; cbn [negb].





Lemma flask_admin_stats_no_header (req : Flask.request) :
  Flask.headers req !! "Authorization" = None →
  status (Flask.admin_stats req) = 401.
Proof.
  intros Hh. unfold Flask.admin_stats, Flask.require_admin, Flask.args_get.
  rewrite Hh. reflexivity.
Qed.


(** *** FastAPI *)








(** *** Starlette *)



Lemma upload_loop_left items uploaded_files total_size (r : response) :
  Starlette.upload_loop items uploaded_files total_size = inl r →
  status_code r = 413.
Proof.
  revert uploaded_files total_size.
  induction items as [| [field_name [text | file_data]] items IH];
    intros uploaded_files total_size; cbn [Starlette.upload_loop].
  - discriminate.
  - apply IH.
  - destruct (len (Starlette.read file_data) >? Starlette.max_size).
    + intros [= <-]. reflexivity.
    + apply IH.
Qed.



(** *** Tornado *)

Lemma tornado_admin_user (req : Tornado.request) :
  Tornado.headers req !! "Authorization" = Some (bearer admin_token) →
  Tornado.get_current_user req = JDict [
    ("id", JInt 2); ("username", JStr "admin"); ("email", JStr "admin@example.com");
    ("is_admin", JBool true);
    ("permissions", JList [JStr "read"; JStr "write"; JStr "admin"; JStr "delete"])
  ].
Proof. intros Hh. by rewrite (tornado_current_user req admin_token Hh). Qed.

Lemma tornado_valid_user (req : Tornado.request) :
  Tornado.headers req !! "Authorization" = Some (bearer valid_token) →
  Tornado.get_current_user req = JDict [
    ("id", JInt 1); ("username", JStr "user"); ("email", JStr "user@example.com");
    ("is_admin", JBool false);
    ("permissions", JList [JStr "read"; JStr "write"])
  ].
Proof. intros Hh. by rewrite (tornado_current_user req valid_token Hh). Qed.

Lemma tornado_no_header_user (req : Tornado.request) :
  Tornado.headers req !! "Authorization" = None →
  Tornado.get_current_user req = JNull.
Proof. intros Hh. unfold Tornado.get_current_user. by rewrite Hh. Qed.









(* ===================================================================== *)
(** ** Uploads *)
(* ===================================================================== *)

(** The cap is 10 MiB in both handlers. *)
Lemma max_size_bytes :
  FastAPI.max_size = 10485760 ∧ Starlette.max_size = 10485760.
Proof. split; reflexivity. Qed.

Lemma fastapi_upload_too_large (file : FastAPI.UploadFile) (token : string) :
  known_token token →
  len (FastAPI.read file) > FastAPI.max_size →
  status (FastAPI.upload_file (FastAPI.Valid file) token) = 413.
Proof.
  intros Hk Hlen. unfold FastAPI.upload_file.
  assert (Hu : ∃ u, FastAPI.get_current_user token = Return u).
  { destruct Hk as [-> | [-> | ->]]; eexists; reflexivity. }
  destruct Hu as [u ->]. cbn [mbind outcome_bind FastAPI.read_form FastAPI.validated].
  destruct (len (FastAPI.read file) >? FastAPI.max_size) eqn:E; [reflexivity |].
  rewrite Z.gtb_ltb in E. apply Z.ltb_ge in E. lia.
Qed.

Lemma upload_loop_over items uploaded_files total_size (file : Starlette.UploadFile) :
  is_upload file items →
  len (Starlette.read file) > Starlette.max_size →
  ∃ r, Starlette.upload_loop items uploaded_files total_size = inl r.
Proof.
  intros [field_name Hin] Hlen. revert uploaded_files total_size.
  induction items as [| [name [text | file_data]] items IH];
    intros uploaded_files total_size; cbn [Starlette.upload_loop].
  - by apply not_elem_of_nil in Hin.
  - apply elem_of_cons in Hin as [[=] | Hin]. by apply IH.
  - destruct (len (Starlette.read file_data) >? Starlette.max_size) eqn:E;
      [eexists; reflexivity |].
    apply elem_of_cons in Hin as [[= -> ->] | Hin]; [| by apply IH].
    rewrite Z.gtb_ltb in E. apply Z.ltb_ge in E. lia.
Qed.

Lemma upload_loop_within items uploaded_files total_size :
  (∀ file, is_upload file items → len (Starlette.read file) <= Starlette.max_size) →
  ∃ files total, Starlette.upload_loop items uploaded_files total_size
                 = inr (files, total).
Proof.
  revert uploaded_files total_size.
  induction items as [| [name [text | file_data]] items IH];
    intros uploaded_files total_size Hall; cbn [Starlette.upload_loop].
  - by do 2 eexists.
  - apply IH. intros file [field_name Hin]. apply Hall.
    exists field_name. by apply elem_of_cons; right.
  - destruct (len (Starlette.read file_data) >? Starlette.max_size) eqn:E.
    + apply Z.gtb_lt in E.
      assert (Hup : is_upload file_data ((name, Starlette.FormFile file_data) :: items))
        by (exists name; by apply elem_of_cons; left).
      specialize (Hall file_data Hup). lia.
    + apply IH. intros file [field_name Hin]. apply Hall.
      exists field_name. by apply elem_of_cons; right.
Qed.

(** *** The items of a form *)

Lemma dict_set_elem (k : string) (v : Starlette.form_value)
    (d : list (string * Starlette.form_value)) :
  (k, v) ∈ Starlette.dict_set k v d.
Proof.
  induction d as [| [k' v'] d IH]; cbn [Starlette.dict_set]; [by apply elem_of_cons; left |].
  destruct (String.eqb_spec k' k) as [-> | _]; apply elem_of_cons; [by left | by right].
Qed.

Lemma dict_set_keeps (k k' : string) (v v' : Starlette.form_value)
    (d : list (string * Starlette.form_value)) :
  k' ≠ k → (k', v') ∈ d → (k', v') ∈ Starlette.dict_set k v d.
Proof.
  intros Hne. induction d as [| [k0 v0] d IH]; cbn [Starlette.dict_set];
    [by intros ?%not_elem_of_nil |].
  intros [[= <- <-] | Hin]%elem_of_cons.
  - destruct (String.eqb_spec k' k) as [-> | _]; [done | by apply elem_of_cons; left].
  - destruct (String.eqb_spec k0 k) as [-> | _]; apply elem_of_cons; right; auto.
Qed.

Lemma dict_set_inv (k k' : string) (v v' : Starlette.form_value)
    (d : list (string * Starlette.form_value)) :
  (k', v') ∈ Starlette.dict_set k v d → (k', v') = (k, v) ∨ (k', v') ∈ d.
Proof.
  induction d as [| [k0 v0] d IH]; cbn [Starlette.dict_set].
  - intros [-> | ?%not_elem_of_nil]%elem_of_cons; [by left | done].
  - destruct (String.eqb_spec k0 k) as [-> | _].
    + intros [-> | Hin]%elem_of_cons; [by left |]. right. by apply elem_of_cons; right.
    + intros [-> | Hin]%elem_of_cons; [right; by apply elem_of_cons; left |].
      destruct (IH Hin) as [-> | Hd]; [by left |]. right. by apply elem_of_cons; right.
Qed.

Lemma items_foldl_keeps (fields d : list (string * Starlette.form_value))
    (k : string) (v : Starlette.form_value) :
  (k, v) ∈ d → k ∉ fields.*1 →
  (k, v) ∈ foldl (fun d kv => Starlette.dict_set kv.1 kv.2 d) d fields.
Proof.
  revert d. induction fields as [| [k' v'] fields IH]; intros d Hin Hk; [exact Hin |].
  cbn [foldl fst snd]. cbn [fmap list_fmap fst] in Hk.
  apply not_elem_of_cons in Hk as [Hne Hk].
  apply IH; [| exact Hk]. by apply dict_set_keeps.
Qed.

(** Of the values sent under a field name, [form.items()] gives the one
    sent last. *)
Lemma items_last (pre post : list (string * Starlette.form_value))
    (k : string) (v : Starlette.form_value) :
  k ∉ post.*1 → (k, v) ∈ Starlette.items (pre ++ (k, v) :: post).
Proof.
  intros Hk. unfold Starlette.items. rewrite foldl_app. cbn [foldl fst snd].
  apply items_foldl_keeps; [apply dict_set_elem | exact Hk].
Qed.

Lemma items_foldl_inv (fields d : list (string * Starlette.form_value))
    (k : string) (v : Starlette.form_value) :
  (k, v) ∈ foldl (fun d kv => Starlette.dict_set kv.1 kv.2 d) d fields →
  (k, v) ∈ d ∨ (k, v) ∈ fields.
Proof.
  revert d. induction fields as [| [k' v'] fields IH]; intros d Hin; [by left |].
  cbn [foldl fst snd] in Hin.
  destruct (IH _ Hin) as [Hd | Hf]; [| right; by apply elem_of_cons; right].
  destruct (dict_set_inv _ _ _ _ _ Hd) as [-> | Hd']; [right; by apply elem_of_cons; left |].
  by left.
Qed.

(** Every item [form.items()] gives is a field of the form. *)
Lemma items_sent (fields : list (string * Starlette.form_value))
    (k : string) (v : Starlette.form_value) :
  (k, v) ∈ Starlette.items fields → (k, v) ∈ fields.
Proof.
  intros Hin. destruct (items_foldl_inv fields [] k v Hin) as [Hd | Hf]; [| exact Hf].
  by apply not_elem_of_nil in Hd.
Qed.

Lemma starlette_upload_some_too_large (req : Starlette.request)
    (file : Starlette.UploadFile) :
  Starlette.is_authenticated req = true →
  is_upload file (Starlette.items (Starlette.form req)) →
  len (Starlette.read file) > Starlette.max_size →
  status (Starlette.upload_handler req) = 413.
Proof.
  intros Ha Hin Hlen. unfold Starlette.upload_handler. rewrite Ha. cbn [negb].
  destruct (upload_loop_over (Starlette.items (Starlette.form req)) [] 0 file Hin Hlen)
    as [r Hr].
  rewrite Hr. cbn [status]. by apply (upload_loop_left _ _ _ _ Hr).
Qed.

Lemma starlette_upload_each_within (req : Starlette.request) :
  Starlette.is_authenticated req = true →
  (∀ file, is_upload file (Starlette.items (Starlette.form req)) →
           len (Starlette.read file) <= Starlette.max_size) →
  status (Starlette.upload_handler req) = 400
  ∨ status (Starlette.upload_handler req) = 201.
Proof.
  intros Ha Hall. unfold Starlette.upload_handler. rewrite Ha. cbn [negb].
  destruct (upload_loop_within (Starlette.items (Starlette.form req)) [] 0 Hall)
    as (files & total & ->).
  destruct (truthy (JList files)); [right | left]; reflexivity.
Qed.

Lemma zero_file_size (n : Z) : 0 <= n → len (Starlette.read (zero_file n)) = n.
Proof.
  intros Hn. unfold len, zero_file. cbn [Starlette.read].
  rewrite repeat_length. lia.
Qed.

(** C5 as the spec states it fails: two uploads of 6 MiB each in one
    Starlette request are more than the cap together and are accepted. *)
Lemma two_uploads_over_cap_accepted :
  len (Starlette.read (zero_file six_mib)) + len (Starlette.read (zero_file six_mib))
    > Starlette.max_size ∧
  status (Starlette.upload_handler two_uploads) = 201.
Proof.
  assert (Hsize : len (Starlette.read (zero_file six_mib)) = 6291456)
    by (rewrite zero_file_size; [reflexivity | discriminate]).
  split; [rewrite Hsize; reflexivity |].
  unfold Starlette.upload_handler.
  change (Starlette.is_authenticated two_uploads) with true.
  cbn [negb]. change (Starlette.form two_uploads)
    with [("first", Starlette.FormFile (zero_file six_mib));
          ("second", Starlette.FormFile (zero_file six_mib))].
  cbn [Starlette.items foldl Starlette.dict_set fst snd String.eqb Ascii.eqb Bool.eqb].
  cbn [Starlette.upload_loop]. rewrite Hsize.
  change (6291456 >? Starlette.max_size) with false. cbn iota. reflexivity.
Qed.

(** C5, amended. An authenticated upload over the cap of 10*1024*1024
    bytes is answered with 413.  The Starlette handler goes through the
    items [form.items()] gives, one a field name (of the values sent under
    one name, the one sent last), and holds each uploaded file among them
    against the cap on its own: a request with some such file over the cap
    gets 413, and so one with a file over the cap that no later field of
    the same name follows; a request whose files are each within the cap
    is never answered with 413, whatever they add up to. *)
Theorem upload_over_cap_rejected :
  (∀ (file : FastAPI.UploadFile) (token : string),
     known_token token →
     len (FastAPI.read file) > 10 * 1024 * 1024 →
     status (FastAPI.upload_file (FastAPI.Valid file) token) = 413) ∧
  (∀ (req : Starlette.request) (file : Starlette.UploadFile),
     Starlette.is_authenticated req = true →
     is_upload file (Starlette.items (Starlette.form req)) →
     len (Starlette.read file) > 10 * 1024 * 1024 →
     status (Starlette.upload_handler req) = 413) ∧
  (∀ (req : Starlette.request) (file : Starlette.UploadFile)
     (field_name : string) (pre post : list (string * Starlette.form_value)),
     Starlette.is_authenticated req = true →
     Starlette.form req = (pre ++ (field_name, Starlette.FormFile file) :: post)%list →
     field_name ∉ post.*1 →
     len (Starlette.read file) > 10 * 1024 * 1024 →
     status (Starlette.upload_handler req) = 413) ∧
  (∀ req : Starlette.request,
     Starlette.is_authenticated req = true →
     (∀ file, is_upload file (Starlette.items (Starlette.form req)) →
              len (Starlette.read file) <= 10 * 1024 * 1024) →
     status (Starlette.upload_handler req) ≠ 413) ∧
  (∀ req : Starlette.request,
     Starlette.is_authenticated req = true →
     (∀ file, is_upload file (Starlette.form req) →
              len (Starlette.read file) <= 10 * 1024 * 1024) →
     status (Starlette.upload_handler req) ≠ 413).
Proof.
  assert (Hwithin : ∀ req : Starlette.request,
            Starlette.is_authenticated req = true →
            (∀ file, is_upload file (Starlette.items (Starlette.form req)) →
                     len (Starlette.read file) <= 10 * 1024 * 1024) →
            status (Starlette.upload_handler req) ≠ 413).
  { intros req Ha Hall.
    destruct (starlette_upload_each_within req Ha Hall) as [-> | ->]; discriminate. }
  split; [exact fastapi_upload_too_large |].
  split; [exact starlette_upload_some_too_large |].
  split.
  { intros req file field_name pre post Ha Hform Hlast Hlen.
    apply (starlette_upload_some_too_large req file Ha); [| exact Hlen].
    exists field_name. rewrite Hform. by apply items_last. }
  split; [exact Hwithin |].
  intros req Ha Hall. apply (Hwithin req Ha).
  intros file [field_name Hin]. apply Hall. exists field_name. by apply items_sent.
Qed.

Lemma upload_over_cap_rejected_witness :
  status (Starlette.upload_handler one_large_upload) = 413.
Proof.
  apply (proj1 (proj2 (proj2 upload_over_cap_rejected)) one_large_upload
           (zero_file eleven_mib) "photo" [("note", Starlette.FormText "holiday")] []).
  - reflexivity.
  - reflexivity.
  - apply not_elem_of_nil.
  - rewrite zero_file_size; [reflexivity | discriminate].
Defined.

(* ===================================================================== *)
(** ** The synthesized user record *)
(* ===================================================================== *)

Lemma tornado_current_user_cases (req : Tornado.request) :
  Tornado.get_current_user req = JNull
  ∨ Tornado.token_users !! valid_token = Some (Tornado.get_current_user req)
  ∨ Tornado.token_users !! admin_token = Some (Tornado.get_current_user req).
Proof.
  unfold Tornado.get_current_user.
  destruct (startswith _ "Bearer "); [| by left].
  destruct (Tornado.token_users !! str_from 7 _) as [u |] eqn:E; [| by left].
  cbn [from_option id]. right.
  assert (Hs : is_Some (Tornado.token_users !! str_from 7
            (from_option id "" (Tornado.headers req !! "Authorization"))))
    by (rewrite E; eauto).
  apply tornado_token_users in Hs as [Ht | Ht]; rewrite Ht in E; [left | right];
    exact E.
Qed.

Lemma starlette_user_detail_record (req : Starlette.request) (i : Z) :
  1 <= i <= 50 →
  Starlette.path_params req !! "user_id" = Some i →
  ∃ body,
    Starlette.user_detail req = Return (Response 200 (JDict body)) ∧
    entries_get "id" body = Some (JInt i) ∧
    entries_get "username" body = Some (JStr ("user_" ++ str i)).
Proof.
  intros Hi Hp. unfold Starlette.user_detail. rewrite Hp. cbn [mbind outcome_bind].
  destruct (i <=? 0) eqn:E1; [apply Z.leb_le in E1; lia |].
  destruct (i >? 50) eqn:E2; [apply Z.gtb_lt in E2; lia |].
  eexists. split; [reflexivity |]. split; reflexivity.
Qed.

Lemma tornado_user_detail_record (s : string) (req : Tornado.request) (i : Z) :
  1 <= i <= 100 →
  int s = Some i →
  ∃ answer user,
    Tornado.UserDetailHandler_get s req = Return (Response 200 (JDict answer)) ∧
    entries_get "data" answer = Some (JDict user) ∧
    entries_get "id" user = Some (JInt i) ∧
    entries_get "username" user = Some (JStr ("user_" ++ format_03d i)).
Proof.
  intros Hi Hs. unfold Tornado.UserDetailHandler_get. rewrite Hs.
  destruct (i <=? 0) eqn:E1; [apply Z.leb_le in E1; lia |].
  unfold Tornado.get_user_details.
  destruct (i >? 100) eqn:E2; [apply Z.gtb_lt in E2; lia |].
  cbn [truthy negb].
  destruct (tornado_current_user_cases req) as [-> | [Hu | Hu]].
  - do 2 eexists. split; [reflexivity |]. repeat split; reflexivity.
  - injection Hu as <-.
    do 2 eexists. split; [reflexivity |]. repeat split; reflexivity.
  - injection Hu as <-.
    do 2 eexists. split; [reflexivity |]. repeat split; reflexivity.
Qed.

Lemma range_elem (a b i : Z) : a <= i < b → i ∈ range a b.
Proof.
  intros Hi. apply list_elem_of_lookup. exists (Z.to_nat (i - a)).
  rewrite range_lookup by lia. f_equal. lia.
Qed.

Lemma format_03d_pads (i : Z) : 1 <= i < 100 → format_03d i ≠ str i.
Proof.
  intros Hi.
  assert (Hall : forallb (fun i => negb (String.eqb (format_03d i) (str i)))
                   (range 1 100) = true) by (vm_compute; reflexivity).
  rewrite forallb_forall in Hall.
  specialize (Hall i). rewrite <- list_elem_of_In in Hall.
  specialize (Hall (range_elem 1 100 i Hi)).
  apply negb_true_iff, String.eqb_neq in Hall. exact Hall.
Qed.

(** C8 as the spec states it fails: the Tornado handler names user 7
    user_007. *)
Lemma tornado_user_7_is_user_007 :
  int "7" = Some 7 ∧
  (∃ answer,
     Tornado.UserDetailHandler_get "7" (tornado_request [] [])
       = Return (Response 200 (JDict answer)) ∧
     entries_get "data" answer = Some (Tornado.get_user_details 7)) ∧
  subscript (Tornado.get_user_details 7) "username" = Return (JStr "user_007") ∧
  JStr "user_007" ≠ JStr ("user_" ++ str 7).
Proof.
  split; [reflexivity |].
  split; [eexists; split; reflexivity |].
  split; [reflexivity | discriminate].
Qed.

(** C8, amended. For every in-range index i the user-detail handlers
    synthesize the record from the request's own parameter, with id equal
    to i.  The username is "user_" followed by the decimal rendering of i
    in the Starlette handler (i from 1 to 50), and "user_" followed by i
    rendered with at least three digits, zeros in front, in the Tornado
    handler (i from 1 to 100), which differs from the plain rendering for
    every i below 100. *)
Theorem user_detail_synthesized (i : Z) :
  (1 <= i <= 50 →
   ∀ req : Starlette.request,
     Starlette.path_params req !! "user_id" = Some i →
     ∃ body,
       Starlette.user_detail req = Return (Response 200 (JDict body)) ∧
       entries_get "id" body = Some (JInt i) ∧
       entries_get "username" body = Some (JStr ("user_" ++ str i))) ∧
  (1 <= i <= 100 →
   ∀ (s : string) (req : Tornado.request),
     int s = Some i →
     ∃ answer user,
       Tornado.UserDetailHandler_get s req = Return (Response 200 (JDict answer)) ∧
       entries_get "data" answer = Some (JDict user) ∧
       entries_get "id" user = Some (JInt i) ∧
       entries_get "username" user = Some (JStr ("user_" ++ format_03d i))) ∧
  (1 <= i < 100 → format_03d i ≠ str i) ∧
  format_03d 100 = str 100.
Proof.
  split; [intros Hi req; by apply starlette_user_detail_record |].
  split; [intros Hi s req; by apply tornado_user_detail_record |].
  split; [apply format_03d_pads | reflexivity].
Qed.

Lemma user_detail_synthesized_witness :
  (∃ body,
     Starlette.user_detail (detail_request 7) = Return (Response 200 (JDict body)) ∧
     entries_get "id" body = Some (JInt 7) ∧
     entries_get "username" body = Some (JStr ("user_" ++ str 7))) ∧
  (∃ answer user,
     Tornado.UserDetailHandler_get "7"
       (tornado_request [] [("Authorization", bearer admin_token)])
       = Return (Response 200 (JDict answer)) ∧
     entries_get "data" answer = Some (JDict user) ∧
     entries_get "id" user = Some (JInt 7) ∧
     entries_get "username" user = Some (JStr ("user_" ++ format_03d 7))) ∧
  format_03d 7 ≠ str 7.
Proof.
  split; [apply (proj1 (user_detail_synthesized 7)); [lia | reflexivity] |].
  split; [apply (proj1 (proj2 (user_detail_synthesized 7))); [lia | reflexivity] |].
  apply (proj1 (proj2 (proj2 (user_detail_synthesized 7)))). lia.
Defined.

(* ===================================================================== *)
(** ** Text frames that are not JSON *)
(* ===================================================================== *)

Lemma fastapi_text_frame (json_loads : string → option json) (data : string) :
  json_loads data = None →
  FastAPI.websocket_endpoint json_loads data
  = Return (JDict [("type", JStr "echo"); ("data", wrapped data);
                   ("timestamp", JOpaque "time.time()")]).
Proof. intros H. unfold FastAPI.websocket_endpoint. rewrite H. reflexivity. Qed.

Lemma starlette_text_frame (json_loads : string → option json) (data : string) :
  json_loads data = None →
  Starlette.websocket_endpoint json_loads data
  = Return (JDict [("type", JStr "unknown_command");
                   ("message", JStr "Unknown command: text");
                   ("available_commands", Starlette.available_commands);
                   ("timestamp", JOpaque "time.time()")]).
Proof. intros H. unfold Starlette.websocket_endpoint. rewrite H. reflexivity. Qed.

Lemma tornado_text_frame (json_loads : string → option json)
    (closed : Tornado.Conn → bool) (self : Tornado.Conn) (data : string)
    (st : Tornado.ws_state) :
  json_loads data = None →
  Tornado.on_message json_loads closed self data st = Some (Return tt, st).
Proof. intros H. unfold Tornado.on_message. rewrite H. reflexivity. Qed.

(** C9 as the spec states it fails: the frame hello is no JSON; Starlette
    answers it with unknown_command, and Tornado writes nothing at all. *)
Lemma text_frame_not_echoed :
  Json.loads "hello" = None ∧
  Starlette.websocket_endpoint Json.loads "hello"
    = Return (JDict [("type", JStr "unknown_command");
                     ("message", JStr "Unknown command: text");
                     ("available_commands", Starlette.available_commands);
                     ("timestamp", JOpaque "time.time()")]) ∧
  Tornado.on_message Json.loads (fun _ => false) 1%nat "hello"
    (Tornado.mkWs [Some 1%nat; Some 2%nat] [])
    = Some (Return tt, Tornado.mkWs [Some 1%nat; Some 2%nat] []).
Proof. split; [reflexivity |]. split; reflexivity. Qed.

(** C9, amended. A text frame that is not valid JSON makes no handler
    fail; each wraps the raw text as the object with type text and the
    text as content.  The FastAPI handler replies with an echo response
    holding that object; the Starlette handler replies with
    unknown_command for the command text; the Tornado handler knows no
    type text and writes no reply. *)
Theorem text_frame_handled (json_loads : string → option json) (data : string) :
  json_loads data = None →
  FastAPI.websocket_endpoint json_loads data
    = Return (JDict [("type", JStr "echo"); ("data", wrapped data);
                     ("timestamp", JOpaque "time.time()")]) ∧
  Starlette.websocket_endpoint json_loads data
    = Return (JDict [("type", JStr "unknown_command");
                     ("message", JStr "Unknown command: text");
                     ("available_commands", Starlette.available_commands);
                     ("timestamp", JOpaque "time.time()")]) ∧
  (∀ (closed : Tornado.Conn → bool) (self : Tornado.Conn) (st : Tornado.ws_state),
     Tornado.on_message json_loads closed self data st = Some (Return tt, st)).
Proof.
  intros H. split; [by apply fastapi_text_frame |].
  split; [by apply starlette_text_frame |].
  intros closed self st. by apply tornado_text_frame.
Qed.

Lemma text_frame_handled_witness :
  FastAPI.websocket_endpoint Json.loads "hello"
    = Return (JDict [("type", JStr "echo"); ("data", wrapped "hello");
                     ("timestamp", JOpaque "time.time()")]) ∧
  Starlette.websocket_endpoint Json.loads "hello"
    = Return (JDict [("type", JStr "unknown_command");
                     ("message", JStr "Unknown command: text");
                     ("available_commands", Starlette.available_commands);
                     ("timestamp", JOpaque "time.time()")]) ∧
  (∀ (closed : Tornado.Conn → bool) (self : Tornado.Conn) (st : Tornado.ws_state),
     Tornado.on_message Json.loads closed self "hello" st = Some (Return tt, st)).
Proof. apply (text_frame_handled Json.loads "hello"). reflexivity. Defined.

(* ===================================================================== *)
(** ** The websocket broadcast of the Tornado handler *)
(* ===================================================================== *)

Section Broadcast.

Variable closed : Tornado.Conn → bool.

Lemma length_discard (c : Tornado.Conn) (s : Tornado.pyset) :
  length (Tornado.discard c s) = length s.
Proof. unfold Tornado.discard. apply length_fmap. Qed.

Lemma used_discard_le (c : Tornado.Conn) (s : Tornado.pyset) :
  (Tornado.used (Tornado.discard c s) <= Tornado.used s)%nat.
Proof.
  unfold Tornado.used, Tornado.discard.
  induction s as [| [c' |] s IH]; cbn; [lia | | exact IH].
  destruct (Nat.eqb c c'); cbn; lia.
Qed.

Lemma used_discard_lt (c : Tornado.Conn) (s : Tornado.pyset) :
  Some c ∈ s → (Tornado.used (Tornado.discard c s) < Tornado.used s)%nat.
Proof.
  induction s as [| slot s IH]; intros Hin; [by apply not_elem_of_nil in Hin |].
  apply elem_of_cons in Hin as [<- | Hin].
  - pose proof (used_discard_le c s) as Hle.
    unfold Tornado.used, Tornado.discard in *. cbn. rewrite Nat.eqb_refl. cbn. lia.
  - specialize (IH Hin). unfold Tornado.used, Tornado.discard in *.
    destruct slot as [c' |]; cbn; [| exact IH].
    destruct (Nat.eqb c c'); cbn; lia.
Qed.

Lemma first_key_pos (slots : Tornado.pyset) (pos pos' : nat) (c : Tornado.Conn) :
  Tornado.first_key slots pos = Some (c, pos') →
  (pos < pos')%nat ∧ slots ≠ [].
Proof.
  revert pos. induction slots as [| [c' |] slots IH]; intros pos; cbn.
  - discriminate.
  - intros [= <- <-]. split; [lia | discriminate].
  - intros H. apply IH in H as [H _]. split; [lia | discriminate].
Qed.

Lemma first_key_some (slots : Tornado.pyset) (pos : nat) (c : Tornado.Conn) :
  Some c ∈ slots →
  ∃ c1 k rest,
    slots = (replicate k None ++ Some c1 :: rest)%list ∧
    Tornado.first_key slots pos = Some (c1, S (pos + k)).
Proof.
  revert pos. induction slots as [| [c' |] slots IH]; intros pos Hin.
  - by apply not_elem_of_nil in Hin.
  - exists c', 0%nat, slots. split; [reflexivity |]. cbn. by rewrite Nat.add_0_r.
  - apply elem_of_cons in Hin as [[=] | Hin].
    destruct (IH (S pos) Hin) as (c1 & k & rest & -> & Hk).
    exists c1, (S k), rest. split; [reflexivity |].
    cbn [Tornado.first_key]. rewrite Hk. do 2 f_equal. lia.
Qed.

(** The loop ends on every table: the fuel [broadcast] gives is
    enough. *)
Lemma broadcast_loop_total (fuel : nat) (self : Tornado.Conn) (msg : json)
    (it : Tornado.setiter) (st : Tornado.ws_state) :
  (length (Tornado.connections st) - Tornado.si_pos it < fuel)%nat →
  is_Some (Tornado.broadcast_loop closed fuel self msg it st).
Proof.
  revert it st. induction fuel as [| fuel IH]; intros it st Hfuel; [lia |].
  cbn [Tornado.broadcast_loop]. unfold Tornado.next.
  destruct (negb _); [eauto |].
  destruct (Tornado.first_key _ _) as [[c pos'] |] eqn:E; [| eauto].
  apply first_key_pos in E as [Hpos Hne].
  assert (Hlt : (Tornado.si_pos it < length (Tornado.connections st))%nat).
  { destruct (Nat.lt_ge_cases (Tornado.si_pos it) (length (Tornado.connections st)))
      as [H | H]; [exact H |].
    rewrite drop_ge in Hne by exact H. done. }
  destruct (negb (Nat.eqb c self)).
  - unfold Tornado.write_message. destruct (closed c); apply IH; cbn.
    + rewrite length_discard. lia.
    + lia.
  - apply IH. cbn. lia.
Qed.

Lemma broadcast_total (self : Tornado.Conn) (msg : json) (st : Tornado.ws_state) :
  is_Some (Tornado.broadcast closed self msg st).
Proof. unfold Tornado.broadcast. apply broadcast_loop_total. cbn. lia. Qed.

(** Once a write to a peer fails, the set is one key short and the
    iterator refuses the next step: the loop leaves with RuntimeError. *)
Lemma broadcast_loop_raises (fuel : nat) (self : Tornado.Conn) (msg : json)
    (it : Tornado.setiter) (st : Tornado.ws_state) (c : Tornado.Conn) :
  Tornado.si_used it = Tornado.used (Tornado.connections st) →
  Some c ∈ drop (Tornado.si_pos it) (Tornado.connections st) →
  c ≠ self → closed c = true →
  (length (Tornado.connections st) - Tornado.si_pos it < fuel)%nat →
  ∃ st', Tornado.broadcast_loop closed fuel self msg it st
         = Some (Raise (RuntimeError "Set changed size during iteration"), st').
Proof.
  revert it st. induction fuel as [| fuel IH];
    intros it st Hused Hin Hself Hclosed Hfuel; [lia |].
  cbn [Tornado.broadcast_loop]. unfold Tornado.next.
  rewrite Hused, Nat.eqb_refl. cbn [negb].
  destruct (first_key_some _ (Tornado.si_pos it) c Hin) as (c1 & k & rest & Hdrop & ->).
  assert (Hlen : (S (Tornado.si_pos it + k) + length rest
                  = length (Tornado.connections st))%nat).
  { pose proof (f_equal length Hdrop) as H.
    rewrite length_drop, length_app, length_replicate in H. cbn in H. lia. }
  assert (Hrest : drop (S (Tornado.si_pos it + k)) (Tornado.connections st) = rest).
  { replace (S (Tornado.si_pos it + k)) with (Tornado.si_pos it + S k)%nat by lia.
    rewrite <- drop_drop, Hdrop.
    rewrite drop_app_ge by (rewrite length_replicate; lia).
    rewrite length_replicate. replace (S k - k)%nat with 1%nat by lia. reflexivity. }
  assert (Hc : c = c1 ∨ Some c ∈ rest).
  { rewrite Hdrop in Hin. apply elem_of_app in Hin as [Hin | Hin].
    - apply elem_of_replicate in Hin as [[=] _].
    - apply elem_of_cons in Hin as [[= ->] | Hin]; [by left | by right]. }
  destruct (Nat.eqb_spec c1 self) as [-> | Hne]; cbn [negb].
  - destruct Hc as [-> | Hc]; [done |].
    apply IH; cbn; [reflexivity | by rewrite Hrest | exact Hself | exact Hclosed | lia].
  - unfold Tornado.write_message. destruct (closed c1) eqn:Hc1.
    + destruct fuel as [| fuel]; [lia |].
      cbn [Tornado.broadcast_loop]. unfold Tornado.next.
      cbn [Tornado.connections Tornado.si_used Tornado.si_pos].
      assert (Hlt : (Tornado.used (Tornado.discard c1 (Tornado.connections st))
                     < Tornado.used (Tornado.connections st))%nat).
      { apply used_discard_lt.
        rewrite <- (take_drop (Tornado.si_pos it) (Tornado.connections st)), Hdrop.
        apply elem_of_app. right. apply elem_of_app. right.
        apply elem_of_cons. by left. }
      destruct (Nat.eqb_spec (Tornado.used (Tornado.connections st))
                  (Tornado.used (Tornado.discard c1 (Tornado.connections st))))
        as [Heq | _]; [lia |].
      cbn [negb]. eauto.
    + destruct Hc as [-> | Hc]; [congruence |].
      apply IH; cbn; [reflexivity | by rewrite Hrest | exact Hself | exact Hclosed | lia].
Qed.

(** A broadcast with any closed peer in the set raises RuntimeError. *)
Lemma broadcast_raises (self : Tornado.Conn) (msg : json) (st : Tornado.ws_state)
    (c : Tornado.Conn) :
  Some c ∈ Tornado.connections st → c ≠ self → closed c = true →
  ∃ st', Tornado.broadcast closed self msg st
         = Some (Raise (RuntimeError "Set changed size during iteration"), st').
Proof.
  intros Hin Hself Hclosed. unfold Tornado.broadcast.
  apply (broadcast_loop_raises _ self msg _ st c); cbn;
    [reflexivity | exact Hin | exact Hself | exact Hclosed | lia].
Qed.

End Broadcast.

(** C7. Connection 1 broadcasts to the set {1, 2, 3}, walked in this
    order, and the write to 2 fails: 2 is discarded, the next step of the
    loop raises RuntimeError out of [process_message], and 3, which is
    open, is never written to. *)
Theorem broadcast_stops_at_failed_peer :
  Tornado.process_message peer_2_closed 1%nat broadcast_frame
    (Tornado.mkWs [Some 1%nat; Some 2%nat; Some 3%nat] [])
  = Some (Raise (RuntimeError "Set changed size during iteration"),
          Tornado.mkWs [Some 1%nat; None; Some 3%nat] []).
Proof. reflexivity. Qed.

(** With no failing write the same broadcast reaches 2 and 3. *)
Example broadcast_all_open :
  Tornado.process_message (fun _ => false) 1%nat broadcast_frame
    (Tornado.mkWs [Some 1%nat; Some 2%nat; Some 3%nat] [])
  = Some (Return tt,
          Tornado.mkWs [Some 1%nat; Some 2%nat; Some 3%nat]
            [(2%nat, JDict [("type", JStr "broadcast"); ("content", JStr "hi");
                            ("sender", JStr "ann");
                            ("timestamp", JOpaque "time.time()")]);
             (3%nat, JDict [("type", JStr "broadcast"); ("content", JStr "hi");
                            ("sender", JStr "ann");
                            ("timestamp", JOpaque "time.time()")])]).
Proof. reflexivity. Qed.

(* ===================================================================== *)
(** ** More on the listings *)
(* ===================================================================== *)

Lemma Forall_slice {A : Type} (P : A → Prop) (l : list A) (start stop : Z) :
  Forall P l → Forall P (slice l start stop).
Proof. intros H. unfold slice. by apply Forall_take, Forall_drop. Qed.

Lemma Forall_list_filter {A : Type} (f : A → bool) (l : list A) :
  Forall (fun x => f x = true) (List.filter f l).
Proof.
  induction l as [| x l IH]; cbn; [constructor |].
  destruct (f x) eqn:E; [by constructor | exact IH].
Qed.

Lemma Forall_list_filter_keep {A : Type} (P : A → Prop) (f : A → bool) (l : list A) :
  Forall P l → Forall P (List.filter f l).
Proof.
  induction 1 as [| x l Hx Hl IH]; cbn; [constructor |].
  destruct (f x); [by constructor | exact IH].
Qed.

Lemma slice_length_le {A : Type} (l : list A) (start limit : Z) :
  0 <= start → 0 <= limit → len (slice l start (start + limit)) <= limit.
Proof.
  intros Hs Hl. rewrite slice_from_start by lia. unfold len.
  rewrite length_take. lia.
Qed.

Lemma next_page_nonempty {A : Type} (l : list A) (page limit : Z) :
  1 <= page → 1 <= limit →
  ((page - 1) * limit + limit < len l
   ↔ slice l ((page + 1 - 1) * limit) ((page + 1 - 1) * limit + limit) ≠ []).
Proof.
  intros Hp Hl. pose proof (slice_page_length l (page + 1) limit) as Hlen.
  specialize (Hlen ltac:(lia) Hl). split.
  - intros Hlt Hnil. rewrite Hnil in Hlen. unfold len in Hlen. cbn in Hlen.
    unfold len in Hlt. nia.
  - intros Hne. destruct (Z.lt_ge_cases ((page - 1) * limit + limit) (len l)) as [H | H];
      [exact H |].
    exfalso. apply Hne. apply length_zero_iff_nil. unfold len in *. nia.
Qed.

Lemma page_of_next (users : list json) (page limit : Z)
    (listing pagination listing' pagination' : list (string * json)) :
  1 <= page → 1 <= limit →
  page_of users page limit listing pagination →
  page_of users (page + 1) limit listing' pagination' →
  ∃ (has_next : bool) (next_users : list json),
    entries_get "has_next" pagination = Some (JBool has_next) ∧
    entries_get "users" listing' = Some (JList next_users) ∧
    (has_next = true ↔ next_users ≠ []).
Proof.
  intros Hp Hl (_ & _ & b & Hb & Hiff) (Hu & _).
  exists b. eexists. split; [exact Hb |]. split; [exact Hu |].
  rewrite Hiff. by apply next_page_nonempty.
Qed.

(** X1. has_next tells the truth about the next page: from page 1 on, with a
    limit of at least 1, has_next is true exactly when the listing of
    page + 1 holds a user.  Flask, Starlette and the Tornado query. *)
Theorem has_next_iff_next_page_nonempty (page limit : Z) :
  1 <= page → 1 <= limit →
  (∀ req req' : Flask.request,
     Flask.args_get_int (Flask.args req) "page" 1 = page →
     Flask.args_get_int (Flask.args req) "limit" 10 = limit →
     Flask.args_get_int (Flask.args req') "page" 1 = page + 1 →
     Flask.args_get_int (Flask.args req') "limit" 10 = limit →
     ∃ body body' (has_next : bool) next_users,
       Flask.get_users req = Return (Response 200 (JDict body)) ∧
       Flask.get_users req' = Return (Response 200 (JDict body')) ∧
       entries_get "has_next" body = Some (JBool has_next) ∧
       entries_get "users" body' = Some (JList next_users) ∧
       (has_next = true ↔ next_users ≠ [])) ∧
  (∀ (req req' : Starlette.request),
     limit <= 100 →
     Starlette.query_int (Starlette.query_params req) "page" 1 = Return page →
     Starlette.query_int (Starlette.query_params req) "limit" 10 = Return limit →
     Starlette.query_int (Starlette.query_params req') "page" 1 = Return (page + 1) →
     Starlette.query_int (Starlette.query_params req') "limit" 10 = Return limit →
     Starlette.query_get (Starlette.query_params req') "search" ""
       = Starlette.query_get (Starlette.query_params req) "search" "" →
     ∃ body pagination body' (has_next : bool) next_users,
       Starlette.users_list req = Return (Response 200 (JDict body)) ∧
       Starlette.users_list req' = Return (Response 200 (JDict body')) ∧
       entries_get "pagination" body = Some (JDict pagination) ∧
       entries_get "has_next" pagination = Some (JBool has_next) ∧
       entries_get "users" body' = Some (JList next_users) ∧
       (has_next = true ↔ next_users ≠ [])) ∧
  (∀ (search : string) (active_only : bool),
     ∃ pagination (has_next : bool) next_users,
       subscript (Tornado.get_users_from_database page limit search active_only)
         "pagination" = Return (JDict pagination) ∧
       entries_get "has_next" pagination = Some (JBool has_next) ∧
       subscript (Tornado.get_users_from_database (page + 1) limit search active_only)
         "users" = Return (JList next_users) ∧
       (has_next = true ↔ next_users ≠ [])).
Proof.
  intros Hp Hl. split; [| split].
  - intros req req' Hpage Hlimit Hpage' Hlimit'.
    destruct (flask_get_users_page req) as (body & Hb & Hpo).
    destruct (flask_get_users_page req') as (body' & Hb' & Hpo').
    cbn zeta in Hpo, Hpo'. rewrite Hpage, Hlimit in Hpo. rewrite Hpage', Hlimit' in Hpo'.
    destruct (page_of_next _ _ _ _ _ _ _ Hp Hl Hpo Hpo') as (b & us & H1 & H2 & H3).
    by exists body, body', b, us.
  - intros req req' Hle Hpage Hlimit Hpage' Hlimit' Hsearch.
    destruct (starlette_users_list_page req page limit Hpage Hlimit Hp ltac:(lia))
      as (body & pagination & Hb & Hpg & Hpo).
    destruct (starlette_users_list_page req' (page + 1) limit Hpage' Hlimit'
                ltac:(lia) ltac:(lia))
      as (body' & pagination' & Hb' & Hpg' & Hpo').
    cbn zeta in Hpo, Hpo'. rewrite Hsearch in Hpo'.
    destruct (page_of_next _ _ _ _ _ _ _ Hp Hl Hpo Hpo') as (b & us & H1 & H2 & H3).
    by exists body, pagination, body', b, us.
  - intros search active_only.
    destruct (tornado_database_page page limit search active_only)
      as (listing & pagination & Hb & Hpg & Hpo).
    destruct (tornado_database_page (page + 1) limit search active_only)
      as (listing' & pagination' & Hb' & Hpg' & Hpo').
    destruct (page_of_next _ _ _ _ _ _ _ Hp Hl Hpo Hpo') as (b & us & H1 & H2 & H3).
    exists pagination, b, us. rewrite Hb, Hb'. cbn [subscript].
    rewrite Hpg, H2.
    split; [reflexivity |]. split; [exact H1 |]. split; [reflexivity | exact H3].
Qed.

Lemma has_next_iff_next_page_nonempty_witness :
  ∃ pagination (has_next : bool) next_users,
    subscript (Tornado.get_users_from_database 3 40 "" false) "pagination"
      = Return (JDict pagination) ∧
    entries_get "has_next" pagination = Some (JBool has_next) ∧
    subscript (Tornado.get_users_from_database (3 + 1) 40 "" false) "users"
      = Return (JList next_users) ∧
    (has_next = true ↔ next_users ≠ []).
Proof.
  apply (proj2 (proj2 (has_next_iff_next_page_nonempty 3 40 ltac:(lia) ltac:(lia)))).
Defined.

Lemma take_add_drop {A : Type} (l : list A) (a b : nat) :
  take (a + b) l = (take a l ++ take b (drop a l))%list.
Proof.
  revert l. induction a as [| a IH]; intros l; [reflexivity |].
  destruct l as [| x l]; [by rewrite drop_nil, !take_nil |]. cbn. by rewrite IH.
Qed.

Lemma range_snoc (a : Z) (n : nat) :
  range a (a + Z.of_nat (S n)) = (range a (a + Z.of_nat n) ++ [a + Z.of_nat n])%list.
Proof.
  unfold range. replace (Z.to_nat (a + Z.of_nat (S n) - a)) with (S n) by lia.
  replace (Z.to_nat (a + Z.of_nat n - a)) with n by lia.
  rewrite seq_S, fmap_app. reflexivity.
Qed.

Lemma pages_concat {A : Type} (l : list A) (limit : Z) (n : nat) :
  1 <= limit →
  concat ((fun page => slice l ((page - 1) * limit) ((page - 1) * limit + limit))
            <$> range 1 (1 + Z.of_nat n))
  = take (n * Z.to_nat limit) l.
Proof.
  intros Hl. induction n as [| n IH]; [reflexivity |].
  rewrite range_snoc, fmap_app, concat_app, IH. cbn [fmap list_fmap concat].
  rewrite app_nil_r, slice_from_start by nia.
  replace (S n * Z.to_nat limit)%nat with (n * Z.to_nat limit + Z.to_nat limit)%nat by lia.
  rewrite take_add_drop. do 3 f_equal. nia.
Qed.

(** X2. Walking the pages of the Tornado query from 1 to n with one limit and
    the same filters yields the first n*limit users of the filtered list,
    each once and in order; once n*limit reaches the total, the pages are
    the whole filtered list. *)
Theorem tornado_pages_cover_the_list
    (limit : Z) (n : nat) (search : string) (active_only : bool) :
  1 <= limit →
  ∃ pages : list (list json),
    Forall2 (fun page users =>
               subscript (Tornado.get_users_from_database page limit search active_only)
                 "users" = Return (JList users))
      (range 1 (1 + Z.of_nat n)) pages ∧
    concat pages = take (n * Z.to_nat limit) (Tornado.filtered_users search active_only) ∧
    (len (Tornado.filtered_users search active_only) <= Z.of_nat n * limit →
     concat pages = Tornado.filtered_users search active_only).
Proof.
  intros Hl.
  exists ((fun page => slice (Tornado.filtered_users search active_only)
                         ((page - 1) * limit) ((page - 1) * limit + limit))
            <$> range 1 (1 + Z.of_nat n)).
  split; [| split].
  - apply Forall2_fmap_r, Forall_Forall2_diag, Forall_forall. intros page _. reflexivity.
  - by apply pages_concat.
  - intros Hall. rewrite pages_concat by exact Hl. apply take_ge. unfold len in Hall. nia.
Qed.

Lemma tornado_pages_cover_the_list_witness :
  ∃ pages : list (list json),
    Forall2 (fun page users =>
               subscript (Tornado.get_users_from_database page 30 "" true)
                 "users" = Return (JList users))
      (range 1 (1 + Z.of_nat 3)) pages ∧
    concat pages = take (3 * Z.to_nat 30) (Tornado.filtered_users "" true) ∧
    (len (Tornado.filtered_users "" true) <= Z.of_nat 3 * 30 →
     concat pages = Tornado.filtered_users "" true).
Proof. apply (tornado_pages_cover_the_list 30 3 "" true). lia. Defined.

(** X3. The filters of the listings hold for every user on every page: with
    active_only the Tornado query lists active users only, and with a
    search text every listed user has it, lowercased, in the lowercased
    username or email (Tornado) or username (Starlette). *)
Theorem listed_users_pass_the_filters :
  (∀ (page limit : Z) (search : string) (active_only : bool) (users : list json),
     subscript (Tornado.get_users_from_database page limit search active_only) "users"
       = Return (JList users) →
     Forall (fun u =>
               u ∈ Tornado.all_users ∧
               (active_only = true → Tornado.bool_field u "active" = true) ∧
               (nonempty search = true →
                contains (lower search) (lower (Tornado.str_field u "username"))
                || contains (lower search) (lower (Tornado.str_field u "email")) = true))
       users) ∧
  (∀ (search : string) (start stop : Z),
     Forall (fun u =>
               u ∈ Starlette.all_users ∧
               (nonempty search = true →
                contains (lower search) (lower (Starlette.str_field u "username")) = true))
       (slice (Starlette.searched_users search) start stop)).
Proof.
  split.
  - intros page limit search active_only users [= <-].
    apply Forall_slice. unfold Tornado.filtered_users.
    assert (Hall : Forall (fun u => u ∈ Tornado.all_users) Tornado.all_users)
      by (apply Forall_forall; auto).
    destruct active_only, (nonempty search) eqn:Hs.
    + eapply Forall_impl.
      * apply Forall_and; split; [apply Forall_list_filter |].
        apply Forall_list_filter_keep.
        apply Forall_and; split;
          [apply Forall_list_filter | apply Forall_list_filter_keep, Hall].
      * cbn beta. intros u (H1 & H2 & H3). auto.
    + eapply Forall_impl.
      * apply Forall_and; split; [apply Forall_list_filter |].
        apply Forall_list_filter_keep, Hall.
      * cbn beta. intros u (H1 & H2). split; [exact H2 |]. split; [auto | discriminate].
    + eapply Forall_impl.
      * apply Forall_and; split; [apply Forall_list_filter |].
        apply Forall_list_filter_keep, Hall.
      * cbn beta. intros u (H1 & H2). split; [exact H2 |]. split; [discriminate | auto].
    + eapply Forall_impl; [exact Hall |]. cbn beta. intros u H.
      split; [exact H |]. split; discriminate.
  - intros search start stop. apply Forall_slice. unfold Starlette.searched_users.
    assert (Hall : Forall (fun u => u ∈ Starlette.all_users) Starlette.all_users)
      by (apply Forall_forall; auto).
    destruct (nonempty search) eqn:Hs.
    + eapply Forall_impl.
      * apply Forall_and; split; [apply Forall_list_filter |].
        apply Forall_list_filter_keep, Hall.
      * cbn beta. intros u (H1 & H2). auto.
    + eapply Forall_impl; [exact Hall |]. cbn beta. intros u H.
      split; [exact H | discriminate].
Qed.

Lemma listed_users_pass_the_filters_witness :
  Forall (fun u =>
            u ∈ Tornado.all_users ∧
            (true = true → Tornado.bool_field u "active" = true) ∧
            (nonempty "USER_09" = true →
             contains (lower "USER_09") (lower (Tornado.str_field u "username"))
             || contains (lower "USER_09") (lower (Tornado.str_field u "email")) = true))
    [Tornado.user_record 90; Tornado.user_record 91; Tornado.user_record 93].
Proof.
  apply (proj1 listed_users_pass_the_filters 1 3 "USER_09" true). reflexivity.
Defined.

(** X4. The Tornado listing never lets an exception out: every request is
    answered with 200 or 400, and with 200 exactly when page and limit
    read as integers with page >= 1 and 1 <= limit <= 100. *)
Theorem tornado_users_get_200_or_400 (req : Tornado.request) :
  ∃ r, Tornado.UsersHandler_get req = Return r ∧
       (status_code r = 200 ∨ status_code r = 400) ∧
       (status_code r = 200 ↔
        ∃ page limit,
          Tornado.int_argument req "page" 1 = Return page ∧
          Tornado.int_argument req "limit" 10 = Return limit ∧
          1 <= page ∧ 1 <= limit <= 100).
Proof.
  unfold Tornado.UsersHandler_get.
  destruct (Tornado.int_argument req "page" 1) as [page | e] eqn:Ep.
  - destruct (Tornado.int_argument req "limit" 10) as [limit | e] eqn:El.
    + destruct (page <? 1) eqn:E1.
      { eexists. split; [reflexivity |]. split; [by right |]. cbn. split; [discriminate |].
        intros (p & l & [= <-] & _ & Hp & _). apply Z.ltb_lt in E1. lia. }
      destruct (limit <? 1) eqn:E2.
      { eexists. split; [reflexivity |]. split; [by right |]. cbn. split; [discriminate |].
        intros (p & l & _ & [= <-] & _ & Hl). apply Z.ltb_lt in E2. lia. }
      destruct (limit >? 100) eqn:E3.
      { eexists. split; [reflexivity |]. split; [by right |]. cbn. split; [discriminate |].
        intros (p & l & _ & [= <-] & _ & Hl). apply Z.gtb_lt in E3. lia. }
      eexists. split; [reflexivity |]. split; [by left |]. cbn. split; [| done].
      intros _. exists page, limit. apply Z.ltb_ge in E1, E2.
      rewrite Z.gtb_ltb in E3. apply Z.ltb_ge in E3. by repeat split.
    + eexists. split; [reflexivity |]. split; [by right |]. cbn. split; [discriminate |].
      intros (p & l & _ & [=] & _).
  - eexists. split; [reflexivity |]. split; [by right |]. cbn. split; [discriminate |].
    intros (p & l & [=] & _).
Qed.

(* ===================================================================== *)
(** ** More on the searches *)
(* ===================================================================== *)






(* ===================================================================== *)
(** ** More on authentication *)
(* ===================================================================== *)

Lemma starlette_token_lookup (token : string) (u : Starlette.token_user) :
  Starlette.token_users !! token = Some u ↔
  (token = admin_token ∧ u = Starlette.mkTokenUser "admin" ["authenticated"; "admin"])
  ∨ (token = user_token ∧ u = Starlette.mkTokenUser "user" ["authenticated"])
  ∨ (token = valid_token ∧ u = Starlette.mkTokenUser "guest" ["authenticated"]).
Proof.
  unfold Starlette.token_users. rewrite !lookup_insert_Some, lookup_empty.
  split.
  - intros [[<- <-] | [_ [[<- <-] | [_ [[<- <-] | [_ [=]]]]]]]; auto.
  - intros [[-> ->] | [[-> ->] | [-> ->]]]; [by left | right | right].
    + split; [discriminate |]. by left.
    + split; [discriminate |]. right. split; [discriminate |]. by left.
Qed.

Lemma tornado_token_lookup (token : string) (u : json) :
  Tornado.token_users !! token = Some u →
  token = valid_token ∨ token = admin_token.
Proof.
  intros H. apply tornado_token_users. rewrite H. eauto.
Qed.

(** X6. Only a known token behind the exact prefix "Bearer " authenticates.
    The Starlette backend yields credentials exactly for such a header,
    the admin scope for 'admin-token' alone; the function wrapped by
    Flask's require_auth runs only for such a header, otherwise the answer
    is 401; Tornado's current user is None unless the header carries
    'valid-token' or 'admin-token'. *)
Theorem only_bearer_known_token_authenticates :
  (∀ (h : params) (scopes : list string) (name : string),
     Starlette.authenticate h = Some (scopes, name) ↔
     ∃ token, h !! "Authorization" = Some (bearer token) ∧
       ((token = admin_token ∧ scopes = ["authenticated"; "admin"] ∧ name = "admin")
        ∨ (token = user_token ∧ scopes = ["authenticated"] ∧ name = "user")
        ∨ (token = valid_token ∧ scopes = ["authenticated"] ∧ name = "guest"))) ∧
  (∀ (f : Flask.request → outcome response) (req : Flask.request),
     (∃ token, Flask.headers req !! "Authorization" = Some (bearer token) ∧
        known_token token ∧
        Flask.require_auth f req
        = f (Flask.set_current_user req (JDict [
              ("token", JStr token);
              ("username", JStr (if String.eqb token admin_token then "admin" else "user"));
              ("is_admin", JBool (String.eqb token admin_token))])))
     ∨ ((¬ ∃ token, Flask.headers req !! "Authorization" = Some (bearer token) ∧
                    known_token token) ∧
        ∃ r, Flask.require_auth f req = Return r ∧ status_code r = 401)) ∧
  (∀ req : Tornado.request,
     Tornado.get_current_user req ≠ JNull →
     ∃ token, Tornado.headers req !! "Authorization" = Some (bearer token) ∧
              (token = valid_token ∨ token = admin_token)).
Proof.
  split; [| split].
  - intros h scopes name. unfold Starlette.authenticate. split.
    + destruct (h !! "Authorization") as [auth |]; [| discriminate].
      destruct (startswith auth "Bearer ") eqn:Hp; [| discriminate]. cbn [negb].
      destruct (Starlette.token_users !! str_from 7 auth) as [u |] eqn:E; [| discriminate].
      intros [= <- <-]. exists (str_from 7 auth).
      split; [f_equal; by apply bearer_inv |].
      apply starlette_token_lookup in E as [[-> ->] | [[-> ->] | [-> ->]]]; auto.
    + intros (token & -> & H). rewrite startswith_bearer, str_from_bearer. cbn [negb].
      destruct H as [(-> & -> & ->) | [(-> & -> & ->) | (-> & -> & ->)]]; reflexivity.
  - intros f req. unfold Flask.require_auth, Flask.args_get.
    destruct (Flask.headers req !! "Authorization") as [auth |] eqn:Hh; cbn [from_option id].
    + destruct (startswith auth "Bearer ") eqn:Hp; cbn [negb].
      * destruct (decide (str_from 7 auth ∈ Flask.valid_tokens)) as [Hin | Hin].
        -- left. exists (str_from 7 auth).
           split; [f_equal; by apply bearer_inv |].
           split; [by apply flask_valid_tokens |].
           by rewrite bool_decide_eq_true_2.
        -- right. rewrite bool_decide_eq_false_2 by exact Hin. cbn [negb]. split.
           ++ intros (token & [= ->] & Hk). apply Hin.
              rewrite str_from_bearer. by apply flask_valid_tokens.
           ++ eexists. split; reflexivity.
      * right. split.
        -- intros (token & [= ->] & _). by rewrite startswith_bearer in Hp.
        -- eexists. split; reflexivity.
    + right. split; [intros (token & [=] & _) |]. eexists. split; reflexivity.
  - intros req. unfold Tornado.get_current_user.
    destruct (Tornado.headers req !! "Authorization") as [auth |] eqn:Hh;
      cbn [from_option id]; [| intros H; by destruct H].
    destruct (startswith auth "Bearer ") eqn:Hp; [| intros H; by destruct H].
    destruct (Tornado.token_users !! str_from 7 auth) as [u |] eqn:E;
      [| intros H; by destruct H].
    intros _. exists (str_from 7 auth). split; [f_equal; by apply bearer_inv |].
    by apply (tornado_token_lookup _ u).
Qed.

Lemma only_bearer_known_token_authenticates_witness :
  ∃ token,
    Tornado.headers (tornado_request [] [("Authorization", "Bearer valid-token")])
      !! "Authorization" = Some (bearer token) ∧
    (token = valid_token ∨ token = admin_token).
Proof.
  apply (proj2 (proj2 only_bearer_known_token_authenticates)). discriminate.
Defined.

Example starlette_lowercase_bearer_rejected :
  Starlette.authenticate (list_to_map [("Authorization", "bearer admin-token")]) = None.
Proof. reflexivity. Qed.

(* ===================================================================== *)
(** ** More on the FastAPI routes *)
(* ===================================================================== *)

(** X7. [GET /users/{user_id}] answers 200 exactly for the ids 1, 2 and 3,
    and the user it returns carries the id that was asked for. *)
Theorem fastapi_get_user_found_iff (user_id : Z) :
  (status (FastAPI.get_user user_id) = 200 ↔ 1 <= user_id <= 3) ∧
  (∀ body, FastAPI.get_user user_id = Return (Response 200 (JDict body)) →
           entries_get "id" body = Some (JInt user_id)).
Proof.
  destruct (Z.le_gt_cases user_id 0) as [Hle | Hgt].
  - rewrite (fastapi_get_user_below user_id Hle). split; [split; [discriminate | lia] |].
    intros body H. pose proof (fastapi_get_user_below user_id Hle) as Hs.
    rewrite H in Hs. discriminate.
  - destruct (Z.le_gt_cases user_id 3) as [Hle3 | Hgt3].
    + assert (Hcases : user_id = 1 ∨ user_id = 2 ∨ user_id = 3) by lia.
      destruct Hcases as [-> | [-> | ->]];
        (split; [split; [lia | reflexivity] | by intros body [= <-]]).
    + rewrite (fastapi_get_user_above user_id ltac:(lia)).
      split; [split; [discriminate | lia] |].
      intros body H. pose proof (fastapi_get_user_above user_id ltac:(lia)) as Hs.
      rewrite H in Hs. discriminate.
Qed.

Lemma fastapi_user_map_lookup (token : string) (u : FastAPI.User) :
  FastAPI.user_map !! token = Some u →
  FastAPI.get_current_user token = Return u.
Proof. intros H. unfold FastAPI.get_current_user. by rewrite H. Qed.

(** The bounds of [UserUpdate] at work: no instance holds the username
    'x' or an email without a dot in its domain. *)
Example user_update_bounds :
  FastAPI.length_within (Some 3) (Some 20) "x" = false ∧
  FastAPI.length_within (Some 3) (Some 20) "root" = true ∧
  FastAPI.email_ok "root@example.com" = true ∧
  FastAPI.email_ok "root@example" = false ∧
  FastAPI.email_ok "root@@example.com" = false ∧
  FastAPI.email_ok "first.last@mail.example-site.org" = true.
Proof. repeat split; reflexivity. Qed.

(** X8. [PUT /users/{user_id}] with a known token and an id above 0.  A
    body that the model [UserUpdate] refuses is answered 422.  With a body
    it accepts, or none, a caller who is no admin is refused with 403 for
    every id but the caller's own.  When the update goes through, the
    record that comes back is the caller's, whatever [user_id] is: without
    a body it is the caller's record as it stands; with a body that sets
    no field to null it keeps the caller's id and admin flag and takes
    from the body only the username, email and active flag that the body
    gives; a body that sets a field to null leaves a record that is no
    [User], and the answer is 500. *)
Theorem fastapi_update_user_returns_caller
    (user_id : Z) (token : string) (u : FastAPI.User) :
  FastAPI.user_map !! token = Some u → 0 < user_id →
  status (FastAPI.update_user user_id FastAPI.Invalid token) = 422 ∧
  (FastAPI.is_admin u = false → user_id ≠ FastAPI.id u →
   ∀ user_update,
     status (FastAPI.update_user user_id (FastAPI.Valid user_update) token) = 403) ∧
  (FastAPI.is_admin u = true ∨ user_id = FastAPI.id u →
   FastAPI.update_user user_id (FastAPI.Valid None) token
     = Return (Response 200 (FastAPI.jsonable_user u)) ∧
   ∀ upd : FastAPI.UserUpdate,
     (sets_null upd = true →
      status (FastAPI.update_user user_id (FastAPI.Valid (Some upd)) token) = 500) ∧
     (sets_null upd = false →
      ∃ body,
        FastAPI.update_user user_id (FastAPI.Valid (Some upd)) token
          = Return (Response 200 (JDict body)) ∧
        entries_get "id" body = Some (JInt (FastAPI.id u)) ∧
        entries_get "is_admin" body = Some (JBool (FastAPI.is_admin u)) ∧
        entries_get "username" body
          = Some (JStr (given (FastAPI.upd_username upd) (FastAPI.username u))) ∧
        entries_get "email" body
          = Some (JStr (given (FastAPI.upd_email upd) (FastAPI.email u))) ∧
        entries_get "is_active" body
          = Some (JBool (given (FastAPI.upd_is_active upd) (FastAPI.is_active u))))).
Proof.
  intros Hu Hid. unfold FastAPI.update_user.
  rewrite (fastapi_user_map_lookup token u Hu).
  cbn [FastAPI.read_json mbind outcome_bind].
  unfold FastAPI.Path_gt. rewrite (proj2 (Z.ltb_lt 0 user_id) Hid).
  cbn [mbind outcome_bind FastAPI.validated]. split; [reflexivity |]. split.
  - intros Ha Hne user_update.
    rewrite Ha. rewrite (proj2 (Z.eqb_neq _ _) Hne). reflexivity.
  - intros Hok.
    assert (Hcond : negb (user_id =? FastAPI.id u) && negb (FastAPI.is_admin u) = false).
    { destruct Hok as [-> | ->]; [apply andb_false_r |]. by rewrite Z.eqb_refl. }
    rewrite Hcond. split; [by destruct u |].
    intros [[| | n] [| | e] [| | a] Haccepted]; unfold sets_null;
      cbn [FastAPI.upd_username FastAPI.upd_email FastAPI.upd_is_active is_null orb
           FastAPI.updated FastAPI.as_user given];
      split; intros Hn;
      first [discriminate Hn | reflexivity | (eexists; repeat split; reflexivity)].
Qed.

Lemma fastapi_update_user_returns_caller_witness :
  ∃ body,
    FastAPI.update_user 1
      (FastAPI.Valid (Some (FastAPI.mkUserUpdate (FastAPI.Given "root")
                              FastAPI.Unset FastAPI.Unset I)))
      admin_token
      = Return (Response 200 (JDict body)) ∧
    entries_get "id" body = Some (JInt 2) ∧
    entries_get "is_admin" body = Some (JBool true) ∧
    entries_get "username" body = Some (JStr "root") ∧
    entries_get "email" body = Some (JStr "admin@example.com") ∧
    entries_get "is_active" body = Some (JBool true).
Proof.
  apply (proj2 (proj2 (proj2 (proj2 (fastapi_update_user_returns_caller 1 admin_token
                  (FastAPI.mkUser 2 "admin" "admin@example.com" true true)
                  ltac:(reflexivity) ltac:(lia))) ltac:(left; reflexivity))
           (FastAPI.mkUserUpdate (FastAPI.Given "root") FastAPI.Unset FastAPI.Unset I))).
  reflexivity.
Defined.

(** X9. [GET /users] of FastAPI: with parameters inside the declared bounds it
    answers 200 with at most [limit] of the four users, each of which
    passes the filters asked for; a parameter outside the bounds is
    answered with the validation error 422. *)
Theorem fastapi_get_users_filtered
    (skip limit : Z) (active_only : bool) (search : option string) :
  (0 <= skip → 1 <= limit <= 100 →
   (∀ s, search = Some s → 1 <= Z.of_nat (String.length s) <= 50) →
   ∃ users,
     FastAPI.get_users skip limit active_only search
       = Return (Response 200 (JList (FastAPI.jsonable_user <$> users))) ∧
     len users <= limit ∧
     Forall (fun u =>
               u ∈ FastAPI.all_users ∧
               (active_only = true → FastAPI.is_active u = true) ∧
               (∀ s, search = Some s →
                     contains (lower s) (lower (FastAPI.username u)) = true))
       users) ∧
  (skip < 0 ∨ limit < 1 ∨ 100 < limit →
   status (FastAPI.get_users skip limit active_only search) = 422).
Proof.
  unfold FastAPI.get_users, FastAPI.check_int, FastAPI.in_bounds. cbn [from_option].
  split.
  - intros Hs Hl Hsearch.
    rewrite (proj2 (Z.leb_le 0 skip) Hs). cbn [andb mbind outcome_bind].
    rewrite (proj2 (Z.leb_le 1 limit) (proj1 Hl)), (proj2 (Z.leb_le limit 100) (proj2 Hl)).
    cbn [andb mbind outcome_bind].
    assert (Hall : Forall (fun u => u ∈ FastAPI.all_users) FastAPI.all_users)
      by (apply Forall_forall; auto).
    assert (Hcheck : ∀ s, search = Some s →
              FastAPI.check_str (Some 1) (Some 50) s = Return s ∧ nonempty s = true).
    { intros s Hs'. specialize (Hsearch s Hs'). unfold FastAPI.check_str, FastAPI.in_bounds.
      cbn [from_option].
      rewrite (proj2 (Z.leb_le _ _) (proj1 Hsearch)), (proj2 (Z.leb_le _ _) (proj2 Hsearch)).
      split; [reflexivity |]. destruct s; [cbn in Hsearch; lia | reflexivity]. }
    destruct search as [s |].
    + destruct (Hcheck s eq_refl) as [-> Hne]. cbn [mbind outcome_bind].
      eexists. split; [reflexivity |]. split; [by apply slice_length_le; lia |].
      apply Forall_slice. unfold FastAPI.filtered_users. rewrite Hne.
      destruct active_only.
      * eapply Forall_impl.
        -- apply Forall_and; split; [apply Forall_list_filter |].
           apply Forall_list_filter_keep.
           apply Forall_and; split;
             [apply Forall_list_filter | apply Forall_list_filter_keep, Hall].
        -- cbn beta. intros u (H1 & H2 & H3). split; [exact H3 |].
           split; [auto |]. by intros s' [= <-].
      * eapply Forall_impl.
        -- apply Forall_and; split; [apply Forall_list_filter |].
           apply Forall_list_filter_keep, Hall.
        -- cbn beta. intros u (H1 & H2). split; [exact H2 |].
           split; [discriminate |]. by intros s' [= <-].
    + cbn [mbind outcome_bind].
      eexists. split; [reflexivity |]. split; [by apply slice_length_le; lia |].
      apply Forall_slice. unfold FastAPI.filtered_users.
      destruct active_only.
      * eapply Forall_impl.
        -- apply Forall_and; split; [apply Forall_list_filter |].
           apply Forall_list_filter_keep, Hall.
        -- cbn beta. intros u (H1 & H2). split; [exact H2 |]. split; [auto | discriminate].
      * eapply Forall_impl; [exact Hall |]. cbn beta. intros u H.
        split; [exact H |]. split; discriminate.
  - intros Hbad.
    destruct (0 <=? skip) eqn:E0; [| reflexivity]. cbn [andb mbind outcome_bind].
    destruct (1 <=? limit) eqn:E1; [| reflexivity].
    destruct (limit <=? 100) eqn:E2; [| reflexivity].
    apply Z.leb_le in E0, E1, E2. lia.
Qed.

Lemma fastapi_get_users_filtered_witness :
  ∃ users,
    FastAPI.get_users 1 2 true (Some "A")
      = Return (Response 200 (JList (FastAPI.jsonable_user <$> users))) ∧
    len users <= 2 ∧
    Forall (fun u =>
              u ∈ FastAPI.all_users ∧
              (true = true → FastAPI.is_active u = true) ∧
              (∀ s, Some "A" = Some s →
                    contains (lower s) (lower (FastAPI.username u)) = true))
      users.
Proof.
  apply (proj1 (fastapi_get_users_filtered 1 2 true (Some "A"))); [lia | lia |].
  intros s [= <-]. cbn. lia.
Defined.

(** X10. [GET /posts]: with a limit from 1 to 50 the answer is 200 with at most
    [limit] of the three posts; with published_only none of them is a
    draft, and with an author id other than 0 all are that author's.  The
    author id 0 filters nothing, like no author id at all. *)
Theorem fastapi_get_posts_filtered
    (published_only : bool) (author_id : option Z) (limit : Z) :
  1 <= limit <= 50 →
  (∃ posts,
     FastAPI.get_posts published_only author_id limit
       = Return (Response 200 (JList (FastAPI.jsonable_post <$> posts))) ∧
     len posts <= limit ∧
     Forall (fun p =>
               p ∈ FastAPI.all_posts ∧
               (published_only = true → FastAPI.p_published p = true) ∧
               (∀ a, author_id = Some a → a ≠ 0 → FastAPI.p_author_id p = a))
       posts) ∧
  FastAPI.get_posts published_only (Some 0) limit
    = FastAPI.get_posts published_only None limit.
Proof.
  intros Hl. split; [| reflexivity].
  unfold FastAPI.get_posts, FastAPI.check_int, FastAPI.in_bounds. cbn [from_option].
  rewrite (proj2 (Z.leb_le 1 limit) (proj1 Hl)), (proj2 (Z.leb_le limit 50) (proj2 Hl)).
  cbn [andb mbind outcome_bind].
  eexists. split; [reflexivity |].
  split; [apply (slice_length_le _ 0 limit); lia |].
  apply Forall_slice. unfold FastAPI.filtered_posts.
  assert (Hall : Forall (fun p => p ∈ FastAPI.all_posts) FastAPI.all_posts)
    by (apply Forall_forall; auto).
  assert (Hpub : Forall (fun p => p ∈ FastAPI.all_posts ∧
                                  (published_only = true → FastAPI.p_published p = true))
                   (if published_only
                    then List.filter FastAPI.p_published FastAPI.all_posts
                    else FastAPI.all_posts)).
  { destruct published_only.
    - eapply Forall_impl.
      + apply Forall_and; split; [apply Forall_list_filter |].
        apply Forall_list_filter_keep, Hall.
      + cbn beta. intros p (H1 & H2). auto.
    - eapply Forall_impl; [exact Hall |]. cbn beta. intros p H. split; [exact H | discriminate]. }
  destruct author_id as [a |].
  - destruct (a =? 0) eqn:Ea; cbn [negb].
    + apply Z.eqb_eq in Ea. eapply Forall_impl; [exact Hpub |]. cbn beta.
      intros p (H1 & H2). split; [exact H1 |]. split; [exact H2 |].
      intros a' [= <-] Hne. lia.
    + eapply Forall_impl.
      * apply Forall_and; split; [apply Forall_list_filter |].
        apply Forall_list_filter_keep, Hpub.
      * cbn beta. intros p (H1 & H2 & H3). split; [exact H2 |]. split; [exact H3 |].
        intros a' [= <-] _. by apply Z.eqb_eq.
  - eapply Forall_impl; [exact Hpub |]. cbn beta.
    intros p (H1 & H2). split; [exact H1 |]. split; [exact H2 | discriminate].
Qed.

Lemma fastapi_get_posts_filtered_witness :
  (∃ posts,
     FastAPI.get_posts true (Some 1) 10
       = Return (Response 200 (JList (FastAPI.jsonable_post <$> posts))) ∧
     len posts <= 10 ∧
     Forall (fun p =>
               p ∈ FastAPI.all_posts ∧
               (true = true → FastAPI.p_published p = true) ∧
               (∀ a, Some 1 = Some a → a ≠ 0 → FastAPI.p_author_id p = a))
       posts) ∧
  FastAPI.get_posts true (Some 0) 10 = FastAPI.get_posts true None 10.
Proof. apply (fastapi_get_posts_filtered true (Some 1) 10). lia. Defined.

Lemma lower_ascii_idem (c : ascii) : lower_ascii (lower_ascii c) = lower_ascii c.
Proof. destruct c as [[] [] [] [] [] [] [] []]; reflexivity. Qed.

Lemma lower_ascii_not_upper (c : ascii) : is_upper (lower_ascii c) = false.
Proof. destruct c as [[] [] [] [] [] [] [] []]; reflexivity. Qed.

Lemma lower_ascii_alnum (c : ascii) :
  FastAPI.is_alnum (lower_ascii c) = FastAPI.is_alnum c.
Proof. destruct c as [[] [] [] [] [] [] [] []]; reflexivity. Qed.

Lemma lower_ascii_underscore (c : ascii) :
  Ascii.eqb (lower_ascii c) "_" = Ascii.eqb c "_".
Proof. destruct c as [[] [] [] [] [] [] [] []]; reflexivity. Qed.

Lemma lower_idem (s : string) : lower (lower s) = lower s.
Proof. induction s as [| c s IH]; [reflexivity |]. cbn. by rewrite lower_ascii_idem, IH. Qed.

Lemma remove_underscores_lower (s : string) :
  FastAPI.remove_underscores (lower s) = lower (FastAPI.remove_underscores s).
Proof.
  induction s as [| c s IH]; [reflexivity |]. cbn.
  rewrite lower_ascii_underscore. destruct (Ascii.eqb c "_"); [exact IH |].
  cbn. by rewrite IH.
Qed.

Lemma all_alnum_lower (s : string) : FastAPI.all_alnum (lower s) = FastAPI.all_alnum s.
Proof.
  induction s as [| c s IH]; [reflexivity |]. cbn. by rewrite lower_ascii_alnum, IH.
Qed.

Lemma nonempty_lower (s : string) : nonempty (lower s) = nonempty s.
Proof. by destruct s. Qed.

Lemma is_alnum_ascii (c : ascii) :
  FastAPI.is_alnum c = true → Nat.ltb (nat_of_ascii c) 128 = true.
Proof.
  unfold FastAPI.is_alnum. cbv zeta. intros H. apply Nat.ltb_lt.
  rewrite !orb_true_iff, !andb_true_iff, !Nat.leb_le in H. lia.
Qed.

Lemma all_alnum_ascii (s : string) :
  FastAPI.all_alnum s = true → FastAPI.is_ascii s = true.
Proof.
  induction s as [| c s IH]; [reflexivity |].
  cbn [FastAPI.all_alnum FastAPI.is_ascii].
  intros [Hc Hs]%andb_true_iff. by rewrite (is_alnum_ascii c Hc), IH.
Qed.

Lemma is_ascii_remove_underscores (s : string) :
  FastAPI.is_ascii s = true → FastAPI.is_ascii (FastAPI.remove_underscores s) = true.
Proof.
  induction s as [| c s IH]; [reflexivity |].
  cbn [FastAPI.remove_underscores FastAPI.is_ascii].
  intros [Hc Hs]%andb_true_iff. destruct (Ascii.eqb c "_"); [by apply IH |].
  cbn [FastAPI.is_ascii]. by rewrite Hc, IH.
Qed.

(** The characters of a str *)
Lemma all_alnum_removed (s : string) :
  FastAPI.all_alnum (FastAPI.remove_underscores s) = true →
  Forall (fun c => FastAPI.is_alnum c = true ∨ c = "_"%char) (list_ascii_of_string s).
Proof.
  induction s as [| c s IH]; cbn; [constructor |].
  destruct (Ascii.eqb_spec c "_") as [-> | Hne].
  - intros H. constructor; [by right | by apply IH].
  - cbn. intros [H1 H2]%andb_true_iff. constructor; [by left | by apply IH].
Qed.

Lemma all_alnum_removed_conv (s : string) :
  Forall (fun c => FastAPI.is_alnum c = true ∨ c = "_"%char) (list_ascii_of_string s) →
  FastAPI.all_alnum (FastAPI.remove_underscores s) = true.
Proof.
  induction s as [| c s IH]; cbn; [reflexivity |].
  intros H. apply Forall_cons in H as [Hc Hs].
  destruct (Ascii.eqb_spec c "_") as [-> | Hne]; [by apply IH |].
  cbn. destruct Hc as [-> | ->]; [by apply IH | done].
Qed.

(** X11. For a name of ASCII characters, the validator of
    UserCreate.username accepts the name exactly when it has a letter or
    digit and nothing but letters, digits and underscores, and refuses
    every other name with ValueError, a name of underscores only and the
    empty name among them.  What it hands on is the name in lower case,
    which the validator accepts again unchanged. *)
Theorem username_validator_normalizes (v : string) :
  FastAPI.is_ascii v = true →
  (FastAPI.username_must_be_alphanumeric v = Some (Return (lower v))
   ↔ Forall (fun c => FastAPI.is_alnum c = true ∨ c = "_"%char) (list_ascii_of_string v)
     ∧ FastAPI.remove_underscores v ≠ "") ∧
  (FastAPI.username_must_be_alphanumeric v = Some (Return (lower v))
   ∨ FastAPI.username_must_be_alphanumeric v = Some (Raise ValueError)) ∧
  (∀ name, FastAPI.username_must_be_alphanumeric v = Some (Return name) →
           FastAPI.username_must_be_alphanumeric name = Some (Return name)).
Proof.
  intros Hascii. unfold FastAPI.username_must_be_alphanumeric, FastAPI.isalnum.
  rewrite (is_ascii_remove_underscores v Hascii).
  destruct (nonempty (FastAPI.remove_underscores v)
            && FastAPI.all_alnum (FastAPI.remove_underscores v)) eqn:E; cbn [negb].
  - apply andb_true_iff in E as [Hne Hall].
    split; [| split; [by left |]].
    + split; [| reflexivity]. intros _. split; [by apply all_alnum_removed |].
      intros H0. rewrite H0 in Hne. discriminate.
    + intros name [= <-]. rewrite remove_underscores_lower.
      rewrite (all_alnum_ascii (lower (FastAPI.remove_underscores v)))
        by (by rewrite all_alnum_lower).
      rewrite nonempty_lower, all_alnum_lower, Hne, Hall. cbn [negb andb].
      by rewrite lower_idem.
  - split; [| split; [by right | discriminate]].
    split; [discriminate |]. intros [Hchars Hne]. exfalso.
    rewrite (all_alnum_removed_conv v Hchars) in E.
    rewrite andb_true_r in E. by destruct (FastAPI.remove_underscores v).
Qed.

Lemma username_validator_normalizes_witness :
  FastAPI.username_must_be_alphanumeric "ada_lovelace" = Some (Return "ada_lovelace").
Proof.
  apply (proj2 (proj2 (username_validator_normalizes "Ada_Lovelace" ltac:(reflexivity)))).
  reflexivity.
Defined.

Example username_validator_lowers :
  FastAPI.username_must_be_alphanumeric "Ada_Lovelace" = Some (Return "ada_lovelace").
Proof. reflexivity. Qed.

(* ===================================================================== *)
(** ** Creating users *)
(* ===================================================================== *)

(** X12. [POST /api/users] of Flask.  Where [request.get_json()] answers
    for itself (415, 400), that is the answer.  For a decoded body: one that
    counts as false (null, an empty object, 0) is answered with 400; a dict
    is answered with 201 exactly when it has a username that counts as
    true, and with 400 when it has no username or one that counts as
    false; a body that counts as true and is no dict is not checked for:
    the lookup of the username raises AttributeError.  A float, as the body
    or as the username, is left out: its truth value is not known. *)
Theorem flask_api_users_post (req : Flask.request) :
  (Flask.get_json req = Flask.UnsupportedMediaType →
   status <$> Flask.api_users Flask.POST req = Some 415) ∧
  (Flask.get_json req = Flask.BadRequest →
   status <$> Flask.api_users Flask.POST req = Some 400) ∧
  (∀ v, Flask.get_json req = Flask.Json v →
     (truth v = Some false →
      status <$> Flask.api_users Flask.POST req = Some 400) ∧
     (∀ es, v = JDict es →
        (status <$> Flask.api_users Flask.POST req = Some 201
         ↔ ∃ u, entries_get "username" es = Some u ∧ truth u = Some true) ∧
        (status <$> Flask.api_users Flask.POST req = Some 400
         ↔ entries_get "username" es = None
           ∨ ∃ u, entries_get "username" es = Some u ∧ truth u = Some false)) ∧
     (truth v = Some true → is_dict v = false →
      Flask.api_users Flask.POST req = Some (Raise AttributeError))).
Proof.
  unfold Flask.api_users, Flask.the_json.
  split; [by intros -> |]. split; [by intros -> |].
  intros v ->. unfold Flask.api_users_post, Flask.or_empty. split; [| split].
  - intros ->. reflexivity.
  - intros es ->.
    assert (Hdata : ∀ k, get (if truthy (JDict es) then JDict es else JDict []) k JNull
                        = Return (from_option id JNull (entries_get k es)))
      by (by destruct es).
    cbn [truth]. rewrite Hdata.
    destruct (entries_get "username" es) as [u |]; cbn [from_option id].
    + destruct (truth u) as [[|] |] eqn:Eu;
        cbn [negb fmap option_fmap option_map status Flask.jsonify status_code];
        naive_solver congruence.
    + cbn [truth truthy negb fmap option_fmap option_map status Flask.jsonify status_code].
      naive_solver congruence.
  - intros Hv Hd. rewrite Hv. destruct v; try discriminate; reflexivity.
Qed.

Lemma flask_api_users_post_witness :
  status <$> Flask.api_users Flask.POST
               (Flask.Request ∅ ∅ true (Flask.Json (JDict [("username", JStr "")])) None)
  = Some 400.
Proof.
  apply (proj2 (proj2 (proj1 (proj2 (proj2 (proj2 (flask_api_users_post
           (Flask.Request ∅ ∅ true (Flask.Json (JDict [("username", JStr "")])) None)))
           (JDict [("username", JStr "")]) ltac:(reflexivity)))
           [("username", JStr "")] ltac:(reflexivity)))).
  right. exists (JStr ""). split; reflexivity.
Defined.






(* ===================================================================== *)
(** ** More on the Tornado handlers *)
(* ===================================================================== *)

(** X15. [require_permission] lets the method run exactly for the permissions
    in the caller's record: read and write for 'valid-token'; read, write,
    admin and delete for 'admin-token'.  A permission the caller lacks is
    answered with 403, a request without a known token with 401, and in
    both cases the method does not run. *)
Theorem tornado_require_permission
    (permission : string) (method : Tornado.handler) (req : Tornado.request)
    (token : string) :
  Tornado.headers req !! "Authorization" = Some (bearer token) →
  (token = valid_token →
   (permission ∈ ["read"; "write"] →
    Tornado.require_permission permission method req = method req) ∧
   (permission ∉ ["read"; "write"] →
    ∃ r, Tornado.require_permission permission method req = Return r ∧
         status_code r = 403)) ∧
  (token = admin_token →
   (permission ∈ ["read"; "write"; "admin"; "delete"] →
    Tornado.require_permission permission method req = method req) ∧
   (permission ∉ ["read"; "write"; "admin"; "delete"] →
    ∃ r, Tornado.require_permission permission method req = Return r ∧
         status_code r = 403)) ∧
  (token ≠ valid_token → token ≠ admin_token →
   ∃ r, Tornado.require_permission permission method req = Return r ∧
        status_code r = 401).
Proof.
  intros Hh. unfold Tornado.require_permission. split; [| split].
  - intros ->. rewrite (tornado_valid_user req Hh).
    cbn [truthy negb get entries_get String.eqb Ascii.eqb Bool.eqb from_option id
         mbind outcome_bind str_in existsb].
    split.
    + intros Hin. assert (Hp : permission = "read" ∨ permission = "write") by set_solver.
      destruct Hp as [-> | ->]; reflexivity.
    + intros Hout.
      destruct (String.eqb_spec permission "read") as [-> | _]; [set_solver |].
      destruct (String.eqb_spec permission "write") as [-> | _]; [set_solver |].
      eexists. split; reflexivity.
  - intros ->. rewrite (tornado_admin_user req Hh).
    cbn [truthy negb get entries_get String.eqb Ascii.eqb Bool.eqb from_option id
         mbind outcome_bind str_in existsb].
    split.
    + intros Hin.
      assert (Hp : permission = "read" ∨ permission = "write"
                   ∨ permission = "admin" ∨ permission = "delete") by set_solver.
      destruct Hp as [-> | [-> | [-> | ->]]]; reflexivity.
    + intros Hout.
      destruct (String.eqb_spec permission "read") as [-> | _]; [set_solver |].
      destruct (String.eqb_spec permission "write") as [-> | _]; [set_solver |].
      destruct (String.eqb_spec permission "admin") as [-> | _]; [set_solver |].
      destruct (String.eqb_spec permission "delete") as [-> | _]; [set_solver |].
      eexists. split; reflexivity.
  - intros Hv Ha. rewrite (tornado_current_user_unknown req token Hh Hv Ha).
    eexists. split; reflexivity.
Qed.

Lemma tornado_require_permission_witness :
  ∃ r, Tornado.require_permission "delete" Tornado.ProtectedHandler_get
         (tornado_request [] [("Authorization", bearer valid_token)]) = Return r ∧
       status_code r = 403.
Proof.
  apply (proj2 (proj1 (tornado_require_permission "delete" Tornado.ProtectedHandler_get
           (tornado_request [] [("Authorization", bearer valid_token)]) valid_token
           ltac:(reflexivity)) ltac:(reflexivity))).
  set_solver.
Defined.





(* ===================================================================== *)
(** ** More on the websocket handlers *)
(* ===================================================================== *)

(** X18. A frame that is valid JSON but no object: FastAPI echoes the value,
    Starlette answers text_echo, and Tornado's [process_message] calls
    [get] on it and raises AttributeError, with nothing written and the
    set untouched. *)
Theorem websocket_frame_not_an_object
    (json_loads : string → option json) (data : string) (v : json) :
  json_loads data = Some v → is_dict v = false →
  FastAPI.websocket_endpoint json_loads data
    = Return (JDict [("type", JStr "echo"); ("data", v);
                     ("timestamp", JOpaque "time.time()")]) ∧
  (∃ reply, Starlette.websocket_endpoint json_loads data = Return (JDict reply) ∧
            entries_get "type" reply = Some (JStr "text_echo")) ∧
  (∀ (closed : Tornado.Conn → bool) (self : Tornado.Conn) (st : Tornado.ws_state),
     Tornado.on_message json_loads closed self data st
     = Some (Raise AttributeError, st)).
Proof.
  intros Hv Hd.
  unfold FastAPI.websocket_endpoint, Starlette.websocket_endpoint, Tornado.on_message,
    Starlette.process_websocket_message, Tornado.process_message.
  rewrite Hv, Hd. split; [reflexivity |]. split.
  - eexists. split; reflexivity.
  - intros closed self st. by destruct v.
Qed.

Lemma websocket_frame_not_an_object_witness :
  FastAPI.websocket_endpoint Json.loads "[1, 2]"
    = Return (JDict [("type", JStr "echo"); ("data", JList [JInt 1; JInt 2]);
                     ("timestamp", JOpaque "time.time()")]) ∧
  (∃ reply, Starlette.websocket_endpoint Json.loads "[1, 2]" = Return (JDict reply) ∧
            entries_get "type" reply = Some (JStr "text_echo")) ∧
  (∀ (closed : Tornado.Conn → bool) (self : Tornado.Conn) (st : Tornado.ws_state),
     Tornado.on_message Json.loads closed self "[1, 2]" st
     = Some (Raise AttributeError, st)).
Proof.
  apply (websocket_frame_not_an_object Json.loads "[1, 2]" (JList [JInt 1; JInt 2]));
    reflexivity.
Defined.

Section BroadcastMore.

Variable closed : Tornado.Conn → bool.

(** The connections of a set, in table order. *)
Lemma first_key_spec (slots : Tornado.pyset) (pos : nat) :
  match Tornado.first_key slots pos with
  | Some (c, pos') =>
      ∃ k rest, slots = (replicate k None ++ Some c :: rest)%list ∧ pos' = S (pos + k)
  | None => omap id slots = []
  end.
Proof.
  revert pos. induction slots as [| [c |] slots IH]; intros pos; cbn.
  - reflexivity.
  - exists 0%nat, slots. split; [reflexivity | lia].
  - specialize (IH (S pos)). destruct (Tornado.first_key slots (S pos)) as [[c pos'] |].
    + destruct IH as (k & rest & -> & ->). exists (S k), rest. split; [reflexivity | lia].
    + exact IH.
Qed.

Lemma omap_replicate_none {A : Type} (k : nat) (l : list (option A)) :
  omap id (replicate k None ++ l)%list = omap id l.
Proof. induction k as [| k IH]; [reflexivity | exact IH]. Qed.

Lemma drop_after_key (s : Tornado.pyset) (pos k : nat) (c : Tornado.Conn)
    (rest : Tornado.pyset) :
  drop pos s = (replicate k None ++ Some c :: rest)%list →
  drop (S (pos + k)) s = rest ∧ (S (pos + k) <= length s)%nat ∧ Some c ∈ s.
Proof.
  intros Hdrop. split; [| split].
  - replace (S (pos + k)) with (pos + S k)%nat by lia.
    rewrite <- drop_drop, Hdrop.
    rewrite drop_app_ge by (rewrite length_replicate; lia).
    rewrite length_replicate. replace (S k - k)%nat with 1%nat by lia. reflexivity.
  - pose proof (f_equal length Hdrop) as H.
    rewrite length_drop, length_app, length_replicate in H. cbn in H. lia.
  - rewrite <- (take_drop pos s), Hdrop.
    apply elem_of_app. right. apply elem_of_app. right. apply elem_of_cons. by left.
Qed.

(** The loop with every peer open: it runs to the end, leaves the set as
    it is and writes the message to every connection but the sender, in
    table order. *)
Lemma broadcast_loop_all_open (fuel : nat) (self : Tornado.Conn) (msg : json)
    (it : Tornado.setiter) (st : Tornado.ws_state) :
  Tornado.si_used it = Tornado.used (Tornado.connections st) →
  (∀ c, Some c ∈ Tornado.connections st → c ≠ self → closed c = false) →
  (length (Tornado.connections st) - Tornado.si_pos it < fuel)%nat →
  Tornado.broadcast_loop closed fuel self msg it st
  = Some (Return tt,
          Tornado.mkWs (Tornado.connections st)
            (Tornado.written st ++
             ((fun c => (c, msg)) <$>
                List.filter (fun c => negb (Nat.eqb c self))
                  (omap id (drop (Tornado.si_pos it) (Tornado.connections st)))))%list).
Proof.
  revert it st. induction fuel as [| fuel IH]; intros it st Hused Hopen Hfuel; [lia |].
  cbn [Tornado.broadcast_loop]. unfold Tornado.next.
  rewrite Hused, Nat.eqb_refl. cbn [negb].
  pose proof (first_key_spec (drop (Tornado.si_pos it) (Tornado.connections st))
                (Tornado.si_pos it)) as Hspec.
  destruct (Tornado.first_key _ _) as [[c pos'] |].
  - destruct Hspec as (k & rest & Hdrop & ->).
    destruct (drop_after_key _ _ _ _ _ Hdrop) as (Hrest & Hlen & Hin).
    rewrite Hdrop, omap_replicate_none. cbn [omap list_omap id List.filter].
    destruct (Nat.eqb_spec c self) as [-> | Hne]; cbn [negb].
    + rewrite IH; cbn [Tornado.si_used Tornado.si_pos]; [| reflexivity | exact Hopen | lia].
      by rewrite Hrest.
    + unfold Tornado.write_message. rewrite (Hopen c Hin Hne).
      rewrite IH; cbn [Tornado.si_used Tornado.si_pos Tornado.connections Tornado.written];
        [| reflexivity | exact Hopen | lia].
      rewrite Hrest. cbn [fmap list_fmap]. by rewrite <- app_assoc.
  - rewrite Hspec. cbn [List.filter fmap list_fmap]. rewrite app_nil_r. by destruct st.
Qed.

(** What the loop never does, whoever is closed: it writes nothing to the
    sender and nothing to a closed connection, only the broadcast message
    to connections of the set, and it adds no connection to the set. *)
Lemma broadcast_loop_safe (fuel : nat) (self : Tornado.Conn) (msg : json)
    (it : Tornado.setiter) (st : Tornado.ws_state) (o : outcome unit)
    (st' : Tornado.ws_state) :
  Tornado.broadcast_loop closed fuel self msg it st = Some (o, st') →
  ∃ extra,
    Tornado.written st' = (Tornado.written st ++ extra)%list ∧
    Forall (fun w => w.1 ≠ self ∧ w.2 = msg ∧ closed w.1 = false
                     ∧ Some w.1 ∈ Tornado.connections st) extra ∧
    (∀ c, Some c ∈ Tornado.connections st' → Some c ∈ Tornado.connections st).
Proof.
  revert it st. induction fuel as [| fuel IH]; intros it st; [discriminate |].
  cbn [Tornado.broadcast_loop]. unfold Tornado.next.
  destruct (negb _).
  { intros [= <- <-]. exists []. rewrite app_nil_r. by repeat split. }
  pose proof (first_key_spec (drop (Tornado.si_pos it) (Tornado.connections st))
                (Tornado.si_pos it)) as Hspec.
  destruct (Tornado.first_key _ _) as [[c pos'] |].
  2: { intros [= <- <-]. exists []. rewrite app_nil_r. by repeat split. }
  destruct Hspec as (k & rest & Hdrop & ->).
  destruct (drop_after_key _ _ _ _ _ Hdrop) as (_ & _ & Hin).
  destruct (Nat.eqb_spec c self) as [-> | Hne]; cbn [negb]; [apply IH |].
  unfold Tornado.write_message. destruct (closed c) eqn:Hc.
  - intros H. apply IH in H as (extra & Hw & Hall & Hsub).
    cbn [Tornado.connections Tornado.written] in *.
    assert (Hdis : ∀ c', Some c' ∈ Tornado.discard c (Tornado.connections st) →
                         Some c' ∈ Tornado.connections st).
    { intros c' H'. unfold Tornado.discard in H'.
      apply list_elem_of_fmap in H' as (slot & Heq & Hslot).
      destruct (Tornado.slot_holds c slot); [discriminate |]. by subst. }
    exists extra. split; [exact Hw |]. split; [| auto].
    eapply Forall_impl; [exact Hall |]. cbn beta. intros w (H1 & H2 & H3 & H4). auto.
  - intros H. apply IH in H as (extra & Hw & Hall & Hsub).
    cbn [Tornado.connections Tornado.written] in *.
    exists ((c, msg) :: extra). rewrite <- app_assoc in Hw.
    split; [exact Hw |]. split; [| exact Hsub].
    constructor; [by repeat split | exact Hall].
Qed.

End BroadcastMore.

(** The keys of a set, in table order. *)
Lemma used_keys (s : Tornado.pyset) : Tornado.used s = length (omap id s).
Proof.
  unfold Tornado.used. induction s as [| [c |] s IH]; cbn; [reflexivity | | exact IH].
  by rewrite IH.
Qed.

(** X19. A broadcast with every peer open completes: the set stays as it is
    and the message is written once to every connection of the set but
    the sender, in table order, and to nobody else. *)
Theorem broadcast_reaches_all_open_peers
    (closed : Tornado.Conn → bool) (self : Tornado.Conn) (msg : json)
    (st : Tornado.ws_state) :
  (∀ c, Some c ∈ Tornado.connections st → c ≠ self → closed c = false) →
  Tornado.broadcast closed self msg st
  = Some (Return tt,
          Tornado.mkWs (Tornado.connections st)
            (Tornado.written st ++
             ((fun c => (c, msg)) <$>
                List.filter (fun c => negb (Nat.eqb c self))
                  (omap id (Tornado.connections st))))%list).
Proof.
  intros Hopen. unfold Tornado.broadcast.
  rewrite (broadcast_loop_all_open closed); cbn; [reflexivity | reflexivity | exact Hopen | lia].
Qed.

Lemma broadcast_reaches_all_open_peers_witness :
  Tornado.broadcast (fun c => Nat.eqb c 9) 1%nat broadcast_frame
    (Tornado.mkWs [Some 4%nat; None; Some 1%nat; Some 7%nat] [])
  = Some (Return tt,
          Tornado.mkWs [Some 4%nat; None; Some 1%nat; Some 7%nat]
            ([] ++ ((fun c => (c, broadcast_frame)) <$>
                      List.filter (fun c => negb (Nat.eqb c 1))
                        (omap id [Some 4%nat; None; Some 1%nat; Some 7%nat])))%list).
Proof.
  apply (broadcast_reaches_all_open_peers (fun c => Nat.eqb c 9) 1%nat broadcast_frame
           (Tornado.mkWs [Some 4%nat; None; Some 1%nat; Some 7%nat] [])).
  intros c Hc _. cbn in Hc.
  destruct (Nat.eqb_spec c 9) as [-> | _]; [| reflexivity].
  rewrite !elem_of_cons, elem_of_nil in Hc.
  destruct Hc as [[=] | [[=] | [[=] | [[=] | []]]]].
Defined.

(** X20. Whatever happens in a broadcast, completed or not, the writes it adds
    are the broadcast message and go to open connections of the set other
    than the sender; the sender is never written to, and no connection is
    added to the set. *)
Theorem broadcast_never_writes_to_sender
    (closed : Tornado.Conn → bool) (self : Tornado.Conn) (msg : json)
    (st st' : Tornado.ws_state) (o : outcome unit) :
  Tornado.broadcast closed self msg st = Some (o, st') →
  ∃ extra,
    Tornado.written st' = (Tornado.written st ++ extra)%list ∧
    Forall (fun w => w.1 ≠ self ∧ w.2 = msg ∧ closed w.1 = false
                     ∧ Some w.1 ∈ Tornado.connections st) extra ∧
    (∀ c, Some c ∈ Tornado.connections st' → Some c ∈ Tornado.connections st).
Proof. unfold Tornado.broadcast. apply broadcast_loop_safe. Qed.

Lemma broadcast_never_writes_to_sender_witness :
  ∃ extra,
    Tornado.written (Tornado.mkWs [Some 1%nat; Some 3%nat; None; None]
                       [(3%nat, broadcast_frame)])
    = ([] ++ extra)%list ∧
    Forall (fun w => w.1 ≠ 1%nat ∧ w.2 = broadcast_frame ∧ peer_2_closed w.1 = false
                     ∧ Some w.1 ∈ [Some 1%nat; Some 3%nat; None; Some 2%nat]) extra ∧
    (∀ c, Some c ∈ [Some 1%nat; Some 3%nat; None; None] →
          Some c ∈ [Some 1%nat; Some 3%nat; None; Some 2%nat]).
Proof.
  apply (broadcast_never_writes_to_sender peer_2_closed 1%nat broadcast_frame
           (Tornado.mkWs [Some 1%nat; Some 3%nat; None; Some 2%nat] [])
           (Tornado.mkWs [Some 1%nat; Some 3%nat; None; None] [(3%nat, broadcast_frame)])
           (Raise (RuntimeError "Set changed size during iteration"))).
  reflexivity.
Defined.

(** X21. A broadcast with a closed peer in the set other than the sender does
    not complete, wherever that peer sits in the table: the loop leaves
    with RuntimeError. *)
Theorem broadcast_with_closed_peer_raises
    (closed : Tornado.Conn → bool) (self : Tornado.Conn) (msg : json)
    (st : Tornado.ws_state) (c : Tornado.Conn) :
  Some c ∈ Tornado.connections st → c ≠ self → closed c = true →
  ∃ st', Tornado.broadcast closed self msg st
         = Some (Raise (RuntimeError "Set changed size during iteration"), st').
Proof. apply broadcast_raises. Qed.

Lemma broadcast_with_closed_peer_raises_witness :
  ∃ st', Tornado.broadcast peer_2_closed 1%nat broadcast_frame
           (Tornado.mkWs [Some 3%nat; Some 1%nat; None; Some 2%nat] [])
         = Some (Raise (RuntimeError "Set changed size during iteration"), st').
Proof.
  apply (broadcast_with_closed_peer_raises peer_2_closed 1%nat broadcast_frame
           (Tornado.mkWs [Some 3%nat; Some 1%nat; None; Some 2%nat] []) 2%nat).
  - cbn. do 3 (apply elem_of_cons; right). apply elem_of_cons. by left.
  - discriminate.
  - reflexivity.
Defined.

(** X22. [on_close] takes the connection out of the set and nothing else: the
    other connections stay, the number of connections does not grow, and
    a later broadcast by anyone writes nothing to the closed
    connection. *)
Theorem on_close_removes_self_only (self : Tornado.Conn) (st : Tornado.ws_state) :
  ¬ (Some self ∈ Tornado.connections (Tornado.on_close self st)) ∧
  (∀ c, c ≠ self →
        (Some c ∈ Tornado.connections (Tornado.on_close self st)
         ↔ Some c ∈ Tornado.connections st)) ∧
  Tornado.written (Tornado.on_close self st) = Tornado.written st ∧
  (Tornado.used (Tornado.connections (Tornado.on_close self st))
   <= Tornado.used (Tornado.connections st))%nat ∧
  (∀ (closed : Tornado.Conn → bool) (sender : Tornado.Conn) (msg : json)
     (o : outcome unit) (st' : Tornado.ws_state),
     Tornado.broadcast closed sender msg (Tornado.on_close self st) = Some (o, st') →
     ∃ extra, Tornado.written st' = (Tornado.written st ++ extra)%list ∧
              Forall (fun w => w.1 ≠ self) extra).
Proof.
  assert (Hmem : ∀ c, Some c ∈ Tornado.discard self (Tornado.connections st)
                      ↔ c ≠ self ∧ Some c ∈ Tornado.connections st).
  { intros c. unfold Tornado.discard. rewrite list_elem_of_fmap. split.
    - intros (slot & Heq & Hslot). destruct slot as [c' |]; cbn in Heq.
      + destruct (Nat.eqb_spec self c') as [-> | Hne]; [discriminate |].
        injection Heq as ->. by split.
      + discriminate.
    - intros [Hne Hin]. exists (Some c). split; [| exact Hin]. cbn.
      by destruct (Nat.eqb_spec self c) as [-> | _]. }
  cbn [Tornado.on_close Tornado.connections Tornado.written].
  split; [intros H; apply Hmem in H; tauto |].
  split; [intros c Hne; rewrite Hmem; tauto |].
  split; [reflexivity |]. split; [apply used_discard_le |].
  intros closed sender msg o st' H. unfold Tornado.broadcast in H.
  apply broadcast_loop_safe in H as (extra & Hw & Hall & _).
  exists extra. split; [exact Hw |].
  eapply Forall_impl; [exact Hall |]. cbn beta. intros w (_ & _ & _ & Hin).
  apply Hmem in Hin. tauto.
Qed.

(* ===================================================================== *)
(** ** More on parameters the handlers do or do not check *)
(* ===================================================================== *)

(** X23. The Starlette listing answers a page below 1 or a limit outside
    1..100 with 400, but it does not catch the ValueError of [int]: a
    page or limit that is no integer leaves the handler as an
    exception. *)
Theorem starlette_users_list_rejects (req : Starlette.request) :
  (Starlette.query_int (Starlette.query_params req) "page" 1 = Raise ValueError
   ∨ (∃ page, Starlette.query_int (Starlette.query_params req) "page" 1 = Return page)
     ∧ Starlette.query_int (Starlette.query_params req) "limit" 10 = Raise ValueError →
   Starlette.users_list req = Raise ValueError) ∧
  (∀ page limit,
     Starlette.query_int (Starlette.query_params req) "page" 1 = Return page →
     Starlette.query_int (Starlette.query_params req) "limit" 10 = Return limit →
     page < 1 ∨ limit < 1 ∨ 100 < limit →
     status (Starlette.users_list req) = 400).
Proof.
  unfold Starlette.users_list. split.
  - intros [-> | [[page ->] ->]]; reflexivity.
  - intros page limit -> -> Hbad. cbn [mbind outcome_bind].
    destruct (page <? 1) eqn:E1; [reflexivity |].
    destruct (limit <? 1) eqn:E2; [reflexivity |].
    destruct (limit >? 100) eqn:E3; [reflexivity |].
    apply Z.ltb_ge in E1, E2. rewrite Z.gtb_ltb in E3. apply Z.ltb_ge in E3. lia.
Qed.

Lemma starlette_users_list_rejects_witness :
  Starlette.users_list (starlette_request [("page", "two")] [] [] []) = Raise ValueError.
Proof.
  apply (proj1 (starlette_users_list_rejects
                  (starlette_request [("page", "two")] [] [] []))).
  left. reflexivity.
Defined.



Lemma str_from_bearer_inj (t1 t2 : string) : bearer t1 = bearer t2 → t1 = t2.
Proof. intros H. by rewrite <- (str_from_bearer t1), H, str_from_bearer. Qed.

(** X25. [GET /users/<id>] of Tornado shows admin_info to the admin only: for
    an id from 1 to 100 the record in the answer has the key admin_info
    exactly when the request carries 'admin-token' as its bearer token. *)
Theorem tornado_admin_info_for_admin_only
    (user_id : string) (req : Tornado.request) (i : Z) :
  int user_id = Some i → 1 <= i <= 100 →
  ∃ answer user,
    Tornado.UserDetailHandler_get user_id req = Return (Response 200 (JDict answer)) ∧
    entries_get "data" answer = Some (JDict user) ∧
    (is_Some (entries_get "admin_info" user)
     ↔ Tornado.headers req !! "Authorization" = Some (bearer admin_token)).
Proof.
  intros Hs Hi. unfold Tornado.UserDetailHandler_get. rewrite Hs.
  destruct (i <=? 0) eqn:E1; [apply Z.leb_le in E1; lia |].
  unfold Tornado.get_user_details.
  destruct (i >? 100) eqn:E2; [apply Z.gtb_lt in E2; lia |].
  cbn [truthy negb].
  destruct (Tornado.headers req !! "Authorization") as [auth |] eqn:Hh.
  2: { rewrite (tornado_no_header_user req Hh).
       do 2 eexists. split; [reflexivity |]. split; [reflexivity |]. cbn.
       split; [intros [x [=]] | discriminate]. }
  destruct (startswith auth "Bearer ") eqn:Hp.
  2: { unfold Tornado.get_current_user. rewrite Hh. cbn [from_option id]. rewrite Hp.
       do 2 eexists. split; [reflexivity |]. split; [reflexivity |]. cbn.
       split; [intros [x [=]] |]. intros [= ->]. by rewrite startswith_bearer in Hp. }
  rewrite (bearer_inv auth Hp) in Hh |- *. set (token := str_from 7 auth) in *.
  destruct (decide (token = admin_token)) as [-> | Hna].
  - rewrite (tornado_admin_user req Hh).
    do 2 eexists. split; [reflexivity |]. split; [reflexivity |]. cbn.
    split; [reflexivity | eauto].
  - destruct (decide (token = valid_token)) as [-> | Hnv].
    + rewrite (tornado_valid_user req Hh).
      do 2 eexists. split; [reflexivity |]. split; [reflexivity |].
      split; [cbn; intros [x [=]] |]. intros H.
      assert (H' : bearer valid_token = bearer admin_token) by congruence.
      apply str_from_bearer_inj in H'. discriminate H'.
    + rewrite (tornado_current_user_unknown req token Hh Hnv Hna).
      do 2 eexists. split; [reflexivity |]. split; [reflexivity |].
      split; [cbn; intros [x [=]] |]. intros H.
      assert (H' : bearer token = bearer admin_token) by congruence.
      apply str_from_bearer_inj in H'. contradiction.
Qed.

Lemma tornado_admin_info_for_admin_only_witness :
  ∃ answer user,
    Tornado.UserDetailHandler_get "42"
      (tornado_request [] [("Authorization", bearer valid_token)])
      = Return (Response 200 (JDict answer)) ∧
    entries_get "data" answer = Some (JDict user) ∧
    (is_Some (entries_get "admin_info" user)
     ↔ Tornado.headers (tornado_request [] [("Authorization", bearer valid_token)])
         !! "Authorization" = Some (bearer admin_token)).
Proof.
  apply (tornado_admin_info_for_admin_only "42"
           (tornado_request [] [("Authorization", bearer valid_token)]) 42);
    [reflexivity | lia].
Defined.

Lemma tornado_users_get_200_or_400_witness :
  ∃ r, Tornado.UsersHandler_get (tornado_request [("page", "0x10")] []) = Return r ∧
       (status_code r = 200 ∨ status_code r = 400) ∧
       (status_code r = 200 ↔
        ∃ page limit,
          Tornado.int_argument (tornado_request [("page", "0x10")] []) "page" 1
            = Return page ∧
          Tornado.int_argument (tornado_request [("page", "0x10")] []) "limit" 10
            = Return limit ∧
          1 <= page ∧ 1 <= limit <= 100).
Proof. apply (tornado_users_get_200_or_400 (tornado_request [("page", "0x10")] [])). Defined.

Lemma fastapi_get_user_found_iff_witness :
  entries_get "id"
    [("id", JInt 2); ("username", JStr "bob"); ("email", JStr "bob@example.com");
     ("is_active", JBool false); ("is_admin", JBool false);
     ("created_at", JOpaque "time.time()")]
  = Some (JInt 2).
Proof. apply (proj2 (fastapi_get_user_found_iff 2)). reflexivity. Defined.

Lemma on_close_removes_self_only_witness :
  Some 3%nat ∈ Tornado.connections
                 (Tornado.on_close 2%nat (Tornado.mkWs [Some 2%nat; None; Some 3%nat] []))
  ↔ Some 3%nat ∈ Tornado.connections (Tornado.mkWs [Some 2%nat; None; Some 3%nat] []).
Proof.
  apply (proj1 (proj2 (on_close_removes_self_only 2%nat
                         (Tornado.mkWs [Some 2%nat; None; Some 3%nat] []))) 3%nat).
  discriminate.
Defined.

(** X26. A request that gets through [require_auth] is told who it is: the
    protected resource of Flask answers 200 and reports the user admin
    with is_admin true exactly for 'admin-token', and the user user with
    is_admin false for the two other known tokens. *)
Theorem flask_protected_reports_role (req : Flask.request) (token : string) :
  Flask.headers req !! "Authorization" = Some (bearer token) →
  known_token token →
  ∃ body,
    Flask.protected_resource req = Return (Response 200 (JDict body)) ∧
    entries_get "is_admin" body = Some (JBool (bool_decide (token = admin_token))) ∧
    entries_get "user" body
      = Some (JStr (if bool_decide (token = admin_token) then "admin" else "user")).
Proof.
  intros Hh Hk. unfold Flask.protected_resource, Flask.rate_limit, Flask.require_auth.
  flask_bearer Hh.
  rewrite bool_decide_eq_true_2 by (by apply flask_valid_tokens). cbn [negb].
  destruct Hk as [-> | [-> | ->]]; eexists; repeat split; reflexivity.
Qed.

Lemma flask_protected_reports_role_witness :
  ∃ body,
    Flask.protected_resource (flask_request [] [("Authorization", bearer user_token)])
      = Return (Response 200 (JDict body)) ∧
    entries_get "is_admin" body = Some (JBool (bool_decide (user_token = admin_token))) ∧
    entries_get "user" body
      = Some (JStr (if bool_decide (user_token = admin_token) then "admin" else "user")).
Proof.
  apply (flask_protected_reports_role
           (flask_request [] [("Authorization", bearer user_token)]) user_token);
    [reflexivity | right; right; reflexivity].
Defined.
